(** * AlzAssist backend (server.js): a shallow embedding and its properties

    The server keeps one JSON document in [database.json], mirrored in the
    global variable [db]; every handler reloads the file, changes the
    document and rewrites the file.  This development embeds the store
    ([readDB], [writeDB]), the push dispatcher ([sendWebPushNotification]),
    the reminder runner and the request and socket handlers, over a model of
    the JavaScript values they work on. *)

From Stdlib Require Import ZArith List String Bool Lia DecimalString.
Import ListNotations.
Local Open Scope string_scope.
Local Open Scope Z_scope.

(** ** JavaScript values *)

Module JS.

(** A JavaScript number.  [Fin z] is the finite number of integer value [z]:
    the numbers the server makes itself are [Date.now()] readings, and the
    model carries the integers only (no fractions, no negative zero, no
    rounding to 53 bits). *)
Inductive number : Type :=
| NaN
| PosInfinity
| NegInfinity
| Fin (z : Z).

Unset Elimination Schemes.

(** Values are trees: an object is the sequence of its own properties in
    insertion order, an array the sequence of its elements.  An object has
    no two properties of one name; the lists of the model need not be free
    of repetitions, and [lookup] and [assign] below see the first only. *)
Inductive value : Type :=
| VUndefined
| VNull
| VBool (b : bool)
| VNum (n : number)
| VStr (s : string)
| VArr (elems : list value)
| VObj (props : list (string * value)).

(** What a JSON text denotes: the result of reading [database.json] is
    modelled by the tree of the text, not by its characters. *)
Inductive json : Type :=
| JNull
| JBool (b : bool)
| JNum (z : Z)
| JStr (s : string)
| JArr (elems : list json)
| JObj (members : list (string * json)).

Set Elimination Schemes.

Inductive error : Type :=
| TypeError (msg : string)
| ExternalError (msg : string).

Inductive result (A : Type) : Type :=
| Ok (a : A)
| Throw (e : error).
Arguments Ok {A} a.
Arguments Throw {A} e.

(** ToBoolean. *)
Definition truthy (v : value) : bool :=
  match v with
  | VUndefined | VNull => false
  | VBool b => b
  | VNum NaN => false
  | VNum (Fin z) => negb (z =? 0)
  | VNum _ => true
  | VStr s => negb (s =? "")%string
  | VArr _ | VObj _ => true
  end.

(** [a || b] on values. *)
Definition or_else (a b : value) : value := if truthy a then a else b.

Definition number_eqb (a b : number) : bool :=
  match a, b with
  | Fin x, Fin y => x =? y
  | PosInfinity, PosInfinity => true
  | NegInfinity, NegInfinity => true
  | _, _ => false
  end.

(** [a === b].  Two objects (or arrays) are equal when they are the same
    reference; every comparison of the server has one operand that comes
    from the request and one that comes from a fresh [JSON.parse] of the
    file, so two objects never are. *)
Definition strict_eq (a b : value) : bool :=
  match a, b with
  | VUndefined, VUndefined => true
  | VNull, VNull => true
  | VBool x, VBool y => Bool.eqb x y
  | VNum x, VNum y => number_eqb x y
  | VStr x, VStr y => (x =? y)%string
  | _, _ => false
  end.

(** Number::toString for the numbers of the model; an integer prints its
    decimal digits (JavaScript switches to exponent form from 10^21 on, far
    above any [Date.now()]). *)
Definition Number_toString (n : number) : string :=
  match n with
  | NaN => "NaN"
  | PosInfinity => "Infinity"
  | NegInfinity => "-Infinity"
  | Fin z => NilZero.string_of_int (Z.to_int z)
  end.

(** ToString, as a template literal applies it. *)
Fixpoint ToString (v : value) : string :=
  match v with
  | VUndefined => "undefined"
  | VNull => "null"
  | VBool true => "true"
  | VBool false => "false"
  | VNum n => Number_toString n
  | VStr s => s
  | VArr l =>
      (fix join (l : list value) : string :=
         match l with
         | [] => ""
         | x :: r =>
             let sx := match x with
                       | VUndefined | VNull => ""
                       | _ => ToString x
                       end in
             match r with
             | [] => sx
             | _ :: _ => sx ++ "," ++ join r
             end
         end) l
  | VObj _ => "[object Object]"
  end.

(** *** Properties *)

Fixpoint lookup (k : string) (props : list (string * value)) : option value :=
  match props with
  | [] => None
  | (k', v) :: rest => if (k' =? k)%string then Some v else lookup k rest
  end.

(** [o.k] once [o] is known not to be null or undefined.  The server reads
    named fields only ([users], [email], [id], ...), none of which an
    array, a string, a number or a boolean carries. *)
Definition field (o : value) (k : string) : value :=
  match o with
  | VObj props => match lookup k props with Some v => v | None => VUndefined end
  | _ => VUndefined
  end.

Definition nullish (v : value) : bool :=
  match v with
  | VUndefined | VNull => true
  | _ => false
  end.

(** [o.k]: reading a property of null or undefined throws. *)
Definition get (o : value) (k : string) : result value :=
  if nullish o then Throw (TypeError "Cannot read properties of undefined")
  else Ok (field o k).

(** The own properties after [o.k = x]: an existing property keeps its
    place, a new one goes last. *)
Fixpoint assign (k : string) (x : value) (props : list (string * value))
  : list (string * value) :=
  match props with
  | [] => [(k, x)]
  | (k', v) :: rest =>
      if (k' =? k)%string then (k', x) :: rest else (k', v) :: assign k x rest
  end.

(** [o.k = x].  On null and undefined it throws; on a number, a string or a
    boolean it does nothing (the file is not in strict mode); an array
    keeps a named property apart from its elements, where neither
    [JSON.stringify] nor this model sees it. *)
Definition set (o : value) (k : string) (x : value) : result value :=
  match o with
  | VUndefined | VNull =>
      Throw (TypeError "Cannot set properties of undefined")
  | VObj props => Ok (VObj (assign k x props))
  | _ => Ok o
  end.

Definition indices (n : nat) : list string :=
  map (fun i => Number_toString (Fin (Z.of_nat i))) (seq 0 n).

(** [{...n, read: true}] and the like: the own properties of [n], then the
    given one. *)
Definition spread_with (n : value) (k : string) (x : value) : value :=
  match n with
  | VObj props => VObj (assign k x props)
  | VArr elems => VObj (assign k x (combine (indices (List.length elems)) elems))
  | VStr s =>
      let chars := map (fun c => VStr (String c "")) (list_ascii_of_string s) in
      VObj (assign k x (combine (indices (List.length chars)) chars))
  | _ => VObj [(k, x)]
  end.

(** *** JSON *)

(** [JSON.parse] of a well-formed text, on the tree of the text. *)
Fixpoint JSON_parse (j : json) : value :=
  match j with
  | JNull => VNull
  | JBool b => VBool b
  | JNum z => VNum (Fin z)
  | JStr s => VStr s
  | JArr l => VArr (map JSON_parse l)
  | JObj m => VObj (map (fun kv => let '(k, x) := kv in (k, JSON_parse x)) m)
  end.

(** [JSON.stringify]: [None] is the result [undefined].  A property whose
    value is undefined is left out, an undefined array element becomes
    null, and so do NaN and the infinities. *)
Fixpoint JSON_stringify (v : value) : option json :=
  match v with
  | VUndefined => None
  | VNull => Some JNull
  | VBool b => Some (JBool b)
  | VNum (Fin z) => Some (JNum z)
  | VNum _ => Some JNull
  | VStr s => Some (JStr s)
  | VArr l =>
      Some (JArr (map (fun x => match JSON_stringify x with
                                | Some j => j
                                | None => JNull
                                end) l))
  | VObj props =>
      Some (JObj (flat_map (fun kv => let '(k, x) := kv in
                                      match JSON_stringify x with
                                      | Some j => [(k, j)]
                                      | None => []
                                      end) props))
  end.

End JS.

(** ** The server *)

Module Server.
Import JS.

(** [database.json] on disk: missing, holding bytes that [JSON.parse]
    rejects, or holding a JSON text. *)
Inductive disk : Type :=
| Absent
| Unparsable (raw : string)
| Text (j : json).

(** What the process does to the outside, in program order. *)
Inductive effect : Type :=
| Emit (event : string) (payload : value)      (* io.emit(event, payload) *)
| Log (msg : string)                           (* console.log(msg) *)
| Send (subscription : value) (body : option json).
    (* webpush.sendNotification(subscription, body) *)

(** The settlement of a promise; the model runs an asynchronous call to its
    settlement where it is made. *)
Inductive settled : Type :=
| Fulfilled (v : value)
| Rejected (e : error).

(** What the process is given: the environment variables, the clock, the
    reading of a string as a number (ToNumber on strings) and the way the
    push service settles the k-th delivery. *)
Record world : Type := mkWorld {
  VAPID_PUBLIC : string;
  VAPID_PRIVATE : string;
  clock : nat -> Z;
  StringToNumber : string -> number;
  delivery : nat -> value -> option json -> settled
}.

Record state : Type := mkState {
  file : disk;                    (* DB_FILE *)
  db : value;                     (* let db *)
  reads : nat;                    (* calls of Date.now() so far *)
  sends : nat;                    (* calls of webpush.sendNotification so far *)
  trace : list effect;
  warned : list (string * error)  (* console.warn, in the order of the calls
                                     that led to them; the ones of a failed
                                     delivery are printed when it settles *)
}.

Definition with_file (f : disk) (s : state) : state :=
  mkState f (db s) (reads s) (sends s) (trace s) (warned s).
Definition with_db (d : value) (s : state) : state :=
  mkState (file s) d (reads s) (sends s) (trace s) (warned s).
Definition with_reads (n : nat) (s : state) : state :=
  mkState (file s) (db s) n (sends s) (trace s) (warned s).
Definition with_sends (n : nat) (s : state) : state :=
  mkState (file s) (db s) (reads s) n (trace s) (warned s).
Definition with_trace (t : list effect) (s : state) : state :=
  mkState (file s) (db s) (reads s) (sends s) t (warned s).
Definition with_warned (l : list (string * error)) (s : state) : state :=
  mkState (file s) (db s) (reads s) (sends s) (trace s) l.

(** *** Computations: state, and an exception that keeps the state *)

Definition M (A : Type) : Type := state -> result A * state.

Definition ret {A} (a : A) : M A := fun s => (Ok a, s).

Definition bind {A B} (m : M A) (k : A -> M B) : M B :=
  fun s => match m s with
           | (Ok a, s') => k a s'
           | (Throw e, s') => (Throw e, s')
           end.

Definition throw {A} (e : error) : M A := fun s => (Throw e, s).

Definition lift {A} (r : result A) : M A := fun s => (r, s).

Notation "x <- m ;; k" := (bind m (fun x => k))
  (at level 61, m at next level, right associativity).
Notation "m ;; k" := (bind m (fun _ => k))
  (at level 61, right associativity).

Definition load_db : M value := fun s => (Ok (db s), s).
Definition store_db (d : value) : M unit := fun s => (Ok tt, with_db d s).
Definition perform (e : effect) : M unit :=
  fun s => (Ok tt, with_trace (trace s ++ [e]) s).
Definition io_emit (event : string) (payload : value) : M unit :=
  perform (Emit event payload).
Definition console_log (msg : string) : M unit := perform (Log msg).
Definition console_warn (label : string) (e : error) : M unit :=
  fun s => (Ok tt, with_warned (warned s ++ [(label, e)]) s).

(** An [async function]: what its body throws rejects its promise. *)
Definition async (body : M value) : M settled :=
  fun s => match body s with
           | (Ok v, s') => (Ok (Fulfilled v), s')
           | (Throw e, s') => (Ok (Rejected e), s')
           end.

Definition await (p : settled) : M value :=
  match p with
  | Fulfilled v => ret v
  | Rejected e => throw e
  end.

(** [p.catch(err => console.warn(label, err))]. *)
Definition catch_warn (label : string) (p : settled) : M settled :=
  match p with
  | Fulfilled v => ret (Fulfilled v)
  | Rejected e => console_warn label e ;; ret (Fulfilled VUndefined)
  end.

(** [Promise.allSettled]: fulfilled whatever the promises do. *)
Definition status_of (p : settled) : value :=
  match p with
  | Fulfilled v => VObj [("status", VStr "fulfilled"); ("value", v)]
  | Rejected _ => VObj [("status", VStr "rejected")]
  end.
Definition Promise_allSettled (ps : list settled) : settled :=
  Fulfilled (VArr (map status_of ps)).

(** *** Array methods; the callbacks may throw *)

Definition not_a_function {A} (name : string) (recv : value) : M A :=
  if nullish recv
  then throw (TypeError "Cannot read properties of undefined")
  else throw (TypeError (name ++ " is not a function")).

Fixpoint find_in (p : value -> M bool) (l : list value) : M value :=
  match l with
  | [] => ret VUndefined
  | x :: rest => b <- p x ;; if b then ret x else find_in p rest
  end.

Fixpoint filter_in (p : value -> M bool) (l : list value) : M (list value) :=
  match l with
  | [] => ret []
  | x :: rest =>
      b <- p x ;; r <- filter_in p rest ;; ret (if b then x :: r else r)
  end.

Fixpoint map_in {B} (f : value -> M B) (l : list value) : M (list B) :=
  match l with
  | [] => ret []
  | x :: rest => y <- f x ;; r <- map_in f rest ;; ret (y :: r)
  end.

Fixpoint forEach_in (f : value -> M unit) (l : list value) : M unit :=
  match l with
  | [] => ret tt
  | x :: rest => f x ;; forEach_in f rest
  end.

Definition Array_find (recv : value) (p : value -> M bool) : M value :=
  match recv with
  | VArr l => find_in p l
  | _ => not_a_function "find" recv
  end.

Definition Array_filter (recv : value) (p : value -> M bool)
  : M (list value) :=
  match recv with
  | VArr l => filter_in p l
  | _ => not_a_function "filter" recv
  end.

Definition Array_map {B} (recv : value) (f : value -> M B) : M (list B) :=
  match recv with
  | VArr l => map_in f l
  | _ => not_a_function "map" recv
  end.

(** [recv.concat(x)] for an [x] that is not an array; a string has a
    [concat] of its own. *)
Definition concat (recv x : value) : M value :=
  match recv with
  | VArr l => ret (VArr (l ++ [x]))
  | VStr s => ret (VStr (s ++ ToString x))
  | _ => not_a_function "concat" recv
  end.

(** [db.k.push(x)]: the array held by [db] grows in place. *)
Definition db_push (k : string) (x : value) : M unit :=
  d <- load_db ;;
  arr <- lift (get d k) ;;
  match arr with
  | VArr l => d' <- lift (set d k (VArr (l ++ [x]))) ;; store_db d'
  | _ => not_a_function "push" arr
  end.

(** [db.k = x]. *)
Definition db_assign (k : string) (x : value) : M unit :=
  d <- load_db ;; d' <- lift (set d k x) ;; store_db d'.

(** *** Numbers *)

Definition number_ltb (a b : number) : bool :=
  match a, b with
  | NaN, _ | _, NaN => false
  | Fin x, Fin y => x <? y
  | NegInfinity, NegInfinity => false
  | NegInfinity, _ => true
  | _, NegInfinity => false
  | PosInfinity, _ => false
  | Fin _, PosInfinity => true
  end.

(** [a <= b]: false when either is NaN, else the negation of [b < a]. *)
Definition number_leb (a b : number) : bool :=
  match a, b with
  | NaN, _ | _, NaN => false
  | _, _ => negb (number_ltb b a)
  end.

(** ToNumber. *)
Definition ToNumber (w : world) (v : value) : number :=
  match v with
  | VUndefined => NaN
  | VNull => Fin 0
  | VBool true => Fin 1
  | VBool false => Fin 0
  | VNum n => n
  | VStr s => StringToNumber w s
  | VArr _ | VObj _ => StringToNumber w (ToString v)
  end.

(** [v > n] and [v <= n] for a number [n]. *)
Definition gt (w : world) (v : value) (n : number) : bool :=
  number_ltb n (ToNumber w v).
Definition le (w : world) (v : value) (n : number) : bool :=
  number_leb (ToNumber w v) n.

(** *** Express *)

Record request : Type := mkRequest {
  body : value;         (* req.body *)
  params_id : string    (* req.params.id *)
}.

Record response : Type := mkResponse {
  status : Z;
  sent : value          (* the argument of res.json *)
}.

Definition res_json (v : value) : response := mkResponse 200 v.
Definition res_status_json (code : Z) (v : value) : response :=
  mkResponse code v.

Section Handlers.

Variable w : world.

Definition Date_now : M Z :=
  fun s => (Ok (clock w (reads s)), with_reads (S (reads s)) s).

(** *** The store: readDB, writeDB *)

Definition try_catch {A} (body : M A) (handler : error -> M A) : M A :=
  fun s => match body s with
           | (Throw e, s') => handler e s'
           | r => r
           end.

Definition fs_readFileSync : M disk :=
  fun s => match file s with
           | Absent => (Throw (ExternalError "ENOENT"), s)
           | raw => (Ok raw, s)
           end.

Definition JSON_parse_raw (raw : disk) : M value :=
  match raw with
  | Text j => ret (JSON_parse j)
  | _ => throw (ExternalError "SyntaxError")
  end.

(** [fs.writeFileSync(DB_FILE, data)]; [data] is the result of
    [JSON.stringify], a string or undefined. *)
Definition fs_writeFileSync (data : option json) : M unit :=
  match data with
  | Some j => fun s => (Ok tt, with_file (Text j) s)
  | None => throw (TypeError "The data argument must be of type string")
  end.

Definition empty : value :=
  VObj [("users", VArr []); ("patients", VArr []); ("caretakers", VArr []);
        ("notifications", VArr []); ("locationHistory", VArr []);
        ("meds", VArr []); ("journals", VArr []); ("appointments", VArr []);
        ("webpushSubscriptions", VArr [])].

Definition readDB : M value :=
  try_catch
    (raw <- fs_readFileSync ;; JSON_parse_raw raw)
    (fun _ => fs_writeFileSync (JSON_stringify empty) ;; ret empty).

Definition writeDB (data : value) : M unit :=
  fs_writeFileSync (JSON_stringify data).

(** [db = readDB()], [db.k], [writeDB(db)]. *)
Definition reload : M unit := d <- readDB ;; store_db d.
Definition db_get (k : string) : M value := d <- load_db ;; lift (get d k).
Definition save : M unit := d <- load_db ;; writeDB d.

(** *** The push dispatcher *)

Definition webpush_sendNotification (sub : value) (text : option json)
  : M settled :=
  fun s => (Ok (delivery w (sends s) sub text),
            with_sends (S (sends s)) (with_trace (trace s ++ [Send sub text]) s)).

Definition sendWebPushNotification (payload : value) : M settled :=
  async (
    reload ;;
    stored <- db_get "webpushSubscriptions" ;;
    let subs := or_else stored (VArr []) in
    if negb (truthy (VStr (VAPID_PUBLIC w)))
       || negb (truthy (VStr (VAPID_PRIVATE w)))
    then console_log "VAPID not configured - skipping web-push" ;;
         ret VUndefined
    else
      promiseList <- Array_map subs (fun sub =>
        message <- lift (get payload "message") ;;
        p <- webpush_sendNotification sub
               (JSON_stringify (VObj [("title", VStr "AlzAssist");
                                      ("body", message);
                                      ("data", payload)])) ;;
        catch_warn "webpush error" p) ;;
      await (Promise_allSettled promiseList) ;;
      ret VUndefined).

(** [sendWebPushNotification(n).catch(console.warn)]. *)
Definition dispatch (n : value) : M unit :=
  p <- sendWebPushNotification n ;; catch_warn "" p ;; ret tt.

(** *** Socket events *)

Definition on_sos (payload : value) : M unit :=
  reload ;;
  id <- Date_now ;;
  name <- lift (get payload "name") ;;
  from <- lift (get payload "from") ;;
  given <- lift (get payload "time") ;;
  time <- (if truthy given then ret given
           else t <- Date_now ;; ret (VNum (Fin t))) ;;
  let n := VObj [("id", VNum (Fin id)); ("type", VStr "sos");
                 ("message", VStr ("SOS from " ++ ToString (or_else name from)));
                 ("from", from); ("time", time); ("read", VBool false)] in
  db_push "notifications" n ;;
  save ;;
  io_emit "sos" payload ;;
  io_emit "notification" n ;;
  dispatch n.

(** The argument [payload.entry] is read before the receiver of [push] is
    looked at; both failures are the same TypeError here. *)
Definition on_journal (payload : value) : M unit :=
  reload ;;
  entry <- lift (get payload "entry") ;;
  db_push "journals" entry ;;
  save ;;
  io_emit "journal" payload ;;
  id <- Date_now ;;
  author <- lift (get payload "author") ;;
  time <- Date_now ;;
  let n := VObj [("id", VNum (Fin id)); ("type", VStr "journal");
                 ("message", VStr ("New journal from " ++ ToString author));
                 ("time", VNum (Fin time)); ("read", VBool false)] in
  db_push "notifications" n ;;
  save ;;
  io_emit "notification" n ;;
  dispatch n.

Definition on_medicationUpdate (payload : value) : M unit :=
  io_emit "medicationUpdate" payload ;;
  id <- Date_now ;;
  time <- Date_now ;;
  let n := VObj [("id", VNum (Fin id)); ("type", VStr "med");
                 ("message", VStr "Medication updated"); ("payload", payload);
                 ("time", VNum (Fin time)); ("read", VBool false)] in
  reload ;;
  db_push "notifications" n ;;
  save ;;
  io_emit "notification" n ;;
  dispatch n.

(** *** REST endpoints *)

(** [app.post('/register')]. *)
Definition register (req : request) : M response :=
  role <- lift (get (body req) "role") ;;
  name <- lift (get (body req) "name") ;;
  email <- lift (get (body req) "email") ;;
  password <- lift (get (body req) "password") ;;
  reload ;;
  users <- db_get "users" ;;
  found <- Array_find users (fun u =>
             e <- lift (get u "email") ;; ret (strict_eq e email)) ;;
  if truthy found
  then ret (res_status_json 400 (VObj [("message", VStr "Email already exists")]))
  else
    id <- Date_now ;;
    let newUser := VObj [("id", VNum (Fin id)); ("role", role); ("name", name);
                         ("email", email); ("password", password)] in
    db_push "users" newUser ;;
    save ;;
    ret (res_json (VObj [("message", VStr "Registered successfully")])).

(** [app.delete('/meds/:id')]. *)
Definition delete_med (req : request) : M response :=
  let id := VStr (params_id req) in
  reload ;;
  meds <- db_get "meds" ;;
  kept <- Array_filter (or_else meds (VArr [])) (fun m =>
            mid <- lift (get m "id") ;; ret (negb (strict_eq mid id))) ;;
  db_assign "meds" (VArr kept) ;;
  save ;;
  io_emit "medicationUpdate" (VObj [("action", VStr "removed"); ("id", id)]) ;;
  ret (res_json (VObj [("ok", VBool true)])).

(** [app.post('/meds/mark')]. *)
Definition mark_taken (req : request) : M response :=
  medId <- lift (get (body req) "medId") ;;
  by_ <- lift (get (body req) "by") ;;
  reload ;;
  stored <- db_get "medHistory" ;;
  let hist := or_else stored (VArr []) in
  id <- Date_now ;;
  time <- Date_now ;;
  let record := VObj [("id", VStr (Number_toString (Fin id))); ("medId", medId);
                      ("by", by_); ("time", VNum (Fin time))] in
  grown <- concat hist record ;;
  db_assign "medHistory" grown ;;
  save ;;
  io_emit "medicationUpdate"
    (VObj [("action", VStr "taken"); ("medId", medId); ("by", by_)]) ;;
  ret (res_json (VObj [("ok", VBool true); ("record", record)])).

(** [app.delete('/notifications/:id')]: marks as read. *)
Definition mark_read (req : request) : M response :=
  let id := VStr (params_id req) in
  reload ;;
  stored <- db_get "notifications" ;;
  mapped <- Array_map (or_else stored (VArr [])) (fun n =>
              nid <- lift (get n "id") ;;
              ret (if strict_eq nid id
                   then spread_with n "read" (VBool true) else n)) ;;
  db_assign "notifications" (VArr mapped) ;;
  save ;;
  ret (res_json (VObj [("ok", VBool true)])).

(** [app.post('/appointments')]. *)
Definition post_appointment (req : request) : M response :=
  title <- lift (get (body req) "title") ;;
  time <- lift (get (body req) "time") ;;
  forUser <- lift (get (body req) "forUser") ;;
  notes <- lift (get (body req) "notes") ;;
  reload ;;
  id <- Date_now ;;
  createdAt <- Date_now ;;
  let appt := VObj [("id", VStr (Number_toString (Fin id))); ("title", title);
                    ("time", VNum (ToNumber w time));
                    ("forUser", or_else forUser VNull);
                    ("notes", or_else notes (VStr ""));
                    ("createdAt", VNum (Fin createdAt))] in
  db_push "appointments" appt ;;
  save ;;
  io_emit "appointmentCreated" appt ;;
  ret (res_json appt).

(** *** The appointment reminder runner: one tick of the timer *)

Definition remind (a : value) : M unit :=
  id <- Date_now ;;
  title <- lift (get a "title") ;;
  time <- Date_now ;;
  let n := VObj [("id", VStr (Number_toString (Fin id)));
                 ("type", VStr "appointment");
                 ("message", VStr ("Upcoming: " ++ ToString title));
                 ("appointment", a); ("time", VNum (Fin time));
                 ("read", VBool false)] in
  db_push "notifications" n ;;
  save ;;
  io_emit "appointmentReminder" (VObj [("appointment", a)]) ;;
  io_emit "notification" n ;;
  dispatch n.

Definition is_soon (now : Z) (a : value) : M bool :=
  time <- lift (get a "time") ;;
  ret (truthy time && gt w time (Fin now) && le w time (Fin (now + 60 * 1000))).

Definition reminder_tick : M unit :=
  reload ;;
  now <- Date_now ;;
  appointments <- db_get "appointments" ;;
  soon <- (if truthy appointments
           then Array_filter appointments (is_soon now)
           else ret []) ;;
  forEach_in remind soon.

End Handlers.

End Server.

(** ** The rest of the server: the other endpoints and socket events *)

Module Endpoints.
Import JS Server.

(** [db.k.push(arg)] when evaluating the argument has effects: the receiver
    and its [push] are looked up before the argument is evaluated, and
    whether [push] can be called is found out after. *)
Definition db_push_with (k : string) (arg : M value) : M unit :=
  d <- load_db ;;
  arr <- lift (get d k) ;;
  (if nullish arr
   then throw (TypeError "Cannot read properties of undefined")
   else ret tt) ;;
  x <- arg ;;
  match arr with
  | VArr l => d' <- lift (set d k (VArr (l ++ [x]))) ;; store_db d'
  | _ => throw (TypeError "push is not a function")
  end.

(** A request that went through [upload.single('photo')]: the text fields
    and, when a file came with it, the name multer stored it under. *)
Record upload : Type := mkUpload {
  fields : value;           (* req.body *)
  photo : option string     (* req.file.filename *)
}.

Section Handlers.

Variable w : world.

(** *** Socket events *)

(** [socket.on('updateLocation')]. *)
Definition on_updateLocation (payload : value) : M unit :=
  reload ;;
  db_push_with "locationHistory"
    (id <- Date_now w ;;
     userId <- lift (get payload "userId") ;;
     lat <- lift (get payload "lat") ;;
     lng <- lift (get payload "lng") ;;
     given <- lift (get payload "timestamp") ;;
     time <- (if truthy given then ret given
              else t <- Date_now w ;; ret (VNum (Fin t))) ;;
     ret (VObj [("id", VNum (Fin id)); ("userId", userId); ("lat", lat);
                ("lng", lng); ("time", time)])) ;;
  save ;;
  io_emit "locationUpdate" payload.

(** *** REST endpoints *)

(** [app.post('/login')]. *)
Definition login (req : request) : M response :=
  email <- lift (get (body req) "email") ;;
  password <- lift (get (body req) "password") ;;
  reload ;;
  users <- db_get "users" ;;
  user <- Array_find users (fun u =>
            e <- lift (get u "email") ;;
            if strict_eq e email
            then p <- lift (get u "password") ;; ret (strict_eq p password)
            else ret false) ;;
  if negb (truthy user)
  then ret (res_status_json 400 (VObj [("message", VStr "Invalid credentials")]))
  else ret (res_json user).

(** [app.post('/uploadPerson')]. *)
Definition uploadPerson (req : upload) : M response :=
  name <- lift (get (fields req) "name") ;;
  relation <- lift (get (fields req) "relation") ;;
  phone <- lift (get (fields req) "phone") ;;
  ownerId <- lift (get (fields req) "ownerId") ;;
  reload ;;
  db_push_with "patients"
    (id <- Date_now w ;;
     ret (VObj [("id", VNum (Fin id)); ("ownerId", ownerId); ("name", name);
                ("relation", relation); ("phone", phone);
                ("photo", match photo req with
                          | Some filename => VStr filename
                          | None => VNull
                          end)])) ;;
  save ;;
  ret (res_json (VObj [("message", VStr "Person saved successfully")])).

(** [app.get('/meds')], [app.get('/journals')], [app.get('/appointments')],
    [app.get('/notifications')]: [res.json(db.k || [])]. *)
Definition get_sequence (k : string) : M response :=
  reload ;;
  stored <- db_get k ;;
  ret (res_json (or_else stored (VArr []))).

Definition get_meds : M response := get_sequence "meds".
Definition get_journals : M response := get_sequence "journals".
Definition get_appointments : M response := get_sequence "appointments".
Definition get_notifications : M response := get_sequence "notifications".

(** [app.post('/meds')]. *)
Definition post_med (req : request) : M response :=
  name <- lift (get (body req) "name") ;;
  dose <- lift (get (body req) "dose") ;;
  time <- lift (get (body req) "time") ;;
  forUser <- lift (get (body req) "forUser") ;;
  reload ;;
  id <- Date_now w ;;
  createdAt <- Date_now w ;;
  let med := VObj [("id", VStr (Number_toString (Fin id))); ("name", name);
                   ("dose", dose); ("time", time);
                   ("forUser", or_else forUser VNull);
                   ("createdAt", VNum (Fin createdAt))] in
  db_push "meds" med ;;
  save ;;
  io_emit "medicationUpdate" (VObj [("med", med); ("action", VStr "added")]) ;;
  ret (res_json med).

(** [app.post('/journals')]. *)
Definition post_journal (req : request) : M response :=
  author <- lift (get (body req) "author") ;;
  text <- lift (get (body req) "text") ;;
  reload ;;
  id <- Date_now w ;;
  time <- Date_now w ;;
  let entry := VObj [("id", VStr (Number_toString (Fin id)));
                     ("author", author); ("text", text);
                     ("time", VNum (Fin time))] in
  db_push "journals" entry ;;
  save ;;
  io_emit "journal" (VObj [("entry", entry); ("author", author)]) ;;
  nid <- Date_now w ;;
  ntime <- Date_now w ;;
  let n := VObj [("id", VNum (Fin nid)); ("type", VStr "journal");
                 ("message", VStr ("New journal by " ++ ToString author));
                 ("time", VNum (Fin ntime)); ("read", VBool false)] in
  db_push "notifications" n ;;
  save ;;
  io_emit "notification" n ;;
  dispatch w n ;;
  ret (res_json entry).

(** [app.delete('/appointments/:id')]. *)
Definition delete_appointment (req : request) : M response :=
  let id := VStr (params_id req) in
  reload ;;
  appointments <- db_get "appointments" ;;
  kept <- Array_filter (or_else appointments (VArr [])) (fun a =>
            aid <- lift (get a "id") ;; ret (negb (strict_eq aid id))) ;;
  db_assign "appointments" (VArr kept) ;;
  save ;;
  ret (res_json (VObj [("ok", VBool true)])).

(** [app.post('/sos')]. *)
Definition post_sos (req : request) : M response :=
  from <- lift (get (body req) "from") ;;
  name <- lift (get (body req) "name") ;;
  reload ;;
  id <- Date_now w ;;
  time <- Date_now w ;;
  let n := VObj [("id", VStr (Number_toString (Fin id))); ("type", VStr "sos");
                 ("message", VStr ("SOS from " ++ ToString (or_else name from)));
                 ("from", from); ("time", VNum (Fin time));
                 ("read", VBool false)] in
  db_push "notifications" n ;;
  save ;;
  sent <- Date_now w ;;
  io_emit "sos" (VObj [("from", from); ("name", name);
                       ("time", VNum (Fin sent))]) ;;
  io_emit "notification" n ;;
  dispatch w n ;;
  ret (res_json (VObj [("ok", VBool true)])).

(** [app.post('/subscribe')]. *)
Definition subscribe (req : request) : M response :=
  let sub := body req in
  reload ;;
  stored <- db_get "webpushSubscriptions" ;;
  db_assign "webpushSubscriptions" (or_else stored (VArr [])) ;;
  db_push "webpushSubscriptions" sub ;;
  save ;;
  ret (res_json (VObj [("ok", VBool true)])).

(** *** The server as a transition system *)

(** What can happen to the process: a request, a socket event, a tick of
    the reminder timer. *)
Inductive action : Type :=
| Register (req : request)
| Login (req : request)
| UploadPerson (req : upload)
| GetMeds
| PostMed (req : request)
| DeleteMed (req : request)
| MarkTaken (req : request)
| GetJournals
| PostJournal (req : request)
| GetAppointments
| PostAppointment (req : request)
| DeleteAppointment (req : request)
| GetNotifications
| MarkRead (req : request)
| PostSos (req : request)
| Subscribe (req : request)
| UpdateLocation (payload : value)
| Sos (payload : value)
| Journal (payload : value)
| MedicationUpdate (payload : value)
| Tick.

(** The state after an action; a handler that throws leaves the state it
    had reached. *)
Definition serve (a : action) (s : state) : state :=
  match a with
  | Register req => snd (register w req s)
  | Login req => snd (login req s)
  | UploadPerson req => snd (uploadPerson req s)
  | GetMeds => snd (get_meds s)
  | PostMed req => snd (post_med req s)
  | DeleteMed req => snd (delete_med req s)
  | MarkTaken req => snd (mark_taken w req s)
  | GetJournals => snd (get_journals s)
  | PostJournal req => snd (post_journal req s)
  | GetAppointments => snd (get_appointments s)
  | PostAppointment req => snd (post_appointment w req s)
  | DeleteAppointment req => snd (delete_appointment req s)
  | GetNotifications => snd (get_notifications s)
  | MarkRead req => snd (mark_read req s)
  | PostSos req => snd (post_sos req s)
  | Subscribe req => snd (subscribe req s)
  | UpdateLocation payload => snd (on_updateLocation payload s)
  | Sos payload => snd (on_sos w payload s)
  | Journal payload => snd (on_journal w payload s)
  | MedicationUpdate payload => snd (on_medicationUpdate w payload s)
  | Tick => snd (reminder_tick w s)
  end.

End Handlers.

(** The state after a sequence of actions. *)
Definition serve_all (w : world) (actions : list action) (s : state) : state :=
  fold_left (fun s a => serve w a s) actions s.

End Endpoints.

(** ** Properties *)

Import JS Server Endpoints.

(** Structural induction through the lists that values and JSON trees are
    nested in. *)
Section Induction.

Variable P : json -> Prop.
Hypothesis Hnull : P JNull.
Hypothesis Hbool : forall b, P (JBool b).
Hypothesis Hnum : forall z, P (JNum z).
Hypothesis Hstr : forall s, P (JStr s).
Hypothesis Harr : forall l, Forall P l -> P (JArr l).
Hypothesis Hobj : forall m, Forall (fun kv => P (snd kv)) m -> P (JObj m).

Fixpoint json_ind (j : json) : P j :=
  match j with
  | JNull => Hnull
  | JBool b => Hbool b
  | JNum z => Hnum z
  | JStr s => Hstr s
  | JArr l =>
      Harr l ((fix all (l : list json) : Forall P l :=
                 match l with
                 | [] => Forall_nil _
                 | x :: r => Forall_cons x (json_ind x) (all r)
                 end) l)
  | JObj m =>
      Hobj m ((fix all (m : list (string * json))
                 : Forall (fun kv => P (snd kv)) m :=
                 match m with
                 | [] => Forall_nil _
                 | kv :: r => Forall_cons kv (json_ind (snd kv)) (all r)
                 end) m)
  end.

End Induction.

Section ValueInduction.

Variable P : value -> Prop.
Hypothesis Hundef : P VUndefined.
Hypothesis Hnull : P VNull.
Hypothesis Hbool : forall b, P (VBool b).
Hypothesis Hnum : forall n, P (VNum n).
Hypothesis Hstr : forall s, P (VStr s).
Hypothesis Harr : forall l, Forall P l -> P (VArr l).
Hypothesis Hobj : forall m, Forall (fun kv => P (snd kv)) m -> P (VObj m).

Fixpoint value_ind (v : value) : P v :=
  match v with
  | VUndefined => Hundef
  | VNull => Hnull
  | VBool b => Hbool b
  | VNum n => Hnum n
  | VStr s => Hstr s
  | VArr l =>
      Harr l ((fix all (l : list value) : Forall P l :=
                 match l with
                 | [] => Forall_nil _
                 | x :: r => Forall_cons x (value_ind x) (all r)
                 end) l)
  | VObj m =>
      Hobj m ((fix all (m : list (string * value))
                 : Forall (fun kv => P (snd kv)) m :=
                 match m with
                 | [] => Forall_nil _
                 | kv :: r => Forall_cons kv (value_ind (snd kv)) (all r)
                 end) m)
  end.

End ValueInduction.

(** *** Notions used in the statements *)

(** A value that a JSON text can denote: no undefined, no NaN, no infinity
    anywhere in it. *)
Fixpoint plain (v : value) : bool :=
  match v with
  | VUndefined => false
  | VNull | VBool _ | VStr _ => true
  | VNum (Fin _) => true
  | VNum _ => false
  | VArr l => forallb plain l
  | VObj m => forallb (fun kv => plain (snd kv)) m
  end.

(** The properties of an object are plain. *)
Definition plain_props (props : list (string * value)) : bool :=
  forallb (fun kv => plain (snd kv)) props.

(** The document that a load returns. *)
Definition stored (s : state) : value :=
  match file s with
  | Text j => JSON_parse j
  | _ => empty
  end.

(** What [readDB] writes when it finds no document. *)
Definition empty_json : json :=
  JObj [("users", JArr []); ("patients", JArr []); ("caretakers", JArr []);
        ("notifications", JArr []); ("locationHistory", JArr []);
        ("meds", JArr []); ("journals", JArr []); ("appointments", JArr []);
        ("webpushSubscriptions", JArr [])].

(** The top-level sequences of the default document. *)
Definition sequences : list string :=
  ["users"; "patients"; "caretakers"; "notifications"; "locationHistory";
   "meds"; "journals"; "appointments"; "webpushSubscriptions"].

(** The state a load leaves behind. *)
Definition after_load (s : state) : state :=
  match file s with
  | Text _ => s
  | _ => with_file (Text empty_json) s
  end.

(** What a value has become once written to the file and read back. *)
Definition persisted (v : value) : value :=
  match JSON_stringify v with
  | Some j => JSON_parse j
  | None => VNull
  end.

(** The text [JSON.stringify] gives for a value that is not undefined. *)
Definition text_of (v : value) : json :=
  match JSON_stringify v with
  | Some j => j
  | None => JNull
  end.

(** No element is null or undefined: reading a property of each is
    allowed. *)
Definition readable (l : list value) : bool :=
  forallb (fun x => negb (nullish x)) l.

(** What reading a property of null or undefined throws. *)
Definition unreadable : error := TypeError "Cannot read properties of undefined".

(** Both keys are set ([VAPID_PUBLIC && VAPID_PRIVATE]). *)
Definition configured (w : world) : bool :=
  negb (VAPID_PUBLIC w =? "")%string && negb (VAPID_PRIVATE w =? "")%string.

(** The envelope the dispatcher hands to the push service. *)
Definition envelope (payload : value) : option json :=
  JSON_stringify (VObj [("title", VStr "AlzAssist");
                        ("body", field payload "message");
                        ("data", payload)]).

(** The warnings of the deliveries that fail, when the first of them is the
    [k]-th delivery of the process. *)
Fixpoint failures (w : world) (k : nat) (text : option json)
  (subs : list value) : list (string * error) :=
  match subs with
  | [] => []
  | sub :: rest =>
      match delivery w k sub text with
      | Rejected e => [("webpush error", e)]
      | Fulfilled _ => []
      end ++ failures w (S k) text rest
  end.


(** What [app.delete('/notifications/:id')] makes of one notification. *)
Definition marked (id : string) (n : value) : value :=
  if strict_eq (field n "id") (VStr id)
  then spread_with n "read" (VBool true) else n.

(** The record that [POST /meds/mark] makes when [Date.now()] has been read
    [r] times. *)
Definition taken_record (w : world) (r : nat) (req : request) : value :=
  VObj [("id", VStr (Number_toString (Fin (clock w r))));
        ("medId", field (body req) "medId");
        ("by", field (body req) "by");
        ("time", VNum (Fin (clock w (S r))))].

(** A computation that leaves the stored document as it is. *)
Definition quiet_on_store {A} (m : M A) : Prop :=
  forall s r s', m s = (r, s') -> stored s' = stored s.

(** The state after a sequence of [DELETE /notifications/:id] requests. *)
Definition after_marking (reqs : list request) (s : state) : state :=
  fold_left (fun s req => snd (mark_read req s)) reqs s.


(** An appointment as [POST /appointments] can have stored it: its time is
    a number, or null (written for NaN), or missing. *)
Definition timed (a : value) : bool :=
  negb (nullish a)
  && match field a "time" with
     | VNum _ | VNull | VUndefined => true
     | _ => false
     end.

(** The notification made for [a] when [Date.now()] has been read [r]
    times. *)
Definition reminder (w : world) (r : nat) (a : value) : value :=
  VObj [("id", VStr (Number_toString (Fin (clock w r))));
        ("type", VStr "appointment");
        ("message", VStr ("Upcoming: " ++ ToString (field a "title")));
        ("appointment", a);
        ("time", VNum (Fin (clock w (S r))));
        ("read", VBool false)].



(** *** Concrete worlds and states for the examples *)

(** A world without VAPID keys; the clock advances by one at each reading. *)
Definition quiet : world :=
  mkWorld "" "" (fun k => 1700000000000 + Z.of_nat k) (fun _ => NaN)
    (fun _ _ _ => Fulfilled VUndefined).

(** A world with both VAPID keys, in which the second delivery fails. *)
Definition keyed : world :=
  mkWorld "BPublicKey" "privateKey" (fun k => 1700000000000 + Z.of_nat k)
    (fun _ => NaN)
    (fun k _ _ => if Nat.eqb k 1 then Rejected (ExternalError "410 Gone")
                  else Fulfilled VUndefined).

(** Before the first load: no file. *)
Definition start : state := mkState Absent VUndefined 0 0 [] [].

(** A file that does not parse. *)
Definition corrupt : state := mkState (Unparsable "{oops") VUndefined 0 0 [] [].




(** A stored user. *)
Definition ann_json : json :=
  JObj [("id", JNum 1699999990000); ("role", JStr "caretaker");
        ("name", JStr "Ann"); ("email", JStr "ann@example.org");
        ("password", JStr "pw")].

(** Made by [POST /sos]: the id is a string. *)
Definition note_http : json :=
  JObj [("id", JStr "1699999995000"); ("type", JStr "sos");
        ("message", JStr "SOS from Bob"); ("from", JStr "Bob");
        ("time", JNum 1699999995000); ("read", JBool false)].

(** Made by the [sos] socket event: the id is a number. *)
Definition note_socket : json :=
  JObj [("id", JNum 1699999996000); ("type", JStr "sos");
        ("message", JStr "SOS from Bob"); ("from", JStr "Bob");
        ("time", JNum 1699999996000); ("read", JBool false)].

(** A stored medication. *)
Definition med (id name : string) : json :=
  JObj [("id", JStr id); ("name", JStr name); ("dose", JStr "10mg");
        ("time", JStr "08:00"); ("forUser", JNull);
        ("createdAt", JNum 1699999991000)].

(** A stored appointment. *)
Definition visit (id title : string) (time : Z) : json :=
  JObj [("id", JStr id); ("title", JStr title); ("time", JNum time);
        ("forUser", JNull); ("notes", JStr "");
        ("createdAt", JNum 1699999993000)].

(** A stored push subscription. *)
Definition phone (endpoint : string) : json :=
  JObj [("endpoint", JStr endpoint)].

(** A document with one user, two notifications, two medications, two
    appointments (one due within the minute after 1700000000000) and three
    subscriptions. *)
Definition home_json : json :=
  JObj [("users", JArr [ann_json]); ("patients", JArr []);
        ("caretakers", JArr []);
        ("notifications", JArr [note_http; note_socket]);
        ("locationHistory", JArr []);
        ("meds", JArr [med "1699999991000" "Donepezil";
                       med "1699999992000" "Memantine"]);
        ("journals", JArr []);
        ("appointments", JArr [visit "1699999993000" "Neurologist" 1700000030000;
                               visit "1699999994000" "Dentist" 1700000900000]);
        ("webpushSubscriptions",
         JArr [phone "https://push.example/a"; phone "https://push.example/b";
               phone "https://push.example/c"])].

(** The process before any request, with that document on disk. *)
Definition home : state := mkState (Text home_json) VUndefined 0 0 [] [].

(** A second registration with Ann's email. *)
Definition again : request :=
  mkRequest (VObj [("role", VStr "patient"); ("name", VStr "Ann B");
                   ("email", VStr "ann@example.org"); ("password", VStr "x")])
    "".

(** A notification to dispatch. *)
Definition notice : value := JSON_parse note_http.

(** The payload of an [sos] socket event. *)
Definition cry : value := VObj [("from", VStr "Bob"); ("name", VStr "Bob")].

(** A world without VAPID keys whose clock stands still. *)
Definition frozen : world :=
  mkWorld "" "" (fun _ => 1700000000000) (fun _ => NaN)
    (fun _ _ _ => Fulfilled VUndefined).

(** A registration with an email that [home] does not have. *)
Definition bea : request :=
  mkRequest (VObj [("role", VStr "patient"); ("name", VStr "Bea");
                   ("email", VStr "bea@example.org"); ("password", VStr "pw2")])
    "".

(** Bea's login. *)
Definition bea_login : request :=
  mkRequest (VObj [("email", VStr "bea@example.org");
                   ("password", VStr "pw2")]) "".

(** Ann's login. *)
Definition ann_login : request :=
  mkRequest (VObj [("email", VStr "ann@example.org"); ("password", VStr "pw")])
    "".

(** A body for [POST /meds]. *)
Definition pill : request :=
  mkRequest (VObj [("name", VStr "Galantamine"); ("dose", VStr "8mg");
                   ("time", VStr "09:00")]) "".

(** A request that carries the id 1700000000000 in its route. *)
Definition first_id : request := mkRequest VUndefined "1700000000000".

Definition jot : request :=
  mkRequest (VObj [("author", VStr "Ann"); ("text", VStr "A calm day")]) "".


(** A payload for [updateLocation], without a timestamp. *)
Definition walk : value :=
  VObj [("userId", VStr "bob"); ("lat", VNum (Fin 52)); ("lng", VNum (Fin 13))].

(** A form for [POST /uploadPerson] that came without a file. *)
Definition carl : upload :=
  mkUpload (VObj [("name", VStr "Carl"); ("relation", VStr "son");
                  ("phone", VStr "555"); ("ownerId", VStr "1699999990000")])
    None.

(** *** Notions for the properties of the whole server *)

(** A value that is an object. *)
Definition is_object (v : value) : bool :=
  match v with
  | VObj _ => true
  | _ => false
  end.

(** No requirement on an element. *)
Definition anything (v : value) : bool := true.

(** A stored appointment: an object whose time is a number, null or
    missing. *)
Definition appointment (a : value) : bool := is_object a && timed a.

(** What the elements of each sequence of the document are. *)
Definition shape : list (string * (value -> bool)) :=
  [("users", is_object); ("patients", anything); ("caretakers", anything);
   ("notifications", is_object); ("locationHistory", anything);
   ("meds", is_object); ("journals", anything);
   ("appointments", appointment); ("webpushSubscriptions", anything)].

(** The sequences that no handler shortens. *)
Definition append_only : list string :=
  ["users"; "patients"; "notifications"; "locationHistory"; "journals";
   "webpushSubscriptions"].

(** The least number of elements asked of sequence [k]. *)
Definition floor_of (floor : string -> nat) (k : string) : nat :=
  if existsb (String.eqb k) append_only then floor k else 0%nat.

(** An array of at least [n] elements that all satisfy [p]. *)
Definition holds (p : value -> bool) (n : nat) (v : value) : bool :=
  match v with
  | VArr l => forallb p l && (n <=? List.length l)%nat
  | _ => false
  end.

(** A sequence that its first use makes: it is missing, or an array. *)
Definition missing_or_array (v : value) : bool :=
  match v with
  | VUndefined | VArr _ => true
  | _ => false
  end.

(** A document: every sequence of the default document is an array, users,
    medications and notifications are objects, appointments are objects
    with a numeric or missing time, and the history of the medications
    taken is missing or an array; and the sequences that only grow have at
    least [floor] elements. *)
Definition document_above (floor : string -> nat) (d : value) : bool :=
  forallb (fun kp => holds (snd kp) (floor_of floor (fst kp)) (field d (fst kp)))
    shape
  && missing_or_array (field d "medHistory").

(** A document, with no lower bound on the lengths. *)
Definition document (d : value) : bool := document_above (fun _ => 0%nat) d.

(** A value that [JSON.stringify] writes: any but undefined. *)
Definition defined (v : value) : bool :=
  match v with
  | VUndefined => false
  | _ => true
  end.

(** No property holds undefined: a save keeps every property. *)
Definition defined_props (props : list (string * value)) : bool :=
  forallb (fun kv => defined (snd kv)) props.

(** The value of [db] between a load and a save: an object that a save
    turns into a document. *)
Definition in_memory (floor : string -> nat) (d : value) : Prop :=
  exists props,
    d = VObj props /\ defined_props props = true
    /\ document_above floor (persisted d) = true.

(** The stored document is a document. *)
Definition held (floor : string -> nat) (s : state) : Prop :=
  document_above floor (stored s) = true.

(** After a load: the stored document is a document and [db] will be one
    once saved. *)
Definition loaded (floor : string -> nat) (s : state) : Prop :=
  held floor s /\ in_memory floor (db s).

(** [triple floor P m Q]: from a state in [P], [m] returns in [Q] or throws
    in a state whose stored document is still a document. *)
Definition triple {A} (floor : string -> nat) (P : state -> Prop) (m : M A)
  (Q : A -> state -> Prop) : Prop :=
  forall s r s', P s -> m s = (r, s') ->
    match r with
    | Ok a => Q a s'
    | Throw _ => held floor s'
    end.

(** A computation that touches neither the file nor [db]. *)
Definition inert {A} (m : M A) : Prop :=
  forall s r s', m s = (r, s') -> file s' = file s /\ db s' = db s.

(** The properties of an object once saved, when none is undefined. *)
Definition persist_props (props : list (string * value)) :=
  map (fun kv => (fst kv, persisted (snd kv))) props.

(** The number of elements each sequence of [d] has. *)
Definition lengths (d : value) (k : string) : nat :=
  match field d k with
  | VArr l => List.length l
  | _ => 0%nat
  end.

(** The user that [POST /register] makes when [Date.now()] has been read
    [r] times. *)
Definition new_user (w : world) (r : nat) (req : request) : value :=
  VObj [("id", VNum (Fin (clock w r))); ("role", field (body req) "role");
        ("name", field (body req) "name");
        ("email", field (body req) "email");
        ("password", field (body req) "password")].

(** A value that is neither an object nor an array, and that a save keeps:
    undefined stands for a missing field. *)
Definition scalar (v : value) : bool :=
  match v with
  | VUndefined | VNull | VBool _ | VStr _ | VNum (Fin _) => true
  | _ => false
  end.

(** The test of [POST /login] on one user. *)
Definition credentials (email password : value) (u : value) : bool :=
  strict_eq (field u "email") email && strict_eq (field u "password") password.

(** The medication that [POST /meds] makes when [Date.now()] has been read
    [r] times. *)
Definition new_med (w : world) (r : nat) (req : request) : value :=
  VObj [("id", VStr (Number_toString (Fin (clock w r))));
        ("name", field (body req) "name");
        ("dose", field (body req) "dose");
        ("time", field (body req) "time");
        ("forUser", or_else (field (body req) "forUser") VNull);
        ("createdAt", VNum (Fin (clock w (S r))))].



(** The point that [updateLocation] stores when [Date.now()] has been read
    [r] times. *)
Definition location_point (w : world) (r : nat) (payload : value) : value :=
  VObj [("id", VNum (Fin (clock w r)));
        ("userId", field payload "userId");
        ("lat", field payload "lat");
        ("lng", field payload "lng");
        ("time", if truthy (field payload "timestamp")
                 then field payload "timestamp"
                 else VNum (Fin (clock w (S r))))].

(** A handler run for its effects. *)
Definition void {A} (m : M A) : M unit := _ <- m ;; ret tt.

(** What the process does on an action. *)
Definition handle (w : world) (a : action) : M unit :=
  match a with
  | Register req => void (register w req)
  | Login req => void (login req)
  | UploadPerson req => void (uploadPerson w req)
  | GetMeds => void get_meds
  | PostMed req => void (post_med w req)
  | DeleteMed req => void (delete_med req)
  | MarkTaken req => void (mark_taken w req)
  | GetJournals => void get_journals
  | PostJournal req => void (post_journal w req)
  | GetAppointments => void get_appointments
  | PostAppointment req => void (post_appointment w req)
  | DeleteAppointment req => void (delete_appointment req)
  | GetNotifications => void get_notifications
  | MarkRead req => void (mark_read req)
  | PostSos req => void (post_sos w req)
  | Subscribe req => void (subscribe req)
  | UpdateLocation payload => on_updateLocation w payload
  | Sos payload => on_sos w payload
  | Journal payload => on_journal w payload
  | MedicationUpdate payload => on_medicationUpdate w payload
  | Tick => reminder_tick w
  end.

(** An action that has what its handler reads: a request whose fields are
    read has a body, an event whose fields are read has a payload. *)
Definition fit (a : action) : bool :=
  match a with
  | Register req | Login req | PostMed req | MarkTaken req | PostJournal req
  | PostAppointment req | PostSos req => negb (nullish (body req))
  | UploadPerson req => negb (nullish (fields req))
  | UpdateLocation payload | Sos payload | Journal payload =>
      negb (nullish payload)
  | _ => true
  end.

(** [m] returns from every state in [P]. *)
Definition total {A} (P : state -> Prop) (m : M A) : Prop :=
  forall s, P s -> exists a s', m s = (Ok a, s').

(** The patient that [POST /uploadPerson] stores when [Date.now()] has been
    read [r] times. *)
Definition new_patient (w : world) (r : nat) (req : upload) : value :=
  VObj [("id", VNum (Fin (clock w r)));
        ("ownerId", field (fields req) "ownerId");
        ("name", field (fields req) "name");
        ("relation", field (fields req) "relation");
        ("phone", field (fields req) "phone");
        ("photo", match photo req with
                  | Some filename => VStr filename
                  | None => VNull
                  end)].

(** *** JSON: what survives a save *)

Lemma stringify_parse (j : json) : JSON_stringify (JSON_parse j) = Some j.
Proof.
  induction j using json_ind; simpl; try reflexivity.
  - f_equal. f_equal. rewrite map_map.
    induction H as [|x l Hx _ IH]; simpl; [reflexivity|].
    now rewrite Hx, IH.
  - f_equal. f_equal.
    induction H as [|[k x] l Hx _ IH]; simpl in *; [reflexivity|].
    now rewrite Hx, IH.
Qed.

Lemma plain_parse (j : json) : plain (JSON_parse j) = true.
Proof.
  induction j using json_ind; simpl; try reflexivity.
  - induction H as [|x l Hx _ IH]; simpl; [reflexivity|].
    now rewrite Hx, IH.
  - induction H as [|[k x] l Hx _ IH]; simpl in *; [reflexivity|].
    now rewrite Hx, IH.
Qed.

Lemma plain_stringify (v : value) :
  plain v = true -> exists j, JSON_stringify v = Some j /\ JSON_parse j = v.
Proof.
  induction v using value_ind; simpl; intros Hp; try discriminate.
  - now exists JNull.
  - now exists (JBool b).
  - destruct n; try discriminate. now exists (JNum z).
  - now exists (JStr s).
  - eexists; split; [reflexivity|]. simpl. f_equal. rewrite map_map.
    induction H as [|x l Hx _ IH]; simpl in *; [reflexivity|].
    apply andb_true_iff in Hp as [Hx' Hl].
    destruct (Hx Hx') as (j & Hs & Hj). rewrite Hs, Hj. now rewrite IH.
  - eexists; split; [reflexivity|]. simpl. f_equal.
    induction H as [|[k x] l Hx _ IH]; simpl in *; [reflexivity|].
    apply andb_true_iff in Hp as [Hx' Hl].
    destruct (Hx Hx') as (j & Hs & Hj). rewrite Hs. simpl.
    rewrite Hj. now rewrite IH.
Qed.

Lemma persisted_plain (v : value) : plain v = true -> persisted v = v.
Proof.
  intros H. destruct (plain_stringify v H) as (j & Hs & Hj).
  unfold persisted. now rewrite Hs.
Qed.

Lemma persisted_array (l : list value) :
  persisted (VArr l) = VArr (map persisted l).
Proof.
  unfold persisted. simpl. f_equal. rewrite map_map.
  apply map_ext. intros x. now destruct (JSON_stringify x).
Qed.

Lemma map_persisted_plain (l : list value) :
  forallb plain l = true -> map persisted l = l.
Proof.
  induction l as [|x l IH]; simpl; [reflexivity|].
  intros [Hx Hl]%andb_true_iff. now rewrite persisted_plain, IH.
Qed.

Lemma persisted_object_plain (props : list (string * value)) :
  plain_props props = true -> persisted (VObj props) = VObj props.
Proof. intros H. now apply persisted_plain. Qed.

Lemma persisted_assign (k : string) (x : value) (j : json)
  (props : list (string * value)) :
  plain_props props = true ->
  JSON_stringify x = Some j ->
  persisted (VObj (assign k x props)) = VObj (assign k (persisted x) props).
Proof.
  intros Hp Hx.
  assert (Hpx : persisted x = JSON_parse j) by (unfold persisted; now rewrite Hx).
  rewrite Hpx. clear Hpx. unfold persisted. simpl. f_equal.
  induction props as [|[k' v] rest IH]; simpl in *.
  - now rewrite Hx.
  - apply andb_true_iff in Hp as [Hv Hrest].
    destruct (plain_stringify v Hv) as (jv & Hsv & Hjv).
    destruct (k' =? k)%string; simpl.
    + rewrite Hx. simpl. f_equal.
      pose proof (persisted_object_plain rest Hrest) as Hr.
      unfold persisted in Hr. simpl in Hr. now injection Hr.
    + rewrite Hsv. simpl. rewrite Hjv. f_equal. now apply IH.
Qed.

Lemma persisted_assign_array (k : string) (l : list value)
  (props : list (string * value)) :
  plain_props props = true ->
  persisted (VObj (assign k (VArr l) props))
  = VObj (assign k (VArr (map persisted l)) props).
Proof.
  intros Hp. destruct (JSON_stringify (VArr l)) as [j|] eqn:E;
    [|discriminate].
  rewrite (persisted_assign k (VArr l) j props Hp E).
  now rewrite persisted_array.
Qed.

Lemma persisted_field (k : string) (v : value) (props : list (string * value)) :
  lookup k props = Some v -> JSON_stringify v <> None ->
  field (persisted (VObj props)) k = persisted v.
Proof.
  intros Hl Hv. unfold persisted at 1. simpl.
  induction props as [|[k' x] rest IH]; simpl in *; [discriminate|].
  destruct (k' =? k)%string eqn:E.
  - injection Hl as ->. unfold persisted.
    destruct (JSON_stringify v) as [j|]; [|now destruct Hv].
    simpl. now rewrite E.
  - destruct (JSON_stringify x) as [j|]; simpl; [rewrite E|]; now apply IH.
Qed.

Lemma parse_text_of (v : value) : JSON_parse (text_of v) = persisted v.
Proof. unfold text_of, persisted. now destruct (JSON_stringify v). Qed.

Lemma lookup_assign (k k' : string) (x : value) (props : list (string * value)) :
  lookup k' (assign k x props)
  = if (k =? k')%string then Some x else lookup k' props.
Proof.
  induction props as [|[k0 v] rest IH]; simpl.
  - destruct (k =? k')%string eqn:E; reflexivity.
  - destruct (k0 =? k)%string eqn:E0; simpl.
    + apply String.eqb_eq in E0 as ->.
      now destruct (k =? k')%string.
    + destruct (k0 =? k')%string eqn:E1; [|exact IH].
      apply String.eqb_eq in E1 as ->.
      rewrite String.eqb_sym in E0. now rewrite E0.
Qed.

Lemma field_assign (k k' : string) (x : value) (props : list (string * value)) :
  field (VObj (assign k x props)) k'
  = if (k =? k')%string then x else field (VObj props) k'.
Proof.
  simpl. rewrite lookup_assign. now destruct (k =? k')%string.
Qed.

Lemma field_assign_other (k k' : string) (x : value)
  (props : list (string * value)) :
  k <> k' -> field (VObj (assign k x props)) k' = field (VObj props) k'.
Proof.
  intros Hk. rewrite field_assign.
  destruct (k =? k')%string eqn:E; [|reflexivity].
  apply String.eqb_eq in E. contradiction.
Qed.

Lemma field_array_object (o : value) (k : string) (l : list value) :
  field o k = VArr l -> exists props, o = VObj props.
Proof. destruct o; simpl; try discriminate. intros _. now eexists. Qed.

Lemma plain_lookup (k : string) (v : value) (props : list (string * value)) :
  plain_props props = true -> lookup k props = Some v -> plain v = true.
Proof.
  induction props as [|[k' x] rest IH]; simpl; [discriminate|].
  intros [Hx Hrest]%andb_true_iff.
  destruct (k' =? k)%string; [now intros [= <-]|now apply IH].
Qed.

Lemma plain_field_array (o : value) (k : string) (l : list value) :
  plain o = true -> field o k = VArr l -> forallb plain l = true.
Proof.
  destruct o; simpl; try discriminate.
  intros Hp. destruct (lookup k props) as [v|] eqn:E; [|discriminate].
  intros ->. exact (plain_lookup k _ props Hp E).
Qed.

Lemma or_else_array_plain (o : value) (k : string) (l : list value) :
  plain o = true -> or_else (field o k) (VArr []) = VArr l ->
  forallb plain l = true.
Proof.
  intros Hp. unfold or_else.
  destruct (truthy (field o k)); [now apply plain_field_array|].
  now intros [= <-].
Qed.

Lemma plain_assign (k : string) (x : value) (props : list (string * value)) :
  plain_props props = true -> plain x = true ->
  plain_props (assign k x props) = true.
Proof.
  intros Hp Hx. induction props as [|[k' v] rest IH]; simpl in *.
  - now rewrite Hx.
  - apply andb_true_iff in Hp as [Hv Hrest].
    destruct (k' =? k)%string; simpl; [now rewrite Hx|].
    now rewrite Hv, IH.
Qed.

Lemma plain_filter (f : value -> bool) (l : list value) :
  forallb plain l = true -> forallb plain (filter f l) = true.
Proof.
  induction l as [|x l IH]; simpl; [reflexivity|].
  intros [Hx Hl]%andb_true_iff.
  destruct (f x); simpl; [now rewrite Hx, IH|now apply IH].
Qed.

Lemma plain_combine (ks : list string) (l : list value) :
  forallb plain l = true -> plain_props (combine ks l) = true.
Proof.
  revert ks. induction l as [|x l IH]; intros [|k ks]; simpl; try reflexivity.
  intros [Hx Hl]%andb_true_iff. rewrite Hx. now apply IH.
Qed.

Lemma plain_spread (n x : value) (k : string) :
  plain n = true -> plain x = true -> plain (spread_with n k x) = true.
Proof.
  intros Hn Hx. destruct n; simpl in *; rewrite ?Hx; try reflexivity.
  - apply plain_assign; [|exact Hx]. apply plain_combine.
    induction (list_ascii_of_string s); simpl; auto.
  - apply plain_assign; [|exact Hx]. now apply plain_combine.
  - now apply plain_assign.
Qed.

Lemma strict_eq_string (v : value) (i : string) :
  strict_eq v (VStr i) = true <-> v = VStr i.
Proof.
  destruct v; simpl; try (split; [discriminate|intros [=]]).
  rewrite String.eqb_eq. split; [now intros ->|now intros [= ->]].
Qed.

(** *** Running a computation step by step *)

Lemma bind_ok {A B} (m : M A) (k : A -> M B) (s s' : state) (a : A) :
  m s = (Ok a, s') -> (x <- m ;; k x) s = k a s'.
Proof. intros H. unfold bind. now rewrite H. Qed.

Lemma bind_throw {A B} (m : M A) (k : A -> M B) (s s' : state) (e : error) :
  m s = (Throw e, s') -> (x <- m ;; k x) s = (Throw e, s').
Proof. intros H. unfold bind. now rewrite H. Qed.

Lemma bind_inv {A B} (m : M A) (k : A -> M B) (s s' : state) (b : B) :
  (x <- m ;; k x) s = (Ok b, s') ->
  exists a s1, m s = (Ok a, s1) /\ k a s1 = (Ok b, s').
Proof.
  unfold bind. destruct (m s) as [[a|e] s1]; [|discriminate].
  intros H. now exists a, s1.
Qed.

(** One step of a run: the first computation of a sequence returns. *)
Tactic Notation "step" "by" tactic3(t) := erewrite bind_ok by t; cbv beta.

Lemma async_ok (body : M value) (s s' : state) (v : value) :
  body s = (Ok v, s') -> async body s = (Ok (Fulfilled v), s').
Proof. intros H. unfold async. now rewrite H. Qed.

Lemma async_throw (body : M value) (s s' : state) (e : error) :
  body s = (Throw e, s') -> async body s = (Ok (Rejected e), s').
Proof. intros H. unfold async. now rewrite H. Qed.

Lemma get_run (o : value) (k : string) (s : state) :
  nullish o = false -> lift (get o k) s = (Ok (field o k), s).
Proof. intros H. unfold lift, get. now rewrite H. Qed.

Lemma get_null_run (o : value) (k : string) (s : state) :
  nullish o = true -> lift (get o k) s = (Throw unreadable, s).
Proof. intros H. unfold lift, get. now rewrite H. Qed.

Lemma Date_now_run (w : world) (s : state) :
  Date_now w s = (Ok (clock w (reads s)), with_reads (S (reads s)) s).
Proof. reflexivity. Qed.

Lemma db_get_run (k : string) (s : state) :
  nullish (db s) = false -> db_get k s = (Ok (field (db s) k), s).
Proof. intros H. unfold db_get, bind, load_db. now apply get_run. Qed.

Lemma db_push_run (k : string) (x : value) (s : state)
  (props : list (string * value)) (l : list value) :
  db s = VObj props -> field (VObj props) k = VArr l ->
  db_push k x s = (Ok tt, with_db (VObj (assign k (VArr (l ++ [x])) props)) s).
Proof.
  intros Hd Hl. unfold db_push, bind, load_db, lift, get, set, store_db.
  rewrite Hd. cbn [nullish]. now rewrite Hl.
Qed.

Lemma db_push_inv (k : string) (x : value) (s s' : state) :
  db_push k x s = (Ok tt, s') ->
  exists props l,
    db s = VObj props /\ field (VObj props) k = VArr l
    /\ s' = with_db (VObj (assign k (VArr (l ++ [x])) props)) s.
Proof.
  unfold db_push, bind, load_db, lift, get.
  destruct (db s) as [| | | | | |props] eqn:Ed; cbn [nullish field];
    try discriminate;
    try (unfold not_a_function, throw; cbn [nullish]; discriminate).
  destruct (match lookup k props with Some v => v | None => VUndefined end)
    as [| | | | |l|] eqn:El;
    try (unfold not_a_function, throw; cbn [nullish]; discriminate).
  cbn [set store_db]. intros [= <-]. exists props, l.
  repeat split. simpl. exact El.
Qed.

Lemma db_assign_run (k : string) (x : value) (s : state)
  (props : list (string * value)) :
  db s = VObj props ->
  db_assign k x s = (Ok tt, with_db (VObj (assign k x props)) s).
Proof.
  intros Hd. unfold db_assign, bind, load_db, lift, set, store_db.
  now rewrite Hd.
Qed.

Lemma save_run (s : state) (props : list (string * value)) :
  db s = VObj props ->
  save s = (Ok tt, with_file (Text (text_of (VObj props))) s).
Proof.
  intros Hd. unfold save, bind, load_db, writeDB. now rewrite Hd.
Qed.

(** A callback that reads one property of its argument and computes. *)
Lemma map_in_reads {B} (k : string) (g : value -> value -> B)
  (l : list value) (s : state) :
  map_in (fun n => x <- lift (get n k) ;; ret (g n x)) l s
  = (if readable l then Ok (map (fun n => g n (field n k)) l)
     else Throw unreadable, s).
Proof.
  induction l as [|n l IH]; [reflexivity|].
  cbn [map_in readable forallb map]. fold (readable l).
  destruct (nullish n) eqn:En; cbn [negb andb].
  - erewrite bind_throw; [reflexivity|].
    erewrite bind_throw; [reflexivity|]. now apply get_null_run.
  - erewrite bind_ok by (step by (now apply get_run); reflexivity).
    unfold bind at 1. rewrite IH.
    now destruct (readable l).
Qed.

Lemma filter_in_reads (k : string) (g : value -> bool)
  (l : list value) (s : state) :
  filter_in (fun n => x <- lift (get n k) ;; ret (g x)) l s
  = (if readable l then Ok (filter (fun n => g (field n k)) l)
     else Throw unreadable, s).
Proof.
  induction l as [|n l IH]; [reflexivity|].
  cbn [filter_in readable forallb filter]. fold (readable l).
  destruct (nullish n) eqn:En; cbn [negb andb].
  - erewrite bind_throw; [reflexivity|].
    erewrite bind_throw; [reflexivity|]. now apply get_null_run.
  - erewrite bind_ok by (step by (now apply get_run); reflexivity).
    unfold bind at 1. rewrite IH.
    now destruct (readable l).
Qed.

Lemma find_in_reads (k : string) (g : value -> bool)
  (l : list value) (s : state) :
  readable l = true ->
  find_in (fun n => x <- lift (get n k) ;; ret (g x)) l s
  = (Ok (match find (fun n => g (field n k)) l with
         | Some n => n
         | None => VUndefined
         end), s).
Proof.
  induction l as [|n l IH]; [reflexivity|].
  cbn [find_in readable forallb find]. fold (readable l).
  intros [Hn Hl]%andb_true_iff. apply negb_true_iff in Hn.
  erewrite bind_ok by (step by (now apply get_run); reflexivity).
  destruct (g (field n k)); [reflexivity|now apply IH].
Qed.

(** *** The store *)

Lemma readDB_text (s : state) (j : json) :
  file s = Text j -> readDB s = (Ok (JSON_parse j), s).
Proof.
  intros H. unfold readDB, try_catch, bind, fs_readFileSync. now rewrite H.
Qed.

Lemma readDB_fresh (s : state) :
  (forall j, file s <> Text j) ->
  readDB s = (Ok empty, with_file (Text empty_json) s).
Proof.
  intros H. unfold readDB, try_catch, bind, fs_readFileSync.
  destruct (file s) as [|raw|j]; [reflexivity|reflexivity|now destruct (H j)].
Qed.

Lemma readDB_stored (s : state) :
  readDB s = (Ok (stored s), after_load s).
Proof.
  unfold stored, after_load. destruct (file s) as [|raw|j] eqn:E.
  - apply readDB_fresh; intros j; congruence.
  - apply readDB_fresh; intros j; congruence.
  - now apply readDB_text.
Qed.

Lemma stored_after_load (s : state) : stored (after_load s) = stored s.
Proof.
  unfold stored, after_load.
  destruct (file s) eqn:E; simpl; rewrite ?E; reflexivity.
Qed.

Lemma after_load_fields (s : state) :
  db (after_load s) = db s /\ reads (after_load s) = reads s
  /\ sends (after_load s) = sends s /\ trace (after_load s) = trace s
  /\ warned (after_load s) = warned s.
Proof. unfold after_load. now destruct (file s). Qed.

Lemma reload_run (s : state) :
  reload s = (Ok tt, with_db (stored s) (after_load s)).
Proof. unfold reload, bind. now rewrite readDB_stored. Qed.

Lemma stored_defined (s : state) : stored s <> VUndefined.
Proof.
  unfold stored. destruct (file s) as [| |j]; try discriminate.
  now destruct j.
Qed.

Lemma plain_stored (s : state) : plain (stored s) = true.
Proof.
  unfold stored. destruct (file s); try reflexivity. apply plain_parse.
Qed.




(** The converse: what a load returns is always plain, so no other document
    survives the round trip. *)
Lemma load_after_save_is_plain (d d' : value) (s s' : state) :
  (writeDB d ;; readDB) s = (Ok d', s') -> plain d' = true.
Proof.
  unfold bind, writeDB, fs_writeFileSync.
  destruct (JSON_stringify d) as [j|]; simpl; [|discriminate].
  unfold throw. rewrite (readDB_text _ j) by reflexivity.
  intros [= <- _]. apply plain_parse.
Qed.


(** C9: when the file is missing or does not parse, a load writes the empty
    default document over it before returning it, and so does every
    operation that starts with a load. *)
Theorem readDB_overwrites (s : state) :
  file s = Absent \/ (exists raw, file s = Unparsable raw) ->
  readDB s = (Ok empty, with_file (Text empty_json) s)
  /\ JSON_parse empty_json = empty
  /\ file (with_file (Text empty_json) s) <> file s
  /\ (forall k, In k sequences -> field empty k = VArr [])
  /\ (forall (A : Type) (k : value -> M A),
        (d <- readDB ;; k d) s = k empty (with_file (Text empty_json) s)).
Proof.
  intros H.
  assert (Hno : forall j, file s <> Text j).
  { intros j. destruct H as [H|[raw H]]; rewrite H; discriminate. }
  pose proof (readDB_fresh s Hno) as Hr.
  split; [exact Hr|]. split; [reflexivity|]. split.
  - simpl. apply not_eq_sym, Hno.
  - split.
    + intros k Hk. simpl in Hk.
      repeat (destruct Hk as [<-|Hk]; [reflexivity|]). destruct Hk.
    + intros A k. unfold bind. now rewrite Hr.
Qed.

Lemma readDB_overwrites_witness :
  readDB corrupt = (Ok empty, with_file (Text empty_json) corrupt)
  /\ file (with_file (Text empty_json) corrupt) <> file corrupt.
Proof.
  destruct (readDB_overwrites corrupt) as (H1 & _ & H3 & _).
  - right. exists "{oops". reflexivity.
  - split; [exact H1|exact H3].
Defined.

(** *** The push dispatcher *)

Lemma unconfigured_iff (w : world) :
  negb (truthy (VStr (VAPID_PUBLIC w))) || negb (truthy (VStr (VAPID_PRIVATE w)))
  = negb (configured w).
Proof. unfold configured. simpl. now rewrite negb_andb. Qed.

Lemma configured_keys (w : world) :
  configured w = true <-> VAPID_PUBLIC w <> "" /\ VAPID_PRIVATE w <> "".
Proof.
  unfold configured. rewrite andb_true_iff, !negb_true_iff.
  now rewrite !String.eqb_neq.
Qed.

Lemma send_one_run (w : world) (payload sub : value) (s : state) :
  nullish payload = false ->
  exists p,
    (message <- lift (get payload "message") ;;
     p <- webpush_sendNotification w sub
            (JSON_stringify (VObj [("title", VStr "AlzAssist");
                                   ("body", message);
                                   ("data", payload)])) ;;
     catch_warn "webpush error" p) s
    = (Ok p,
       mkState (file s) (db s) (reads s) (S (sends s))
         (trace s ++ [Send sub (envelope payload)])
         (warned s ++ failures w (sends s) (envelope payload) [sub])).
Proof.
  intros Hp. step by (now apply get_run).
  fold (envelope payload). unfold bind, webpush_sendNotification. simpl.
  destruct (delivery w (sends s) sub (envelope payload)) as [v|e]; simpl.
  - exists (Fulfilled v). unfold ret. now rewrite app_nil_r.
  - exists (Fulfilled VUndefined). reflexivity.
Qed.

Lemma fan_out_run (w : world) (payload : value) (subs : list value) (s : state) :
  nullish payload = false ->
  exists ps,
    map_in (fun sub =>
              message <- lift (get payload "message") ;;
              p <- webpush_sendNotification w sub
                     (JSON_stringify (VObj [("title", VStr "AlzAssist");
                                            ("body", message);
                                            ("data", payload)])) ;;
              catch_warn "webpush error" p) subs s
    = (Ok ps,
       mkState (file s) (db s) (reads s) (sends s + List.length subs)
         (trace s ++ map (fun sub => Send sub (envelope payload)) subs)
         (warned s ++ failures w (sends s) (envelope payload) subs)).
Proof.
  intros Hp. revert s.
  induction subs as [|sub rest IH]; intros s.
  - exists []. simpl. unfold ret. rewrite Nat.add_0_r, !app_nil_r.
    now destruct s.
  - destruct (send_one_run w payload sub s Hp) as (p & H1).
    match type of H1 with _ = (_, ?s1) => destruct (IH s1) as (ps & H2) end.
    exists (p :: ps).
    cbn [map_in]. step by exact H1.
    step by exact H2.
    unfold ret. simpl.
    rewrite <- !app_assoc. simpl. f_equal. f_equal. lia.
Qed.

(** What the dispatcher does when the keys are set and the stored
    subscriptions are an array. *)
Lemma dispatcher_configured_run (w : world) (payload : value) (s : state)
  (subs : list value) :
  configured w = true ->
  field (stored s) "webpushSubscriptions" = VArr subs ->
  nullish payload = false ->
  sendWebPushNotification w payload s
  = (Ok (Fulfilled VUndefined),
     mkState (file (after_load s)) (stored s) (reads s)
       (sends s + List.length subs)
       (trace s ++ map (fun sub => Send sub (envelope payload)) subs)
       (warned s ++ failures w (sends s) (envelope payload) subs)).
Proof.
  intros Hc Hsubs Hp.
  destruct (field_array_object _ _ _ Hsubs) as (props & Hobj).
  destruct (after_load_fields s) as (_ & Hr & Hn & Ht & Hw).
  unfold sendWebPushNotification. apply async_ok.
  step by apply reload_run.
  step by (apply db_get_run; simpl; now rewrite Hobj).
  cbn [db with_db]. rewrite Hsubs, unconfigured_iff, Hc.
  cbn [negb or_else truthy]. unfold Array_map.
  destruct (fan_out_run w payload subs (with_db (stored s) (after_load s)) Hp)
    as (ps & Hmap).
  step by exact Hmap.
  unfold Promise_allSettled, await. unfold bind, ret. simpl.
  now rewrite ?Hr, ?Hn, ?Ht, ?Hw.
Qed.

Lemma dispatcher_unconfigured_run (w : world) (payload : value) (s : state) :
  configured w = false ->
  stored s <> VNull ->
  sendWebPushNotification w payload s
  = (Ok (Fulfilled VUndefined),
     mkState (file (after_load s)) (stored s) (reads s) (sends s)
       (trace s ++ [Log "VAPID not configured - skipping web-push"])
       (warned s)).
Proof.
  intros Hc Hnn.
  assert (Hd : nullish (stored s) = false).
  { pose proof (stored_defined s). now destruct (stored s). }
  destruct (after_load_fields s) as (_ & Hr & Hn & Ht & Hw).
  unfold sendWebPushNotification. apply async_ok.
  step by apply reload_run.
  step by (apply db_get_run; exact Hd).
  rewrite unconfigured_iff, Hc. cbn [negb].
  unfold bind, console_log, perform, ret. simpl.
  unfold with_trace, with_db. simpl. now rewrite ?Hr, ?Hn, ?Ht, ?Hw.
Qed.

(** C3, as amended: when both VAPID keys are set, the dispatcher calls the
    push service once for each of the N stored subscriptions, in order,
    whatever way each delivery settles, and its own promise is fulfilled; a
    failed delivery only leaves a warning. *)
Theorem dispatcher_fans_out (w : world) (payload : value) (s : state)
  (subs : list value) :
  VAPID_PUBLIC w <> "" -> VAPID_PRIVATE w <> "" ->
  field (stored s) "webpushSubscriptions" = VArr subs ->
  nullish payload = false ->
  exists s',
    sendWebPushNotification w payload s = (Ok (Fulfilled VUndefined), s')
    /\ trace s'
       = (trace s ++ map (fun sub => Send sub (envelope payload)) subs)%list
    /\ sends s' = (sends s + List.length subs)%nat
    /\ warned s'
       = (warned s ++ failures w (sends s) (envelope payload) subs)%list.
Proof.
  intros Hpub Hpriv Hsubs Hp.
  eexists. split.
  - apply dispatcher_configured_run; [|exact Hsubs|exact Hp].
    apply configured_keys. now split.
  - repeat split.
Qed.

Lemma dispatcher_fans_out_witness :
  exists s',
    sendWebPushNotification keyed notice home = (Ok (Fulfilled VUndefined), s')
    /\ List.length (trace s') = 3%nat
    /\ sends s' = 3%nat
    /\ warned s' = [("webpush error", ExternalError "410 Gone")].
Proof.
  destruct (dispatcher_fans_out keyed notice home
              (map JSON_parse [phone "https://push.example/a";
                               phone "https://push.example/b";
                               phone "https://push.example/c"]))
    as (s' & H1 & H2 & H3 & H4);
    [discriminate|discriminate|reflexivity|reflexivity|].
  exists s'. split; [exact H1|]. split; [now rewrite H2|].
  split; [exact H3|exact H4].
Defined.

(** C3 fails as stated: without the VAPID keys none of the three stored
    subscriptions is tried. *)
Lemma dispatcher_tries_none_without_keys :
  field (stored home) "webpushSubscriptions"
  = VArr (map JSON_parse [phone "https://push.example/a";
                          phone "https://push.example/b";
                          phone "https://push.example/c"])
  /\ sends (snd (sendWebPushNotification quiet notice home)) = 0%nat
  /\ trace (snd (sendWebPushNotification quiet notice home))
     = [Log "VAPID not configured - skipping web-push"].
Proof. repeat split. Qed.

(** When the file holds the JSON text [null], reading
    [db.webpushSubscriptions] rejects the promise of the dispatcher. *)
Lemma dispatcher_null_run (w : world) (payload : value) (s : state) :
  stored s = VNull ->
  sendWebPushNotification w payload s
  = (Ok (Rejected unreadable), with_db VNull (after_load s)).
Proof.
  intros Hnull. unfold sendWebPushNotification. apply async_throw.
  step by apply reload_run. rewrite Hnull.
  erewrite bind_throw; [reflexivity|].
  unfold db_get, bind, load_db. now apply get_null_run.
Qed.

(** C7: with a VAPID key missing the dispatcher calls the push service for
    no subscription, whatever the payload and the state: the call returns
    its promise, nothing is sent, and the trace grows by the log line that
    it skips at most.  The promise is fulfilled, unless the file holds the
    JSON text [null]; and [sendWebPushNotification(n).catch(console.warn)],
    the way every caller invokes it, returns in every case. *)
Theorem dispatcher_without_keys (w : world) (payload : value) (s : state) :
  VAPID_PUBLIC w = "" \/ VAPID_PRIVATE w = "" ->
  exists p s',
    sendWebPushNotification w payload s = (Ok p, s')
    /\ sends s' = sends s
    /\ (trace s' = trace s
        \/ trace s'
           = (trace s ++ [Log "VAPID not configured - skipping web-push"])%list)
    /\ (stored s <> VNull ->
        p = Fulfilled VUndefined
        /\ trace s'
           = (trace s ++ [Log "VAPID not configured - skipping web-push"])%list
        /\ warned s' = warned s)
    /\ exists s'', dispatch w payload s = (Ok tt, s'') /\ sends s'' = sends s.
Proof.
  intros Hkeys.
  assert (Hc : configured w = false).
  { destruct (configured w) eqn:E; [|reflexivity].
    apply configured_keys in E as [Hpub Hpriv].
    destruct Hkeys; contradiction. }
  destruct (after_load_fields s) as (_ & _ & Hn & Ht & _).
  assert (Hcases : stored s = VNull \/ stored s <> VNull).
  { destruct (stored s); (now left) || (right; discriminate). }
  destruct Hcases as [Hnull|Hnn].
  - pose proof (dispatcher_null_run w payload s Hnull) as Hrun.
    eexists _, _. split; [exact Hrun|]. cbn [sends trace with_db].
    split; [exact Hn|]. split; [left; exact Ht|].
    split; [intros Hnn; contradiction|].
    unfold dispatch. step by exact Hrun. cbn [catch_warn].
    unfold bind, console_warn, ret. eexists. split; [reflexivity|]. exact Hn.
  - pose proof (dispatcher_unconfigured_run w payload s Hc Hnn) as Hrun.
    eexists _, _. split; [exact Hrun|]. cbn [sends trace warned].
    split; [reflexivity|]. split; [now right|].
    split; [now intros _|].
    unfold dispatch. step by exact Hrun. cbn [catch_warn].
    unfold bind, ret. eexists. split; reflexivity.
Qed.

Lemma dispatcher_without_keys_witness :
  VAPID_PUBLIC quiet = ""
  /\ exists p s',
       sendWebPushNotification quiet notice home = (Ok p, s')
       /\ sends s' = sends home.
Proof.
  split; [reflexivity|].
  destruct (dispatcher_without_keys quiet notice home)
    as (p & s' & H1 & H2 & _); [now left|].
  exists p, s'. now split.
Defined.


(** The dispatcher never throws into its caller. *)
Lemma dispatch_returns (w : world) (n : value) (s : state) :
  exists s', dispatch w n s = (Ok tt, s').
Proof.
  unfold dispatch, bind, sendWebPushNotification, async.
  match goal with |- context [match ?b s with _ => _ end] =>
    destruct (b s) as [[v|e] s1] end; simpl.
  - now eexists.
  - unfold bind, console_warn, ret. now eexists.
Qed.

(** *** Computations that leave the file alone *)

Create HintDb store discriminated.

Lemma quiet_ret {A} (a : A) : quiet_on_store (ret a).
Proof. now intros s r s' [= _ <-]. Qed.

Lemma quiet_throw {A} (e : error) : quiet_on_store (@throw A e).
Proof. now intros s r s' [= _ <-]. Qed.

Lemma quiet_lift {A} (x : result A) : quiet_on_store (lift x).
Proof. now intros s r s' [= _ <-]. Qed.

Lemma quiet_bind {A B} (m : M A) (k : A -> M B) :
  quiet_on_store m -> (forall a, quiet_on_store (k a)) ->
  quiet_on_store (x <- m ;; k x).
Proof.
  intros Hm Hk s r s'. unfold bind.
  destruct (m s) as [[a|e] s1] eqn:E.
  - intros H. rewrite (Hk a _ _ _ H). exact (Hm _ _ _ E).
  - intros [= _ <-]. exact (Hm _ _ _ E).
Qed.

Lemma quiet_perform (e : effect) : quiet_on_store (perform e).
Proof. now intros s r s' [= _ <-]. Qed.

Lemma quiet_io_emit (event : string) (v : value) : quiet_on_store (io_emit event v).
Proof. apply quiet_perform. Qed.

Lemma quiet_console_log (msg : string) : quiet_on_store (console_log msg).
Proof. apply quiet_perform. Qed.

Lemma quiet_console_warn (label : string) (e : error) :
  quiet_on_store (console_warn label e).
Proof. now intros s r s' [= _ <-]. Qed.

Lemma quiet_reload : quiet_on_store reload.
Proof.
  intros s r s'. rewrite reload_run. intros [= _ <-].
  apply stored_after_load.
Qed.

Lemma quiet_db_get (k : string) : quiet_on_store (db_get k).
Proof.
  unfold db_get. apply quiet_bind; [now intros s r s' [= _ <-]|].
  intros a. apply quiet_lift.
Qed.

Lemma quiet_send (w : world) (sub : value) (text : option json) :
  quiet_on_store (webpush_sendNotification w sub text).
Proof. now intros s r s' [= _ <-]. Qed.

Lemma quiet_catch_warn (label : string) (p : settled) :
  quiet_on_store (catch_warn label p).
Proof.
  destruct p; simpl; [apply quiet_ret|].
  apply quiet_bind; [apply quiet_console_warn|intros; apply quiet_ret].
Qed.

Lemma quiet_await (p : settled) : quiet_on_store (await p).
Proof. destruct p; [apply quiet_ret|apply quiet_throw]. Qed.

Lemma quiet_not_a_function {A} (name : string) (recv : value) :
  quiet_on_store (@not_a_function A name recv).
Proof. unfold not_a_function. destruct (nullish recv); apply quiet_throw. Qed.

Lemma quiet_map_in {B} (f : value -> M B) (l : list value) :
  (forall x, quiet_on_store (f x)) -> quiet_on_store (map_in f l).
Proof.
  intros Hf. induction l as [|x l IH]; simpl; [apply quiet_ret|].
  apply quiet_bind; [apply Hf|]. intros y.
  apply quiet_bind; [exact IH|]. intros r. apply quiet_ret.
Qed.

Lemma quiet_Array_map {B} (recv : value) (f : value -> M B) :
  (forall x, quiet_on_store (f x)) -> quiet_on_store (Array_map recv f).
Proof.
  intros Hf. destruct recv; simpl; try apply quiet_not_a_function.
  now apply quiet_map_in.
Qed.

Lemma quiet_async (body : M value) :
  quiet_on_store body -> quiet_on_store (async body).
Proof.
  intros Hb s r s'. unfold async.
  destruct (body s) as [[v|e] s1] eqn:E; intros [= _ <-]; exact (Hb _ _ _ E).
Qed.

#[local] Hint Resolve quiet_ret quiet_throw quiet_lift quiet_perform
  quiet_io_emit quiet_console_log quiet_console_warn quiet_reload
  quiet_db_get quiet_send quiet_catch_warn quiet_await quiet_not_a_function
  : store.

Lemma quiet_sendWebPushNotification (w : world) (payload : value) :
  quiet_on_store (sendWebPushNotification w payload).
Proof.
  unfold sendWebPushNotification. apply quiet_async.
  apply quiet_bind; [auto with store|]. intros _.
  apply quiet_bind; [auto with store|]. intros stored.
  destruct (_ || _).
  - apply quiet_bind; auto with store.
  - apply quiet_bind.
    + apply quiet_Array_map. intros sub.
      apply quiet_bind; [auto with store|]. intros message.
      apply quiet_bind; auto with store.
    + intros ps. apply quiet_bind; auto with store.
Qed.

Lemma quiet_dispatch (w : world) (n : value) : quiet_on_store (dispatch w n).
Proof.
  unfold dispatch. apply quiet_bind; [apply quiet_sendWebPushNotification|].
  intros p. apply quiet_bind; auto with store.
Qed.

(** *** Registration *)

Lemma find_some_first (f : value -> bool) (l : list value) (u : value) :
  In u l -> f u = true -> exists u0, find f l = Some u0 /\ f u0 = true.
Proof.
  intros Hin Hf. destruct (find f l) as [u0|] eqn:E.
  - exists u0. split; [reflexivity|]. now apply find_some in E.
  - now rewrite (find_none _ _ E u Hin) in Hf.
Qed.

Lemma stored_users_text (s : state) (us : list value) (u : value) :
  field (stored s) "users" = VArr us -> In u us -> after_load s = s.
Proof.
  unfold stored, after_load.
  destruct (file s); try reflexivity; simpl; intros [= <-] [].
Qed.

(** [app.post('/register')] when the email is taken. *)
Lemma register_duplicate_run (w : world) (req : request) (s : state)
  (us : list value) (e : string) :
  field (body req) "email" = VStr e ->
  field (stored s) "users" = VArr us ->
  readable us = true ->
  (exists u, In u us /\ field u "email" = VStr e) ->
  register w req s
  = (Ok (res_status_json 400 (VObj [("message", VStr "Email already exists")])),
     with_db (stored s) s).
Proof.
  intros Hemail Husers Hread (u & Hin & Hu).
  assert (Hbody : nullish (body req) = false).
  { destruct (body req); try reflexivity; discriminate. }
  destruct (field_array_object _ _ _ Husers) as (props & Hobj).
  destruct (find_some_first (fun n => strict_eq (field n "email") (VStr e)) us u Hin)
    as (u0 & Hfind & Hu0).
  { rewrite Hu. simpl. apply String.eqb_refl. }
  apply strict_eq_string in Hu0.
  unfold register.
  do 4 (step by (now apply get_run)).
  step by apply reload_run.
  rewrite (stored_users_text s us u Husers Hin).
  step by (apply db_get_run; cbn [db with_db]; now rewrite Hobj).
  cbn [db with_db]. rewrite Husers, Hemail. unfold Array_find.
  step by (now apply find_in_reads).
  rewrite Hfind.
  destruct u0; simpl in Hu0; try discriminate. reflexivity.
Qed.

(** C1, as amended: when a stored user has the email of the request, the
    registration is answered with status 400 and the message that the email
    exists; nothing is written, no id is drawn, and the stored users are the
    same. *)
Theorem register_duplicate (w : world) (req : request) (s : state)
  (us : list value) (e : string) :
  field (body req) "email" = VStr e ->
  field (stored s) "users" = VArr us ->
  readable us = true ->
  (exists u, In u us /\ field u "email" = VStr e) ->
  exists s',
    register w req s
    = (Ok (res_status_json 400
             (VObj [("message", VStr "Email already exists")])), s')
    /\ file s' = file s
    /\ field (stored s') "users" = VArr us
    /\ db s' = stored s
    /\ reads s' = reads s
    /\ trace s' = trace s.
Proof.
  intros Hemail Husers Hread Hdup.
  exists (with_db (stored s) s). split.
  - now apply register_duplicate_run with (us := us) (e := e).
  - repeat split. exact Husers.
Qed.

Lemma register_duplicate_witness :
  field (stored home) "users" = VArr [JSON_parse ann_json]
  /\ exists s',
       register quiet again home
       = (Ok (res_status_json 400
                (VObj [("message", VStr "Email already exists")])), s')
       /\ file s' = file home.
Proof.
  split; [reflexivity|].
  destruct (register_duplicate quiet again home [JSON_parse ann_json]
              "ann@example.org") as (s' & H1 & H2 & _);
    [reflexivity|reflexivity|reflexivity| |].
  - exists (JSON_parse ann_json). split; [now left|reflexivity].
  - exists s'. now split.
Defined.

(** C1 fails as stated: the conflict is answered with status 400, not
    409. *)
Lemma register_duplicate_not_409 :
  exists r, fst (register quiet again home) = Ok r
            /\ status r = 400 /\ status r <> 409.
Proof. eexists. split; [reflexivity|]. split; [reflexivity|discriminate]. Qed.

(** *** Medications *)

(** [app.delete('/meds/:id')] on a document whose medications can be read. *)
Lemma delete_med_run (req : request) (s : state)
  (props : list (string * value)) (meds : list value) :
  stored s = VObj props ->
  or_else (field (stored s) "meds") (VArr []) = VArr meds ->
  readable meds = true ->
  exists s',
    delete_med req s = (Ok (res_json (VObj [("ok", VBool true)])), s')
    /\ stored s'
       = VObj (assign "meds"
                 (VArr (filter (fun m => negb (strict_eq (field m "id")
                                                (VStr (params_id req)))) meds))
                 props)
    /\ trace s'
       = (trace s ++ [Emit "medicationUpdate"
                        (VObj [("action", VStr "removed");
                               ("id", VStr (params_id req))])])%list.
Proof.
  intros Hobj Hmeds Hread.
  pose proof (plain_stored s) as Hplain.
  pose proof (or_else_array_plain _ _ _ Hplain Hmeds) as Hmp.
  rewrite Hobj in Hplain. simpl in Hplain. fold (plain_props props) in Hplain.
  destruct (after_load_fields s) as (_ & _ & _ & Ht & _).
  set (kept := filter _ meds).
  assert (Hk : plain (VArr kept) = true) by (now apply plain_filter).
  eexists. split; [|split].
  - unfold delete_med.
    step by apply reload_run.
    step by (apply db_get_run; cbn [db with_db]; now rewrite Hobj).
    cbn [db with_db]. rewrite Hmeds. unfold Array_filter.
    step by (rewrite filter_in_reads, Hread; reflexivity).
    fold kept.
    step by (apply db_assign_run with (props := props); cbn [db with_db];
          exact Hobj).
    step by (now apply save_run).
    step by reflexivity.
    reflexivity.
  - cbn [stored file with_trace with_file]. rewrite parse_text_of.
    apply persisted_plain. now apply plain_assign.
  - cbn. now rewrite Ht.
Qed.

(** C5: deleting a medication by id removes the medications whose id is the
    given one and keeps every other medication as it was, in order; the ids
    left are the ids before without the given one, and no other sequence of
    the document changes. *)
Theorem delete_med_removes (req : request) (s : state)
  (props : list (string * value)) (meds : list value) :
  stored s = VObj props ->
  or_else (field (stored s) "meds") (VArr []) = VArr meds ->
  readable meds = true ->
  exists s' kept,
    delete_med req s = (Ok (res_json (VObj [("ok", VBool true)])), s')
    /\ field (stored s') "meds" = VArr kept
    /\ kept = filter (fun m => negb (strict_eq (field m "id")
                                       (VStr (params_id req)))) meds
    /\ (forall m, In m kept
                  <-> In m meds /\ field m "id" <> VStr (params_id req))
    /\ (forall i, In i (map (fun m => field m "id") kept)
                  <-> In i (map (fun m => field m "id") meds)
                      /\ i <> VStr (params_id req))
    /\ (forall k, k <> "meds" -> field (stored s') k = field (stored s) k).
Proof.
  intros Hobj Hmeds Hread.
  destruct (delete_med_run req s props meds Hobj Hmeds Hread)
    as (s' & Hrun & Hstored & _).
  assert (Hin : forall m,
    In m (filter (fun m => negb (strict_eq (field m "id")
                                   (VStr (params_id req)))) meds)
    <-> In m meds /\ field m "id" <> VStr (params_id req)).
  { intros m. rewrite filter_In, negb_true_iff.
    rewrite <- (strict_eq_string (field m "id") (params_id req)).
    now destruct (strict_eq (field m "id") (VStr (params_id req))). }
  exists s'. eexists. split; [exact Hrun|]. split; [|split; [reflexivity|]].
  - rewrite Hstored, field_assign. reflexivity.
  - split; [exact Hin|]. split.
    + intros i. rewrite !in_map_iff. split.
      * intros (m & <- & Hm). apply Hin in Hm as [Hm Hne].
        split; [now exists m|exact Hne].
      * intros [(m & <- & Hm) Hne]. exists m. split; [reflexivity|].
        apply Hin. now split.
    + intros k Hk. rewrite Hstored, Hobj.
      now apply field_assign_other.
Qed.

Lemma delete_med_removes_witness :
  exists s' kept,
    delete_med (mkRequest VUndefined "1699999991000") home
    = (Ok (res_json (VObj [("ok", VBool true)])), s')
    /\ field (stored s') "meds" = VArr kept
    /\ kept = [JSON_parse (med "1699999992000" "Memantine")].
Proof.
  destruct (delete_med_removes (mkRequest VUndefined "1699999991000") home
              _ _ eq_refl eq_refl eq_refl)
    as (s' & kept & H1 & H2 & H3 & _).
  exists s', kept. split; [exact H1|]. split; [exact H2|exact H3].
Defined.

Lemma mark_taken_run (w : world) (req : request) (s : state)
  (props : list (string * value)) (hist : list value) :
  nullish (body req) = false ->
  stored s = VObj props ->
  or_else (field (stored s) "medHistory") (VArr []) = VArr hist ->
  exists s',
    mark_taken w req s
    = (Ok (res_json (VObj [("ok", VBool true);
                           ("record", taken_record w (reads s) req)])), s')
    /\ stored s'
       = VObj (assign "medHistory"
                 (VArr (hist ++ [persisted (taken_record w (reads s) req)]))
                 props)
    /\ trace s'
       = (trace s ++ [Emit "medicationUpdate"
                        (VObj [("action", VStr "taken");
                               ("medId", field (body req) "medId");
                               ("by", field (body req) "by")])])%list.
Proof.
  intros Hbody Hobj Hhist.
  pose proof (plain_stored s) as Hplain.
  pose proof (or_else_array_plain _ _ _ Hplain Hhist) as Hhp.
  rewrite Hobj in Hplain. simpl in Hplain. fold (plain_props props) in Hplain.
  destruct (after_load_fields s) as (_ & Hr & _ & Ht & _).
  set (record := taken_record w (reads s) req).
  eexists. split; [|split].
  - unfold mark_taken.
    step by (now apply get_run).
    step by (now apply get_run).
    step by apply reload_run.
    step by (apply db_get_run; cbn [db with_db]; now rewrite Hobj).
    cbn [db with_db]. rewrite Hhist.
    step by apply Date_now_run.
    step by apply Date_now_run.
    cbn [reads with_reads with_db]. rewrite Hr.
    fold (taken_record w (reads s) req). fold record.
    step by reflexivity.
    step by (apply db_assign_run with (props := props); cbn; exact Hobj).
    step by (now apply save_run).
    step by reflexivity.
    reflexivity.
  - cbn [stored file with_trace with_file]. rewrite parse_text_of.
    rewrite (persisted_assign_array _ _ _ Hplain).
    now rewrite map_app, map_persisted_plain.
  - cbn. now rewrite Ht.
Qed.

(** C10: marking a medication as taken appends one record to [medHistory]
    (starting from the empty sequence when the document has none), whatever
    [medId] is, answers with the record, and changes no other sequence. *)
Theorem mark_taken_appends (w : world) (req : request) (s : state)
  (props : list (string * value)) (hist : list value) :
  nullish (body req) = false ->
  stored s = VObj props ->
  or_else (field (stored s) "medHistory") (VArr []) = VArr hist ->
  exists s' record,
    record = taken_record w (reads s) req
    /\ mark_taken w req s
       = (Ok (res_json (VObj [("ok", VBool true); ("record", record)])), s')
    /\ field (stored s') "medHistory" = VArr (hist ++ [persisted record])
    /\ (field (stored s) "medHistory" = VUndefined ->
        field (stored s') "medHistory" = VArr [persisted record])
    /\ field (persisted record) "id" = field record "id"
    /\ field (persisted record) "time" = field record "time"
    /\ (plain (field (body req) "medId") = true ->
        plain (field (body req) "by") = true -> persisted record = record)
    /\ (forall k, k <> "medHistory" ->
          field (stored s') k = field (stored s) k).
Proof.
  intros Hbody Hobj Hhist.
  destruct (mark_taken_run w req s props hist Hbody Hobj Hhist)
    as (s' & Hrun & Hstored & _).
  exists s', (taken_record w (reads s) req).
  split; [reflexivity|]. split; [exact Hrun|].
  assert (Hh : field (stored s') "medHistory"
               = VArr (hist ++ [persisted (taken_record w (reads s) req)])).
  { rewrite Hstored, field_assign. reflexivity. }
  split; [exact Hh|]. split.
  { intros Hu. rewrite Hu in Hhist. injection Hhist as <-. exact Hh. }
  split.
  { unfold taken_record.
    now rewrite (persisted_field "id"
                   (VStr (Number_toString (Fin (clock w (reads s)))))). }
  split.
  { unfold taken_record.
    now rewrite (persisted_field "time" (VNum (Fin (clock w (S (reads s)))))). }
  split.
  - intros Hm Hb. apply persisted_plain. simpl. now rewrite Hm, Hb.
  - intros k Hk. rewrite Hstored, Hobj.
    now apply field_assign_other.
Qed.

Lemma mark_taken_appends_witness :
  exists s' record,
    mark_taken quiet
      (mkRequest (VObj [("medId", VStr "no such medication");
                        ("by", VStr "Ann")]) "") home
    = (Ok (res_json (VObj [("ok", VBool true); ("record", record)])), s')
    /\ field (stored s') "medHistory" = VArr ([] ++ [persisted record]).
Proof.
  destruct (mark_taken_appends quiet
              (mkRequest (VObj [("medId", VStr "no such medication");
                                ("by", VStr "Ann")]) "") home
              _ _ eq_refl eq_refl eq_refl)
    as (s' & record & _ & H1 & H2 & _).
  exists s', record. split; [exact H1|exact H2].
Defined.

(** *** Notifications: marking as read *)

Lemma plain_marked (id : string) (l : list value) :
  forallb plain l = true -> forallb plain (map (marked id) l) = true.
Proof.
  induction l as [|n l IH]; simpl; [reflexivity|].
  intros [Hn Hl]%andb_true_iff. rewrite IH by exact Hl.
  unfold marked. destruct (strict_eq _ _); [|now rewrite Hn].
  now rewrite plain_spread.
Qed.

Lemma mark_read_run (req : request) (s : state)
  (props : list (string * value)) (ns : list value) :
  stored s = VObj props ->
  or_else (field (stored s) "notifications") (VArr []) = VArr ns ->
  readable ns = true ->
  exists s',
    mark_read req s = (Ok (res_json (VObj [("ok", VBool true)])), s')
    /\ stored s'
       = VObj (assign "notifications"
                 (VArr (map (marked (params_id req)) ns)) props)
    /\ trace s' = trace s.
Proof.
  intros Hobj Hns Hread.
  pose proof (plain_stored s) as Hplain.
  pose proof (or_else_array_plain _ _ _ Hplain Hns) as Hnp.
  rewrite Hobj in Hplain. simpl in Hplain. fold (plain_props props) in Hplain.
  destruct (after_load_fields s) as (_ & _ & _ & Ht & _).
  set (out := map (marked (params_id req)) ns).
  assert (Hk : plain (VArr out) = true) by (now apply plain_marked).
  eexists. split; [|split].
  - unfold mark_read.
    step by apply reload_run.
    step by (apply db_get_run; cbn [db with_db]; now rewrite Hobj).
    cbn [db with_db]. rewrite Hns. unfold Array_map.
    step by (rewrite (map_in_reads "id"
                     (fun n nid => if strict_eq nid (VStr (params_id req))
                                   then spread_with n "read" (VBool true)
                                   else n)), Hread; reflexivity).
    fold (marked (params_id req)). fold out.
    step by (apply db_assign_run with (props := props); cbn [db with_db];
          exact Hobj).
    step by (now apply save_run).
    reflexivity.
  - cbn [stored file with_trace with_file]. rewrite parse_text_of.
    apply persisted_plain. now apply plain_assign.
  - cbn. exact Ht.
Qed.

(** A notification that cannot be read stops the handler before it writes. *)
Lemma mark_read_unreadable (req : request) (s : state) (ns : list value) :
  or_else (field (stored s) "notifications") (VArr []) = VArr ns ->
  nullish (stored s) = false ->
  readable ns = false ->
  mark_read req s = (Throw unreadable, with_db (stored s) (after_load s)).
Proof.
  intros Hns Hobj Hread. unfold mark_read.
  step by apply reload_run.
  step by (apply db_get_run; cbn [db with_db]; exact Hobj).
  cbn [db with_db]. rewrite Hns. unfold Array_map.
  erewrite bind_throw; [reflexivity|].
  rewrite (map_in_reads "id"
             (fun n nid => if strict_eq nid (VStr (params_id req))
                           then spread_with n "read" (VBool true)
                           else n)), Hread.
  reflexivity.
Qed.

(** C4: marking as read changes, in the notifications whose id is the
    given one, the [read] field only, which becomes true; every other
    field, every other notification, the number of notifications and every
    other sequence of the document stay as they were. *)
Theorem mark_read_frame (req : request) (s : state)
  (props : list (string * value)) (ns : list value) :
  stored s = VObj props ->
  or_else (field (stored s) "notifications") (VArr []) = VArr ns ->
  readable ns = true ->
  exists s' ns',
    mark_read req s = (Ok (res_json (VObj [("ok", VBool true)])), s')
    /\ field (stored s') "notifications" = VArr ns'
    /\ List.length ns' = List.length ns
    /\ (forall i n, nth_error ns i = Some n ->
          exists n', nth_error ns' i = Some n'
            /\ (field n "id" <> VStr (params_id req) -> n' = n)
            /\ (field n "id" = VStr (params_id req) ->
                  field n' "read" = VBool true
                  /\ (forall k, k <> "read" -> field n' k = field n k)
                  /\ exists fields, n = VObj fields
                       /\ n' = VObj (assign "read" (VBool true) fields)))
    /\ (forall k, k <> "notifications" ->
          field (stored s') k = field (stored s) k).
Proof.
  intros Hobj Hns Hread.
  destruct (mark_read_run req s props ns Hobj Hns Hread)
    as (s' & Hrun & Hstored & _).
  exists s', (map (marked (params_id req)) ns).
  split; [exact Hrun|]. split; [|split; [apply length_map|split]].
  - rewrite Hstored, field_assign. reflexivity.
  - intros i n Hi. exists (marked (params_id req) n). split.
    + rewrite nth_error_map, Hi. reflexivity.
    + unfold marked. split.
      * intros Hne.
        destruct (strict_eq (field n "id") (VStr (params_id req))) eqn:E;
          [|reflexivity].
        apply strict_eq_string in E. contradiction.
      * intros He. rewrite He. simpl strict_eq. rewrite String.eqb_refl.
        destruct n; simpl in He; try discriminate.
        simpl spread_with. split; [|split].
        -- rewrite field_assign. reflexivity.
        -- intros k Hk. now apply field_assign_other.
        -- now eexists.
  - intros k Hk. rewrite Hstored, Hobj.
    now apply field_assign_other.
Qed.

Lemma mark_read_frame_witness :
  exists s' ns',
    mark_read (mkRequest VUndefined "1699999995000") home
    = (Ok (res_json (VObj [("ok", VBool true)])), s')
    /\ field (stored s') "notifications" = VArr ns'
    /\ List.length ns' = 2%nat.
Proof.
  destruct (mark_read_frame (mkRequest VUndefined "1699999995000") home
              _ _ eq_refl eq_refl eq_refl)
    as (s' & ns' & H1 & H2 & H3 & _).
  exists s', ns'. split; [exact H1|]. split; [exact H2|exact H3].
Defined.

(** On the sample document: the id of the notification made over HTTP marks
    it; the id of the one made by the socket handler, sent as the string
    that a route carries, marks nothing. *)
Example mark_read_string_id :
  field (stored (snd (mark_read (mkRequest VUndefined "1699999995000") home)))
    "notifications"
  = VArr [VObj [("id", VStr "1699999995000"); ("type", VStr "sos");
                ("message", VStr "SOS from Bob"); ("from", VStr "Bob");
                ("time", VNum (Fin 1699999995000)); ("read", VBool true)];
          JSON_parse note_socket].
Proof. reflexivity. Qed.

Example mark_read_number_id :
  field (stored (snd (mark_read (mkRequest VUndefined "1699999996000") home)))
    "notifications"
  = VArr [JSON_parse note_http; JSON_parse note_socket].
Proof. reflexivity. Qed.

Lemma marked_numeric (id : string) (n : value) (x : number) :
  field n "id" = VNum x -> marked id n = n.
Proof. intros H. unfold marked. now rewrite H. Qed.

(** One [DELETE /notifications/:id], whatever the id, leaves a notification
    whose id is a number as it is, at its place. *)
Lemma mark_read_keeps_numeric (req : request) (s : state) (l : list value)
  (i : nat) (n : value) (x : number) :
  field (stored s) "notifications" = VArr l ->
  nth_error l i = Some n ->
  field n "id" = VNum x ->
  exists l',
    field (stored (snd (mark_read req s))) "notifications" = VArr l'
    /\ nth_error l' i = Some n.
Proof.
  intros Hl Hi Hid.
  destruct (field_array_object _ _ _ Hl) as (props & Hobj).
  assert (Hor : or_else (field (stored s) "notifications") (VArr []) = VArr l)
    by (now rewrite Hl).
  destruct (readable l) eqn:Hread.
  - destruct (mark_read_run req s props l Hobj Hor Hread)
      as (s' & Hrun & Hstored & _).
    rewrite Hrun. cbn [snd]. exists (map (marked (params_id req)) l). split.
    + rewrite Hstored, field_assign. reflexivity.
    + rewrite nth_error_map, Hi. cbn. f_equal. now apply marked_numeric with x.
  - rewrite (mark_read_unreadable req s l Hor) by (now rewrite ?Hobj).
    cbn [snd]. exists l. split; [|exact Hi].
    change (stored (with_db (stored s) (after_load s)))
      with (stored (after_load s)).
    now rewrite stored_after_load.
Qed.

Lemma after_marking_keeps_numeric (reqs : list request) (s : state)
  (l : list value) (i : nat) (n : value) (x : number) :
  field (stored s) "notifications" = VArr l ->
  nth_error l i = Some n ->
  field n "id" = VNum x ->
  exists l',
    field (stored (after_marking reqs s)) "notifications" = VArr l'
    /\ nth_error l' i = Some n.
Proof.
  revert s l. induction reqs as [|req reqs IH]; intros s l Hl Hi Hid.
  - now exists l.
  - destruct (mark_read_keeps_numeric req s l i n x Hl Hi Hid)
      as (l1 & Hl1 & Hi1).
    exact (IH _ l1 Hl1 Hi1 Hid).
Qed.

(** *** Notifications made by the socket handlers *)

(** The end of every handler that makes a notification: push it, save, and
    go on without touching the file. *)
Lemma push_save_inv (n : value) (rest : M unit) (s s' : state) :
  quiet_on_store rest ->
  (db_push "notifications" n ;; save ;; rest) s = (Ok tt, s') ->
  exists l,
    field (stored s') "notifications" = VArr (map persisted l ++ [persisted n]).
Proof.
  intros Hq H.
  apply bind_inv in H as ([] & s1 & Hpush & H).
  apply bind_inv in H as ([] & s2 & Hsave & H).
  apply db_push_inv in Hpush as (props & l & Hd & Hl & ->).
  erewrite save_run in Hsave by reflexivity. injection Hsave as <-.
  exists l. rewrite (Hq _ _ _ H).
  cbn [stored file with_file]. rewrite parse_text_of.
  rewrite (persisted_field "notifications" (VArr (l ++ [n]))).
  - now rewrite persisted_array, map_app.
  - rewrite lookup_assign. now rewrite String.eqb_refl.
  - discriminate.
Qed.

Lemma on_sos_creates (w : world) (payload : value) (s s' : state) :
  on_sos w payload s = (Ok tt, s') ->
  exists l n z,
    field (stored s') "notifications" = VArr (l ++ [n])
    /\ field n "id" = VNum (Fin z) /\ field n "read" = VBool false.
Proof.
  unfold on_sos. intros H.
  do 6 (apply bind_inv in H as (? & ? & _ & H)).
  apply push_save_inv in H as (l & H).
  - eexists _, _, _. split; [exact H|].
    split; now erewrite persisted_field by (try reflexivity; discriminate).
  - apply quiet_bind; [auto with store|]. intros _.
    apply quiet_bind; [auto with store|]. intros _. apply quiet_dispatch.
Qed.

Lemma on_journal_creates (w : world) (payload : value) (s s' : state) :
  on_journal w payload s = (Ok tt, s') ->
  exists l n z,
    field (stored s') "notifications" = VArr (l ++ [n])
    /\ field n "id" = VNum (Fin z) /\ field n "read" = VBool false.
Proof.
  unfold on_journal. intros H.
  do 8 (apply bind_inv in H as (? & ? & _ & H)).
  apply push_save_inv in H as (l & H).
  - eexists _, _, _. split; [exact H|].
    split; now erewrite persisted_field by (try reflexivity; discriminate).
  - apply quiet_bind; [auto with store|]. intros _. apply quiet_dispatch.
Qed.

Lemma on_medicationUpdate_creates (w : world) (payload : value) (s s' : state) :
  on_medicationUpdate w payload s = (Ok tt, s') ->
  exists l n z,
    field (stored s') "notifications" = VArr (l ++ [n])
    /\ field n "id" = VNum (Fin z) /\ field n "read" = VBool false.
Proof.
  unfold on_medicationUpdate. intros H.
  do 4 (apply bind_inv in H as (? & ? & _ & H)).
  apply push_save_inv in H as (l & H).
  - eexists _, _, _. split; [exact H|].
    split; now erewrite persisted_field by (try reflexivity; discriminate).
  - apply quiet_bind; [auto with store|]. intros _. apply quiet_dispatch.
Qed.

(** C8: the notification that a socket handler ([sos], [journal],
    [medicationUpdate]) has stored carries a number as id and [read] false,
    and after any sequence of [DELETE /notifications/:id] requests it is
    still stored at its place, unchanged: no id that a request can carry
    marks it as read. *)
Theorem socket_notification_stays_unread (w : world)
  (handler : value -> M unit) (payload : value) (s s1 : state) :
  In handler [on_sos w; on_journal w; on_medicationUpdate w] ->
  handler payload s = (Ok tt, s1) ->
  exists before n z,
    field (stored s1) "notifications" = VArr (before ++ [n])
    /\ field n "id" = VNum (Fin z)
    /\ field n "read" = VBool false
    /\ (forall id, strict_eq (field n "id") (VStr id) = false)
    /\ forall reqs : list request,
         exists l,
           field (stored (after_marking reqs s1)) "notifications" = VArr l
           /\ nth_error l (List.length before) = Some n.
Proof.
  intros Hin Hrun.
  assert (Hmade : exists l n z,
    field (stored s1) "notifications" = VArr (l ++ [n])
    /\ field n "id" = VNum (Fin z) /\ field n "read" = VBool false).
  { destruct Hin as [<-|[<-|[<-|[]]]].
    - now apply on_sos_creates with w payload s.
    - now apply on_journal_creates with w payload s.
    - now apply on_medicationUpdate_creates with w payload s. }
  destruct Hmade as (before & n & z & Hstored & Hid & Hunread).
  exists before, n, z. split; [exact Hstored|].
  split; [exact Hid|]. split; [exact Hunread|]. split.
  - intros id. now rewrite Hid.
  - intros reqs.
    apply after_marking_keeps_numeric with (l := (before ++ [n])%list) (x := Fin z);
      [exact Hstored| |exact Hid].
    rewrite nth_error_app2 by lia. now rewrite Nat.sub_diag.
Qed.

Lemma socket_notification_stays_unread_witness :
  exists before n z,
    field (stored (snd (on_sos quiet cry home))) "notifications"
    = VArr (before ++ [n])
    /\ field n "id" = VNum (Fin z)
    /\ field n "read" = VBool false
    /\ exists l,
         field (stored (after_marking
                          [mkRequest VUndefined "1700000000000";
                           mkRequest VUndefined "1699999996000"]
                          (snd (on_sos quiet cry home)))) "notifications"
         = VArr l
         /\ nth_error l (List.length before) = Some n.
Proof.
  destruct (socket_notification_stays_unread quiet (on_sos quiet) cry home
              (snd (on_sos quiet cry home)))
    as (before & n & z & H1 & H2 & H3 & _ & H5);
    [now left|reflexivity|].
  exists before, n, z. split; [exact H1|]. split; [exact H2|].
  split; [exact H3|]. apply H5.
Defined.

(** *** The reminder runner *)









(** On the sample document, at 1700000000000: the neurologist is due, the
    dentist is not; without VAPID keys the dispatcher logs that it skips. *)
Example reminder_tick_home :
  trace (snd (reminder_tick quiet home))
  = [Emit "appointmentReminder"
       (VObj [("appointment",
               JSON_parse (visit "1699999993000" "Neurologist" 1700000030000))]);
     Emit "notification"
       (reminder quiet 1
          (JSON_parse (visit "1699999993000" "Neurologist" 1700000030000)));
     Log "VAPID not configured - skipping web-push"].
Proof. reflexivity. Qed.

Lemma defined_stringify (v : value) :
  defined v = true -> exists j, JSON_stringify v = Some j.
Proof.
  destruct v as [| | |[| | |z]| | |]; simpl; try discriminate; now eexists.
Qed.

Lemma persisted_defined (props : list (string * value)) :
  defined_props props = true ->
  persisted (VObj props) = VObj (persist_props props).
Proof.
  intros H. unfold persisted. simpl. f_equal.
  induction props as [|[k v] rest IH]; simpl in *; [reflexivity|].
  apply andb_true_iff in H as [Hv Hrest].
  destruct (defined_stringify v Hv) as (j & Hj).
  unfold persisted at 1. rewrite Hj. simpl. f_equal. now apply IH.
Qed.

Lemma lookup_persist (k : string) (props : list (string * value)) :
  lookup k (persist_props props) = option_map persisted (lookup k props).
Proof.
  induction props as [|[k' v] rest IH]; simpl; [reflexivity|].
  now destruct (k' =? k)%string.
Qed.

Lemma persist_assign (k : string) (x : value) (props : list (string * value)) :
  persist_props (assign k x props) = assign k (persisted x) (persist_props props).
Proof.
  induction props as [|[k' v] rest IH]; simpl; [reflexivity|].
  destruct (k' =? k)%string; simpl; [reflexivity|]. now rewrite IH.
Qed.

Lemma defined_assign (k : string) (x : value) (props : list (string * value)) :
  defined_props props = true -> defined x = true ->
  defined_props (assign k x props) = true.
Proof.
  intros Hp Hx. induction props as [|[k' v] rest IH]; simpl in *.
  - now rewrite Hx.
  - apply andb_true_iff in Hp as [Hv Hrest].
    destruct (k' =? k)%string; simpl; [now rewrite Hx|].
    now rewrite Hv, IH.
Qed.

Lemma document_above_assign (floor : string -> nat) (k : string) (x : value)
  (props : list (string * value)) :
  document_above floor (VObj props) = true ->
  (forall p, In (k, p) shape -> holds p (floor_of floor k) x = true) ->
  (k = "medHistory" -> missing_or_array x = true) ->
  document_above floor (VObj (assign k x props)) = true.
Proof.
  unfold document_above. intros [Hdoc Hh]%andb_true_iff Hx Hm.
  apply andb_true_iff. split.
  - rewrite forallb_forall in *.
    intros [k' p] Hin. cbn [fst snd]. rewrite field_assign.
    destruct (k =? k')%string eqn:E.
    + apply String.eqb_eq in E as <-. now apply Hx.
    + exact (Hdoc (k', p) Hin).
  - rewrite field_assign. destruct (k =? "medHistory")%string eqn:E.
    + apply Hm. now apply String.eqb_eq.
    + exact Hh.
Qed.

Lemma document_above_field (floor : string -> nat) (d : value) (k : string)
  (p : value -> bool) :
  document_above floor d = true -> In (k, p) shape ->
  exists l, field d k = VArr l /\ forallb p l = true
            /\ (floor_of floor k <= List.length l)%nat.
Proof.
  unfold document_above. intros [Hdoc _]%andb_true_iff Hin.
  rewrite forallb_forall in Hdoc.
  specialize (Hdoc (k, p) Hin). cbn [fst snd] in Hdoc. unfold holds in Hdoc.
  destruct (field d k) as [| | | | |l|]; try discriminate.
  apply andb_true_iff in Hdoc as [Hp Hn]. exists l.
  split; [reflexivity|]. split; [exact Hp|]. now apply Nat.leb_le.
Qed.

Lemma document_above_object (floor : string -> nat) (d : value) :
  document_above floor d = true -> exists props, d = VObj props.
Proof.
  intros H.
  destruct (document_above_field floor d "users" is_object H) as (l & Hl & _);
    [now left|].
  exact (field_array_object _ _ _ Hl).
Qed.

Lemma in_memory_assign (floor : string -> nat) (k : string) (x : value)
  (props : list (string * value)) :
  in_memory floor (VObj props) -> defined x = true ->
  (forall p, In (k, p) shape ->
             holds p (floor_of floor k) (persisted x) = true) ->
  (k = "medHistory" -> missing_or_array (persisted x) = true) ->
  in_memory floor (VObj (assign k x props)).
Proof.
  intros (props' & [= <-] & Hdef & Hdoc) Hx Hk Hm.
  exists (assign k x props). split; [reflexivity|].
  split; [now apply defined_assign|].
  rewrite persisted_defined in * by (try apply defined_assign; assumption).
  rewrite persist_assign. now apply document_above_assign.
Qed.

Lemma field_in_memory (props : list (string * value)) (k : string) :
  defined_props props = true ->
  field (persisted (VObj props)) k
  = match lookup k props with
    | Some v => persisted v
    | None => VUndefined
    end.
Proof.
  intros Hdef. rewrite persisted_defined by exact Hdef. simpl.
  rewrite lookup_persist. now destruct (lookup k props).
Qed.

Lemma in_memory_push (floor : string -> nat) (k : string) (x : value)
  (props : list (string * value)) (l : list value) :
  in_memory floor (VObj props) -> field (VObj props) k = VArr l ->
  (forall p, In (k, p) shape -> p (persisted x) = true) ->
  in_memory floor (VObj (assign k (VArr (l ++ [x])) props)).
Proof.
  intros Hmem Hl Hx.
  apply in_memory_assign;
    [exact Hmem|reflexivity| |intros _; now rewrite persisted_array].
  intros p Hin. destruct Hmem as (props' & [= <-] & Hdef & Hdoc).
  destruct (document_above_field _ _ k p Hdoc Hin) as (lp & Hlp & Hp & Hn).
  rewrite field_in_memory in Hlp by exact Hdef.
  simpl in Hl. destruct (lookup k props) as [v|]; [|discriminate].
  subst v. rewrite persisted_array in Hlp. injection Hlp as <-.
  rewrite persisted_array, map_app. unfold holds.
  rewrite forallb_app, Hp. simpl. rewrite (Hx p Hin). simpl.
  apply Nat.leb_le. rewrite length_app. simpl. lia.
Qed.

Lemma plain_defined (v : value) : plain v = true -> defined v = true.
Proof. now destruct v. Qed.

Lemma plain_defined_props (props : list (string * value)) :
  plain_props props = true -> defined_props props = true.
Proof.
  induction props as [|[k v] rest IH]; simpl; [reflexivity|].
  intros [Hv Hrest]%andb_true_iff. now rewrite plain_defined, IH.
Qed.

Lemma held_loaded (floor : string -> nat) (s : state) :
  held floor s -> db s = stored s -> loaded floor s.
Proof.
  intros Hh Hdb. split; [exact Hh|]. rewrite Hdb.
  destruct (document_above_object _ _ Hh) as (props & Hobj).
  pose proof (plain_stored s) as Hp. rewrite Hobj in *.
  exists props. split; [reflexivity|]. split.
  - apply plain_defined_props. exact Hp.
  - rewrite persisted_plain by exact Hp. unfold held in Hh.
    now rewrite Hobj in Hh.
Qed.

(** *** Computations that touch neither the file nor [db] *)

Lemma inert_ret {A} (a : A) : inert (ret a).
Proof. now intros s r s' [= _ <-]. Qed.

Lemma inert_throw {A} (e : error) : inert (@throw A e).
Proof. now intros s r s' [= _ <-]. Qed.

Lemma inert_lift {A} (x : result A) : inert (lift x).
Proof. now intros s r s' [= _ <-]. Qed.

Lemma inert_load_db : inert load_db.
Proof. now intros s r s' [= _ <-]. Qed.

Lemma inert_Date_now (w : world) : inert (Date_now w).
Proof. now intros s r s' [= _ <-]. Qed.

Lemma inert_perform (e : effect) : inert (perform e).
Proof. now intros s r s' [= _ <-]. Qed.

Lemma inert_console_warn (label : string) (e : error) :
  inert (console_warn label e).
Proof. now intros s r s' [= _ <-]. Qed.

Lemma inert_send (w : world) (sub : value) (text : option json) :
  inert (webpush_sendNotification w sub text).
Proof. now intros s r s' [= _ <-]. Qed.

Lemma inert_bind {A B} (m : M A) (k : A -> M B) :
  inert m -> (forall a, inert (k a)) -> inert (x <- m ;; k x).
Proof.
  intros Hm Hk s r s'. unfold bind.
  destruct (m s) as [[a|e] s1] eqn:E.
  - intros H. destruct (Hk a _ _ _ H) as [-> ->]. exact (Hm _ _ _ E).
  - intros [= _ <-]. exact (Hm _ _ _ E).
Qed.

Lemma inert_not_a_function {A} (name : string) (recv : value) :
  inert (@not_a_function A name recv).
Proof. unfold not_a_function. destruct (nullish recv); apply inert_throw. Qed.

Lemma inert_find_in (p : value -> M bool) (l : list value) :
  (forall x, inert (p x)) -> inert (find_in p l).
Proof.
  intros Hp. induction l as [|x l IH]; simpl; [apply inert_ret|].
  apply inert_bind; [apply Hp|]. intros [|]; [apply inert_ret|exact IH].
Qed.

Lemma inert_filter_in (p : value -> M bool) (l : list value) :
  (forall x, inert (p x)) -> inert (filter_in p l).
Proof.
  intros Hp. induction l as [|x l IH]; simpl; [apply inert_ret|].
  apply inert_bind; [apply Hp|]. intros b.
  apply inert_bind; [exact IH|]. intros r. apply inert_ret.
Qed.

Lemma inert_map_in {B} (f : value -> M B) (l : list value) :
  (forall x, inert (f x)) -> inert (map_in f l).
Proof.
  intros Hf. induction l as [|x l IH]; simpl; [apply inert_ret|].
  apply inert_bind; [apply Hf|]. intros y.
  apply inert_bind; [exact IH|]. intros r. apply inert_ret.
Qed.

Lemma inert_Array_find (recv : value) (p : value -> M bool) :
  (forall x, inert (p x)) -> inert (Array_find recv p).
Proof.
  intros Hp. destruct recv; simpl; try apply inert_not_a_function.
  now apply inert_find_in.
Qed.

Lemma inert_Array_filter (recv : value) (p : value -> M bool) :
  (forall x, inert (p x)) -> inert (Array_filter recv p).
Proof.
  intros Hp. destruct recv; simpl; try apply inert_not_a_function.
  now apply inert_filter_in.
Qed.

Lemma inert_Array_map {B} (recv : value) (f : value -> M B) :
  (forall x, inert (f x)) -> inert (Array_map recv f).
Proof.
  intros Hf. destruct recv; simpl; try apply inert_not_a_function.
  now apply inert_map_in.
Qed.

Lemma inert_concat (recv x : value) : inert (concat recv x).
Proof.
  destruct recv; simpl; try apply inert_not_a_function; apply inert_ret.
Qed.

Lemma inert_catch_warn (label : string) (p : settled) :
  inert (catch_warn label p).
Proof.
  destruct p; simpl; [apply inert_ret|].
  apply inert_bind; [apply inert_console_warn|intros; apply inert_ret].
Qed.

Lemma inert_await (p : settled) : inert (await p).
Proof. destruct p; [apply inert_ret|apply inert_throw]. Qed.

Lemma inert_db_get (k : string) : inert (db_get k).
Proof.
  unfold db_get. apply inert_bind; [apply inert_load_db|].
  intros d. apply inert_lift.
Qed.

(** Proves that a computation made of the steps above is inert. *)
Ltac inertia :=
  repeat (cbv beta;
          match goal with
          | |- inert (if ?c then _ else _) => destruct c
          | |- inert (bind _ _) => apply inert_bind; [|intros ?]
          | |- inert (ret _) => apply inert_ret
          | |- inert (throw _) => apply inert_throw
          | |- inert (lift _) => apply inert_lift
          | |- inert (Date_now _) => apply inert_Date_now
          | |- inert (io_emit _ _) => apply inert_perform
          | |- inert (console_log _) => apply inert_perform
          | |- inert (console_warn _ _) => apply inert_console_warn
          | |- inert (webpush_sendNotification _ _ _) => apply inert_send
          | |- inert (catch_warn _ _) => apply inert_catch_warn
          | |- inert (await _) => apply inert_await
          | |- inert (db_get _) => apply inert_db_get
          | |- inert (concat _ _) => apply inert_concat
          | |- inert (Array_find _ _) => apply inert_Array_find; intros ?
          | |- inert (Array_filter _ _) => apply inert_Array_filter; intros ?
          | |- inert (Array_map _ _) => apply inert_Array_map; intros ?
          | |- inert (is_soon _ _ _) => unfold is_soon
          end).

(** *** Steps that keep the document *)

Section Keeping.

Variable floor : string -> nat.

Lemma loaded_held (s : state) : loaded floor s -> held floor s.
Proof. now intros [H _]. Qed.

Lemma triple_bind {A B} (P : state -> Prop) (Q : A -> state -> Prop)
  (R : B -> state -> Prop) (m : M A) (k : A -> M B) :
  triple floor P m Q -> (forall a, triple floor (Q a) (k a) R) ->
  triple floor P (x <- m ;; k x) R.
Proof.
  intros Hm Hk s r s' HP. unfold bind.
  destruct (m s) as [[a|e] s1] eqn:E.
  - intros H. exact (Hk a s1 r s' (Hm s (Ok a) s1 HP E) H).
  - intros [= <- <-]. exact (Hm s (Throw e) s1 HP E).
Qed.

Lemma triple_inert_held {A} (m : M A) :
  inert m -> triple floor (held floor) m (fun _ => held floor).
Proof.
  intros Hm s r s' HP E. destruct (Hm _ _ _ E) as [Hf _].
  assert (held floor s') by (unfold held, stored in *; now rewrite Hf).
  now destruct r.
Qed.

Lemma triple_inert_loaded {A} (m : M A) :
  inert m -> triple floor (loaded floor) m (fun _ => loaded floor).
Proof.
  intros Hm s r s' [Hh Hmem] E. destruct (Hm _ _ _ E) as [Hf Hd].
  assert (Hh' : held floor s') by (unfold held, stored in *; now rewrite Hf).
  destruct r; [|exact Hh']. split; [exact Hh'|now rewrite Hd].
Qed.

Lemma triple_reload :
  triple floor (held floor) reload (fun _ => loaded floor).
Proof.
  intros s r s' Hh. rewrite reload_run. intros [= <- <-].
  apply held_loaded.
  - unfold held in *.
    change (stored (with_db (stored s) (after_load s)))
      with (stored (after_load s)).
    now rewrite stored_after_load.
  - cbn. symmetry.
    change (stored (with_db (stored s) (after_load s)))
      with (stored (after_load s)).
    apply stored_after_load.
Qed.

Lemma db_push_throw (k : string) (x : value) (s s' : state) (e : error) :
  db_push k x s = (Throw e, s') -> s' = s.
Proof.
  unfold db_push, bind, load_db, lift, get.
  destruct (nullish (db s)) eqn:En; [now intros [= _ <-]|].
  destruct (field (db s) k);
    try (unfold not_a_function, throw; cbn [nullish]; now intros [= _ <-]).
  destruct (db s); cbn [set nullish] in *; try discriminate;
    unfold store_db; discriminate.
Qed.

Lemma triple_db_push (k : string) (x : value) :
  (forall p, In (k, p) shape -> p (persisted x) = true) ->
  triple floor (loaded floor) (db_push k x) (fun _ => loaded floor).
Proof.
  intros Hx s r s' [Hh Hmem] E. destruct r as [[]|e].
  - apply db_push_inv in E as (props & l & Hd & Hl & ->).
    split; [exact Hh|]. cbn [db with_db]. rewrite Hd in Hmem.
    now apply in_memory_push.
  - now apply db_push_throw in E as ->.
Qed.

Lemma triple_db_push_with (k : string) (arg : M value) :
  inert arg ->
  (forall s x s', arg s = (Ok x, s') ->
     forall p, In (k, p) shape -> p (persisted x) = true) ->
  triple floor (loaded floor) (db_push_with k arg) (fun _ => loaded floor).
Proof.
  intros Hi Hx s r s' [Hh Hmem] E.
  destruct Hmem as (props & Hd & Hdef & Hdoc).
  assert (Hmem : in_memory floor (VObj props)).
  { rewrite Hd in Hdoc. now exists props. }
  unfold db_push_with, bind, load_db, lift, get in E. rewrite Hd in E.
  cbn [nullish] in E.
  destruct (nullish (field (VObj props) k)) eqn:En.
  - unfold throw in E. injection E as <- <-. exact Hh.
  - unfold ret in E. destruct (arg s) as [[x|e] s1] eqn:Ea.
    + destruct (Hi _ _ _ Ea) as [Hf Hdb].
      assert (Hh1 : held floor s1) by (unfold held, stored in *; now rewrite Hf).
      destruct (field (VObj props) k) as [| | | | |l|] eqn:El;
        try (injection E as <- <-; exact Hh1).
      cbn [set store_db] in E. injection E as <- <-.
      split; [exact Hh1|]. cbn [db with_db].
      apply in_memory_push; [exact Hmem|exact El|].
      intros p Hin. exact (Hx _ _ _ Ea p Hin).
    + injection E as <- <-. destruct (Hi _ _ _ Ea) as [Hf _].
      unfold held, stored in *. now rewrite Hf.
Qed.

Lemma triple_save :
  triple floor (loaded floor) save (fun _ => loaded floor).
Proof.
  intros s r s' [Hh Hmem] E.
  destruct Hmem as (props & Hd & Hdef & Hdoc).
  rewrite (save_run s props Hd) in E. injection E as <- <-.
  split.
  - unfold held, stored. cbn [file with_file]. rewrite parse_text_of.
    now rewrite <- Hd.
  - cbn [db with_file]. now exists props.
Qed.

Lemma sendWebPushNotification_returns (w : world) (n : value) (s : state) :
  exists p s',
    sendWebPushNotification w n s = (Ok p, s')
    /\ file s' = file (after_load s) /\ db s' = stored s.
Proof.
  unfold sendWebPushNotification, async.
  match goal with |- context [match ?b s with _ => _ end] =>
    destruct (b s) as [r s'] eqn:E end.
  unfold bind at 1 in E. rewrite reload_run in E.
  match type of E with ?tail _ = _ =>
    assert (Hi : inert tail) by inertia end.
  destruct (Hi _ _ _ E) as [Hf Hd]. cbn in Hf, Hd.
  destruct r; eexists _, s'; (split; [reflexivity|now split]).
Qed.

Lemma triple_dispatch (w : world) (n : value) :
  triple floor (held floor) (dispatch w n) (fun _ => loaded floor).
Proof.
  intros s r s' Hh E. unfold dispatch in E.
  destruct (sendWebPushNotification_returns w n s) as (p & s1 & Hrun & Hf & Hd).
  unfold bind at 1 in E. rewrite Hrun in E.
  assert (Hl : loaded floor s1).
  { apply held_loaded.
    - unfold held, stored in *. rewrite Hf. fold (stored (after_load s)).
      rewrite stored_after_load. exact Hh.
    - rewrite Hd. unfold stored at 2. rewrite Hf.
      fold (stored (after_load s)). now rewrite stored_after_load. }
  assert (Hi : inert (catch_warn "" p ;; ret tt)) by inertia.
  exact (triple_inert_loaded _ Hi s1 r s' Hl E).
Qed.

Lemma triple_weaken {A} (P : state -> Prop) (m : M A) :
  triple floor P m (fun _ => loaded floor) ->
  triple floor P m (fun _ => held floor).
Proof.
  intros H s r s' HP E. specialize (H s r s' HP E).
  destruct r; [now apply loaded_held|exact H].
Qed.

Lemma triple_strengthen {A} (m : M A) (Q : A -> state -> Prop) :
  triple floor (held floor) m Q -> triple floor (loaded floor) m Q.
Proof. intros H s r s' HP. apply H. now apply loaded_held. Qed.

Lemma triple_ret_held {A} (a : A) :
  triple floor (held floor) (ret a) (fun _ => held floor).
Proof. apply triple_inert_held, inert_ret. Qed.

Lemma triple_forEach (f : value -> M unit) (l : list value) :
  (forall a, triple floor (loaded floor) (f a) (fun _ => loaded floor)) ->
  triple floor (loaded floor) (forEach_in f l) (fun _ => loaded floor).
Proof.
  intros Hf. induction l as [|a l IH]; simpl.
  - apply triple_inert_loaded, inert_ret.
  - eapply triple_bind; [apply Hf|]. intros u. exact IH.
Qed.

End Keeping.

(** Settles what a pushed element must be, sequence by sequence. *)
Ltac shape_ok :=
  let p := fresh "p" in
  let Hin := fresh "Hin" in
  intros p Hin; cbn [shape In] in Hin;
  repeat (destruct Hin as [Hin|Hin];
          [try discriminate Hin; injection Hin as <-|]);
  try contradiction; try reflexivity.

(** Walks through a handler, one statement at a time. *)
Ltac hoare_step :=
  cbv beta;
  match goal with
  | |- triple _ _ (bind reload _) _ =>
      eapply triple_bind; [apply triple_reload|intros ?]
  | |- triple _ (loaded _) (bind (db_push _ _) _) _ =>
      eapply triple_bind; [apply triple_db_push; shape_ok|intros ?]
  | |- triple _ (loaded _) (bind (db_push_with _ _) _) _ =>
      eapply triple_bind;
      [apply triple_db_push_with; [inertia|intros ? ? ? _; shape_ok]
      |intros ?]
  | |- triple _ (loaded _) (bind save _) _ =>
      eapply triple_bind; [apply triple_save|intros ?]
  | |- triple _ (loaded _) (bind (dispatch _ _) _) _ =>
      eapply triple_bind;
      [apply triple_strengthen, triple_dispatch|intros ?]
  | |- triple _ (loaded _) (dispatch _ _) _ =>
      first [apply triple_weaken|idtac];
      apply triple_strengthen, triple_dispatch
  | |- triple _ _ (if ?c then _ else _) _ => destruct c
  | |- triple _ (held _) (bind _ _) _ =>
      eapply triple_bind; [apply triple_inert_held; inertia|intros ?]
  | |- triple _ (loaded _) (bind _ _) _ =>
      eapply triple_bind; [apply triple_inert_loaded; inertia|intros ?]
  | |- triple _ (held _) _ (fun _ => held _) =>
      apply triple_inert_held; inertia
  | |- triple _ (loaded _) _ (fun _ => held _) =>
      apply triple_weaken, triple_inert_loaded; inertia
  | |- triple _ (loaded _) _ (fun _ => loaded _) =>
      apply triple_inert_loaded; inertia
  end.

Ltac hoare := repeat hoare_step.

Section Handlers.

Variable floor : string -> nat.
Variable w : world.

Lemma on_sos_keeps (payload : value) :
  triple floor (held floor) (on_sos w payload) (fun _ => held floor).
Proof. unfold on_sos. hoare. Qed.

Lemma on_journal_keeps (payload : value) :
  triple floor (held floor) (on_journal w payload) (fun _ => held floor).
Proof. unfold on_journal. hoare. Qed.

Lemma on_medicationUpdate_keeps (payload : value) :
  triple floor (held floor) (on_medicationUpdate w payload)
    (fun _ => held floor).
Proof. unfold on_medicationUpdate. hoare. Qed.

Lemma register_keeps (req : request) :
  triple floor (held floor) (register w req) (fun _ => held floor).
Proof. unfold register. hoare. Qed.

Lemma login_keeps (req : request) :
  triple floor (held floor) (login req) (fun _ => held floor).
Proof. unfold login. hoare. Qed.

Lemma get_sequence_keeps (k : string) :
  triple floor (held floor) (get_sequence k) (fun _ => held floor).
Proof. unfold get_sequence. hoare. Qed.

Lemma post_med_keeps (req : request) :
  triple floor (held floor) (post_med w req) (fun _ => held floor).
Proof. unfold post_med. hoare. Qed.

Lemma post_journal_keeps (req : request) :
  triple floor (held floor) (post_journal w req) (fun _ => held floor).
Proof. unfold post_journal. hoare. Qed.

Lemma post_sos_keeps (req : request) :
  triple floor (held floor) (post_sos w req) (fun _ => held floor).
Proof. unfold post_sos. hoare. Qed.

Lemma on_updateLocation_keeps (payload : value) :
  triple floor (held floor) (on_updateLocation w payload) (fun _ => held floor).
Proof. unfold on_updateLocation. hoare. Qed.

Lemma uploadPerson_keeps (req : upload) :
  triple floor (held floor) (uploadPerson w req) (fun _ => held floor).
Proof. unfold uploadPerson. hoare. Qed.

Lemma appointment_persisted (props : list (string * value)) (n : number) :
  lookup "time" props = Some (VNum n) ->
  appointment (persisted (VObj props)) = true.
Proof.
  intros Hl. unfold appointment, timed.
  rewrite (persisted_field "time" (VNum n) props Hl) by (now destruct n).
  now destruct n.
Qed.

Lemma post_appointment_keeps (req : request) :
  triple floor (held floor) (post_appointment w req) (fun _ => held floor).
Proof.
  unfold post_appointment. hoare.
  all: eapply appointment_persisted; reflexivity.
Qed.

Lemma remind_keeps (a : value) :
  triple floor (loaded floor) (remind w a) (fun _ => loaded floor).
Proof. unfold remind. hoare. Qed.

Lemma reminder_tick_keeps :
  triple floor (held floor) (reminder_tick w) (fun _ => held floor).
Proof.
  unfold reminder_tick. do 4 hoare_step.
  apply triple_weaken, triple_forEach. exact remind_keeps.
Qed.

End Handlers.

(** *** Handlers that compute what they write from what is stored *)

Lemma assign_assign (k : string) (x y : value) (props : list (string * value)) :
  assign k x (assign k y props) = assign k x props.
Proof.
  induction props as [|[k' v] rest IH]; simpl.
  - now rewrite String.eqb_refl.
  - destruct (k' =? k)%string eqn:E; simpl; rewrite E; [reflexivity|].
    now rewrite IH.
Qed.

Lemma objects_readable (l : list value) :
  forallb is_object l = true -> readable l = true.
Proof.
  induction l as [|x l IH]; simpl; [reflexivity|].
  intros [Hx Hl]%andb_true_iff. destruct x; try discriminate. now apply IH.
Qed.

Lemma forallb_filter (p f : value -> bool) (l : list value) :
  forallb p l = true -> forallb p (filter f l) = true.
Proof.
  induction l as [|x l IH]; simpl; [reflexivity|].
  intros [Hx Hl]%andb_true_iff.
  destruct (f x); simpl; [rewrite Hx|]; now apply IH.
Qed.

Lemma held_sequence (floor : string -> nat) (s : state) (k : string)
  (p : value -> bool) :
  held floor s -> In (k, p) shape ->
  exists props l,
    stored s = VObj props /\ field (stored s) k = VArr l
    /\ or_else (field (stored s) k) (VArr []) = VArr l
    /\ forallb p l = true /\ (floor_of floor k <= List.length l)%nat.
Proof.
  intros Hh Hin.
  destruct (document_above_object _ _ Hh) as (props & Hobj).
  destruct (document_above_field _ _ k p Hh Hin) as (l & Hl & Hp & Hn).
  exists props, l. repeat split; try assumption. now rewrite Hl.
Qed.

Lemma held_assign (floor : string -> nat) (s s' : state)
  (props : list (string * value)) (k : string) (v : value) :
  held floor s -> stored s = VObj props ->
  stored s' = VObj (assign k v props) ->
  (forall p, In (k, p) shape -> holds p (floor_of floor k) v = true) ->
  (k = "medHistory" -> missing_or_array v = true) ->
  held floor s'.
Proof.
  unfold held. intros Hh Hobj -> Hv Hm. rewrite Hobj in Hh.
  now apply document_above_assign.
Qed.

Lemma held_history (floor : string -> nat) (s : state) :
  held floor s ->
  exists hist,
    or_else (field (stored s) "medHistory") (VArr []) = VArr hist.
Proof.
  unfold held, document_above. intros [_ H]%andb_true_iff.
  destruct (field (stored s) "medHistory") as [| | | | |l|];
    try discriminate; now eexists.
Qed.

Lemma delete_appointment_run (req : request) (s : state)
  (props : list (string * value)) (appts : list value) :
  stored s = VObj props ->
  or_else (field (stored s) "appointments") (VArr []) = VArr appts ->
  readable appts = true ->
  exists s',
    delete_appointment req s = (Ok (res_json (VObj [("ok", VBool true)])), s')
    /\ stored s'
       = VObj (assign "appointments"
                 (VArr (filter (fun a => negb (strict_eq (field a "id")
                                                (VStr (params_id req)))) appts))
                 props)
    /\ trace s' = trace s /\ reads s' = reads s.
Proof.
  intros Hobj Happts Hread.
  pose proof (plain_stored s) as Hplain.
  pose proof (or_else_array_plain _ _ _ Hplain Happts) as Hap.
  rewrite Hobj in Hplain. simpl in Hplain. fold (plain_props props) in Hplain.
  destruct (after_load_fields s) as (_ & Hr & _ & Ht & _).
  set (kept := filter _ appts).
  assert (Hk : plain (VArr kept) = true) by (now apply plain_filter).
  eexists. split; [|split; [|split]].
  - unfold delete_appointment.
    step by apply reload_run.
    step by (apply db_get_run; cbn [db with_db]; now rewrite Hobj).
    cbn [db with_db]. rewrite Happts. unfold Array_filter.
    step by (rewrite filter_in_reads, Hread; reflexivity).
    fold kept.
    step by (apply db_assign_run with (props := props); cbn [db with_db];
             exact Hobj).
    step by (now apply save_run).
    reflexivity.
  - cbn [stored file with_file]. rewrite parse_text_of.
    apply persisted_plain. now apply plain_assign.
  - cbn. exact Ht.
  - cbn. exact Hr.
Qed.

Lemma subscribe_run (req : request) (s : state)
  (props : list (string * value)) (subs : list value) :
  stored s = VObj props ->
  or_else (field (stored s) "webpushSubscriptions") (VArr []) = VArr subs ->
  exists s',
    subscribe req s = (Ok (res_json (VObj [("ok", VBool true)])), s')
    /\ stored s'
       = VObj (assign "webpushSubscriptions"
                 (VArr (subs ++ [persisted (body req)])) props)
    /\ trace s' = trace s.
Proof.
  intros Hobj Hsubs.
  pose proof (plain_stored s) as Hplain.
  pose proof (or_else_array_plain _ _ _ Hplain Hsubs) as Hsp.
  rewrite Hobj in Hplain. simpl in Hplain. fold (plain_props props) in Hplain.
  destruct (after_load_fields s) as (_ & _ & _ & Ht & _).
  eexists. split; [|split].
  - unfold subscribe.
    step by apply reload_run.
    step by (apply db_get_run; cbn [db with_db]; now rewrite Hobj).
    cbn [db with_db]. rewrite Hsubs.
    step by (apply db_assign_run with (props := props); cbn [db with_db];
             exact Hobj).
    step by (apply db_push_run
               with (props := assign "webpushSubscriptions" (VArr subs) props)
                    (l := subs);
             [reflexivity|now rewrite field_assign]).
    rewrite assign_assign.
    step by (now apply save_run).
    reflexivity.
  - cbn [stored file with_file]. rewrite parse_text_of.
    rewrite (persisted_assign_array _ _ _ Hplain).
    now rewrite map_app, map_persisted_plain.
  - cbn. exact Ht.
Qed.

Section Computed.

Variable floor : string -> nat.

Lemma triple_of_run {A} (m : M A) :
  (forall s, held floor s -> exists a s', m s = (Ok a, s') /\ held floor s') ->
  triple floor (held floor) m (fun _ => held floor).
Proof.
  intros H s r s' Hh E. destruct (H s Hh) as (a & s1 & Hrun & Hh1).
  rewrite Hrun in E. now injection E as <- <-.
Qed.

Lemma floor_of_meds : floor_of floor "meds" = 0%nat.
Proof. reflexivity. Qed.

Lemma floor_of_appointments : floor_of floor "appointments" = 0%nat.
Proof. reflexivity. Qed.

Lemma delete_med_keeps (req : request) :
  triple floor (held floor) (delete_med req) (fun _ => held floor).
Proof.
  apply triple_of_run. intros s Hh.
  destruct (held_sequence floor s "meds" is_object Hh)
    as (props & l & Hobj & _ & Hor & Hp & _); [cbn; tauto|].
  destruct (delete_med_run req s props l Hobj Hor (objects_readable _ Hp))
    as (s' & Hrun & Hstored & _).
  eexists _, s'. split; [exact Hrun|].
  apply (held_assign floor s s' props _ _ Hh Hobj Hstored); [|discriminate].
  shape_ok. unfold holds. now rewrite forallb_filter.
Qed.

Lemma delete_appointment_keeps (req : request) :
  triple floor (held floor) (delete_appointment req) (fun _ => held floor).
Proof.
  apply triple_of_run. intros s Hh.
  destruct (held_sequence floor s "appointments" appointment Hh)
    as (props & l & Hobj & _ & Hor & Hp & _); [cbn; tauto|].
  assert (Hread : readable l = true).
  { apply objects_readable. rewrite forallb_forall in *. intros x Hx.
    specialize (Hp x Hx). unfold appointment in Hp.
    now apply andb_true_iff in Hp as [-> _]. }
  destruct (delete_appointment_run req s props l Hobj Hor Hread)
    as (s' & Hrun & Hstored & _).
  eexists _, s'. split; [exact Hrun|].
  apply (held_assign floor s s' props _ _ Hh Hobj Hstored); [|discriminate].
  shape_ok. unfold holds. now rewrite forallb_filter.
Qed.

Lemma mark_taken_keeps (w : world) (req : request) :
  triple floor (held floor) (mark_taken w req) (fun _ => held floor).
Proof.
  intros s r s' Hh E. destruct (nullish (body req)) eqn:Hb.
  - unfold mark_taken in E.
    erewrite bind_throw in E by (now apply get_null_run).
    now injection E as <- <-.
  - destruct (document_above_object _ _ Hh) as (props & Hobj).
    destruct (held_history floor s Hh) as (hist & Hhist).
    destruct (mark_taken_run w req s props hist Hb Hobj Hhist)
      as (s1 & Hrun & Hstored & _).
    rewrite Hrun in E. injection E as <- <-.
    apply (held_assign floor s s1 props _ _ Hh Hobj Hstored);
      [shape_ok|reflexivity].
Qed.

Lemma marked_object (id : string) (n : value) :
  is_object n = true -> is_object (marked id n) = true.
Proof.
  intros H. unfold marked. destruct (strict_eq _ _); [|exact H].
  now destruct n.
Qed.

Lemma mark_read_keeps (req : request) :
  triple floor (held floor) (mark_read req) (fun _ => held floor).
Proof.
  apply triple_of_run. intros s Hh.
  destruct (held_sequence floor s "notifications" is_object Hh)
    as (props & l & Hobj & _ & Hor & Hp & Hn); [cbn; tauto|].
  destruct (mark_read_run req s props l Hobj Hor (objects_readable _ Hp))
    as (s' & Hrun & Hstored & _).
  eexists _, s'. split; [exact Hrun|].
  apply (held_assign floor s s' props _ _ Hh Hobj Hstored); [|discriminate].
  shape_ok. unfold holds. rewrite length_map.
  apply andb_true_iff. split; [|now apply Nat.leb_le].
  rewrite forallb_forall in *. intros x (n & <- & Hin)%in_map_iff.
  apply marked_object. now apply Hp.
Qed.

Lemma subscribe_keeps (req : request) :
  triple floor (held floor) (subscribe req) (fun _ => held floor).
Proof.
  apply triple_of_run. intros s Hh.
  destruct (held_sequence floor s "webpushSubscriptions" anything Hh)
    as (props & l & Hobj & _ & Hor & Hp & Hn); [cbn; tauto|].
  destruct (subscribe_run req s props l Hobj Hor)
    as (s' & Hrun & Hstored & _).
  eexists _, s'. split; [exact Hrun|].
  apply (held_assign floor s s' props _ _ Hh Hobj Hstored); [|discriminate].
  shape_ok. unfold holds. rewrite length_app.
  apply andb_true_iff. split; [|apply Nat.leb_le; lia].
  apply forallb_forall. reflexivity.
Qed.

End Computed.

(** *** The document is kept by every action *)

Lemma triple_snd {A} (floor : string -> nat) (m : M A) (s : state) :
  triple floor (held floor) m (fun _ => held floor) ->
  held floor s -> held floor (snd (m s)).
Proof.
  intros H Hh. destruct (m s) as [r s'] eqn:E.
  specialize (H s r s' Hh E). now destruct r.
Qed.

Lemma serve_keeps (floor : string -> nat) (w : world) (a : action) (s : state) :
  held floor s -> held floor (serve w a s).
Proof.
  intros Hh. destruct a; cbn [serve]; apply triple_snd; try exact Hh.
  - apply register_keeps.
  - apply login_keeps.
  - apply uploadPerson_keeps.
  - apply get_sequence_keeps.
  - apply post_med_keeps.
  - apply delete_med_keeps.
  - apply mark_taken_keeps.
  - apply get_sequence_keeps.
  - apply post_journal_keeps.
  - apply get_sequence_keeps.
  - apply post_appointment_keeps.
  - apply delete_appointment_keeps.
  - apply get_sequence_keeps.
  - apply mark_read_keeps.
  - apply post_sos_keeps.
  - apply subscribe_keeps.
  - apply on_updateLocation_keeps.
  - apply on_sos_keeps.
  - apply on_journal_keeps.
  - apply on_medicationUpdate_keeps.
  - apply reminder_tick_keeps.
Qed.

Lemma serve_all_keeps (floor : string -> nat) (w : world)
  (actions : list action) (s : state) :
  held floor s -> held floor (serve_all w actions s).
Proof.
  revert s. induction actions as [|a actions IH]; intros s Hh; [exact Hh|].
  apply IH. now apply serve_keeps.
Qed.

Lemma document_above_lengths (d : value) :
  document d = true -> document_above (lengths d) d = true.
Proof.
  unfold document, document_above. intros [H Hm]%andb_true_iff.
  rewrite Hm, andb_true_r. rewrite forallb_forall in *.
  intros [k p] Hin. specialize (H (k, p) Hin). cbn [fst snd] in *.
  unfold holds in *. destruct (field d k) as [| | | | |l|] eqn:E;
    try discriminate.
  apply andb_true_iff in H as [Hp _]. rewrite Hp. cbn [andb].
  apply Nat.leb_le. unfold floor_of, lengths. rewrite E.
  destruct (existsb _ _); lia.
Qed.

(** X1: the stored document stays a document under every sequence of
    requests, socket events and timer ticks: every sequence is still an
    array, users, medications and notifications are objects, appointments
    are objects whose time is a number, null or missing, and the history of
    the medications taken is missing or an array. *)
Theorem document_is_kept (w : world) (actions : list action) (s : state) :
  document (stored s) = true ->
  document (stored (serve_all w actions s)) = true.
Proof.
  intros H. apply (serve_all_keeps (fun _ => 0%nat) w actions s). exact H.
Qed.

Lemma document_is_kept_witness :
  document (stored (serve_all quiet
                      [Register again; Sos cry; Tick; MarkRead again] start))
  = true.
Proof. apply document_is_kept. reflexivity. Defined.

(** X2: users, patients, notifications, location history, journals and push
    subscriptions are never shortened: after any sequence of actions each
    has at least the elements it had. *)
Theorem append_only_never_shrinks (w : world) (actions : list action)
  (s : state) (k : string) (l : list value) :
  document (stored s) = true ->
  In k append_only ->
  field (stored s) k = VArr l ->
  exists l',
    field (stored (serve_all w actions s)) k = VArr l'
    /\ (List.length l <= List.length l')%nat.
Proof.
  intros Hdoc Hk Hl.
  pose proof (serve_all_keeps (lengths (stored s)) w actions s
                (document_above_lengths _ Hdoc)) as Hkept.
  assert (Hshape : exists p, In (k, p) shape).
  { cbn in Hk. cbn [shape In].
    repeat (destruct Hk as [<-|Hk]; [eexists; tauto|]). destruct Hk. }
  destruct Hshape as (p & Hin).
  destruct (document_above_field _ _ k p Hkept Hin) as (l' & Hl' & _ & Hn).
  exists l'. split; [exact Hl'|].
  assert (Hf : floor_of (lengths (stored s)) k = List.length l).
  { unfold floor_of, lengths. rewrite Hl.
    cbn in Hk. repeat (destruct Hk as [<-|Hk]; [reflexivity|]). destruct Hk. }
  now rewrite Hf in Hn.
Qed.

Lemma append_only_never_shrinks_witness :
  exists l',
    field (stored (serve_all quiet [Sos cry; MarkRead first_id; Tick] home))
      "notifications" = VArr l'
    /\ (2 <= List.length l')%nat.
Proof.
  apply (append_only_never_shrinks quiet [Sos cry; MarkRead first_id; Tick]
           home "notifications" (map JSON_parse [note_http; note_socket]));
    [reflexivity|cbn; tauto|reflexivity].
Defined.

(** *** Registration and login *)

Lemma find_none_all (f : value -> bool) (l : list value) :
  (forall u, In u l -> f u = false) -> find f l = None.
Proof.
  induction l as [|x l IH]; simpl; [reflexivity|]. intros H.
  rewrite (H x) by now left. apply IH. intros u Hu. apply H. now right.
Qed.

Lemma register_fresh_run (w : world) (req : request) (s : state)
  (props : list (string * value)) (us : list value) :
  nullish (body req) = false ->
  stored s = VObj props ->
  field (stored s) "users" = VArr us ->
  readable us = true ->
  (forall u, In u us ->
             strict_eq (field u "email") (field (body req) "email") = false) ->
  exists s',
    register w req s
    = (Ok (res_json (VObj [("message", VStr "Registered successfully")])), s')
    /\ stored s'
       = VObj (assign "users"
                 (VArr (us ++ [persisted (new_user w (reads s) req)])) props)
    /\ reads s' = S (reads s)
    /\ trace s' = trace s.
Proof.
  intros Hbody Hobj Husers Hread Hfresh.
  pose proof (plain_stored s) as Hplain.
  pose proof (plain_field_array _ _ _ Hplain Husers) as Hup.
  rewrite Hobj in Hplain. simpl in Hplain. fold (plain_props props) in Hplain.
  destruct (after_load_fields s) as (_ & Hr & _ & Ht & _).
  eexists. split; [|split; [|split]].
  - unfold register.
    do 4 (step by (now apply get_run)).
    step by apply reload_run.
    step by (apply db_get_run; cbn [db with_db]; now rewrite Hobj).
    cbn [db with_db]. rewrite Husers. unfold Array_find.
    step by (now apply find_in_reads).
    rewrite find_none_all by exact Hfresh. cbn [truthy].
    step by apply Date_now_run.
    change (reads (with_db (stored s) (after_load s)))
      with (reads (after_load s)).
    rewrite Hr.
    fold (new_user w (reads s) req).
    step by (apply db_push_run with (props := props) (l := us);
             [exact Hobj|now rewrite <- Hobj]).
    step by (now apply save_run).
    reflexivity.
  - cbn [stored file with_file]. rewrite parse_text_of.
    rewrite (persisted_assign_array _ _ _ Hplain).
    now rewrite map_app, map_persisted_plain.
  - reflexivity.
  - cbn. exact Ht.
Qed.

Lemma readable_app (l1 l2 : list value) :
  readable (l1 ++ l2) = readable l1 && readable l2.
Proof. apply forallb_app. Qed.

(** X3: a registration whose email no stored user has appends one user,
    made of the request's fields and a numeric id, and answers 200; no
    other sequence changes. *)
Theorem register_appends (w : world) (req : request) (s : state)
  (props : list (string * value)) (us : list value) :
  nullish (body req) = false ->
  stored s = VObj props ->
  field (stored s) "users" = VArr us ->
  readable us = true ->
  (forall u, In u us ->
             strict_eq (field u "email") (field (body req) "email") = false) ->
  exists s' user,
    register w req s
    = (Ok (res_json (VObj [("message", VStr "Registered successfully")])), s')
    /\ field (stored s') "users" = VArr (us ++ [user])
    /\ user = persisted (new_user w (reads s) req)
    /\ field user "id" = VNum (Fin (clock w (reads s)))
    /\ (forall k, k <> "users" -> field (stored s') k = field (stored s) k).
Proof.
  intros Hbody Hobj Husers Hread Hfresh.
  destruct (register_fresh_run w req s props us Hbody Hobj Husers Hread Hfresh)
    as (s' & Hrun & Hstored & _).
  exists s', (persisted (new_user w (reads s) req)).
  split; [exact Hrun|]. split; [|split; [reflexivity|split]].
  - rewrite Hstored, field_assign. reflexivity.
  - unfold new_user.
    now rewrite (persisted_field "id" (VNum (Fin (clock w (reads s))))).
  - intros k Hk. rewrite Hstored, Hobj. now apply field_assign_other.
Qed.

Lemma register_appends_witness :
  exists s' user,
    register quiet bea home
    = (Ok (res_json (VObj [("message", VStr "Registered successfully")])), s')
    /\ field (stored s') "users" = VArr ([JSON_parse ann_json] ++ [user])
    /\ field user "id" = VNum (Fin 1700000000000).
Proof.
  destruct (register_appends quiet bea home _ [JSON_parse ann_json]
              eq_refl eq_refl eq_refl eq_refl)
    as (s' & user & H1 & H2 & _ & H4 & _).
  { intros u [<-|[]]. reflexivity. }
  exists s', user. split; [exact H1|]. split; [exact H2|exact H4].
Defined.

(** X4: of two registrations with the same email (a string), made one after
    the other, the second is answered 400 and leaves the users as the first
    left them. *)
Theorem register_twice (w : world) (req req' : request) (s : state)
  (props : list (string * value)) (us : list value) (e : string) :
  field (body req) "email" = VStr e ->
  field (body req') "email" = VStr e ->
  stored s = VObj props ->
  field (stored s) "users" = VArr us ->
  readable us = true ->
  (forall u, In u us -> field u "email" <> VStr e) ->
  exists s1 s2,
    register w req s
    = (Ok (res_json (VObj [("message", VStr "Registered successfully")])), s1)
    /\ register w req' s1
       = (Ok (res_status_json 400
                (VObj [("message", VStr "Email already exists")])), s2)
    /\ stored s2 = stored s1
    /\ exists user, field (stored s2) "users" = VArr (us ++ [user])
                    /\ field user "email" = VStr e.
Proof.
  intros He He' Hobj Husers Hread Hfresh.
  assert (Hbody : nullish (body req) = false).
  { destruct (body req); try reflexivity; discriminate. }
  destruct (register_fresh_run w req s props us Hbody Hobj Husers Hread)
    as (s1 & Hrun1 & Hstored1 & _).
  { intros u Hu. rewrite He.
    destruct (strict_eq (field u "email") (VStr e)) eqn:E; [|reflexivity].
    apply strict_eq_string in E. now destruct (Hfresh u Hu). }
  set (user := persisted (new_user w (reads s) req)) in *.
  assert (Huser : field user "email" = VStr e).
  { unfold user, new_user. rewrite He.
    now rewrite (persisted_field "email" (VStr e)). }
  assert (Hus1 : field (stored s1) "users" = VArr (us ++ [user])).
  { rewrite Hstored1, field_assign. reflexivity. }
  exists s1, (with_db (stored s1) s1). split; [exact Hrun1|]. split.
  - apply register_duplicate_run with (us := (us ++ [user])%list) (e := e);
      [exact He'|exact Hus1| |].
    + rewrite readable_app, Hread. reflexivity.
    + exists user. split; [apply in_or_app; right; now left|exact Huser].
  - split; [reflexivity|]. exists user. now split.
Qed.

Lemma register_twice_witness :
  exists s1 s2,
    register quiet bea home
    = (Ok (res_json (VObj [("message", VStr "Registered successfully")])), s1)
    /\ register quiet bea s1
       = (Ok (res_status_json 400
                (VObj [("message", VStr "Email already exists")])), s2)
    /\ stored s2 = stored s1.
Proof.
  destruct (register_twice quiet bea bea home _ [JSON_parse ann_json]
              "bea@example.org" eq_refl eq_refl eq_refl eq_refl eq_refl)
    as (s1 & s2 & H1 & H2 & H3 & _).
  { intros u [<-|[]]. discriminate. }
  exists s1, s2. split; [exact H1|]. split; [exact H2|exact H3].
Defined.

Lemma find_in_credentials (email password : value) (l : list value)
  (s : state) :
  readable l = true ->
  find_in (fun u =>
             e <- lift (get u "email") ;;
             if strict_eq e email
             then p <- lift (get u "password") ;; ret (strict_eq p password)
             else ret false) l s
  = (Ok (match find (credentials email password) l with
         | Some u => u
         | None => VUndefined
         end), s).
Proof.
  induction l as [|u l IH]; [reflexivity|].
  cbn [find_in readable forallb find]. fold (readable l).
  intros [Hu Hl]%andb_true_iff. apply negb_true_iff in Hu.
  assert (Hcb :
    (e <- lift (get u "email") ;;
     if strict_eq e email
     then p <- lift (get u "password") ;; ret (strict_eq p password)
     else ret false) s
    = (Ok (credentials email password u), s)).
  { step by (now apply get_run). unfold credentials.
    destruct (strict_eq (field u "email") email); [|reflexivity].
    step by (now apply get_run). reflexivity. }
  step by exact Hcb.
  destruct (credentials email password u); [reflexivity|now apply IH].
Qed.

Lemma login_run (req : request) (s : state) (us : list value) :
  nullish (body req) = false ->
  field (stored s) "users" = VArr us ->
  forallb is_object us = true ->
  login req s
  = (Ok (match find (credentials (field (body req) "email")
                       (field (body req) "password")) us with
         | Some u => res_json u
         | None => res_status_json 400
                     (VObj [("message", VStr "Invalid credentials")])
         end),
     with_db (stored s) (after_load s)).
Proof.
  intros Hbody Husers Hobjs.
  destruct (field_array_object _ _ _ Husers) as (props & Hobj).
  unfold login.
  do 2 (step by (now apply get_run)).
  step by apply reload_run.
  step by (apply db_get_run; cbn [db with_db]; now rewrite Hobj).
  cbn [db with_db]. rewrite Husers. unfold Array_find.
  step by (apply find_in_credentials; now apply objects_readable).
  destruct (find _ us) as [u|] eqn:E; [|reflexivity].
  apply find_some in E as [Hin _].
  rewrite forallb_forall in Hobjs. specialize (Hobjs u Hin).
  now destruct u.
Qed.

(** X5: a login leaves the stored document as it is and broadcasts nothing;
    it answers with the first stored user whose email and password are those
    of the request (the whole record, password included), and with 400 when
    there is none. *)
Theorem login_answers (req : request) (s : state) (us : list value) :
  nullish (body req) = false ->
  field (stored s) "users" = VArr us ->
  forallb is_object us = true ->
  exists r s',
    login req s = (Ok r, s')
    /\ stored s' = stored s /\ trace s' = trace s
    /\ (forall u,
          find (credentials (field (body req) "email")
                  (field (body req) "password")) us = Some u ->
          r = res_json u)
    /\ ((forall u, In u us ->
           credentials (field (body req) "email")
             (field (body req) "password") u = false) ->
        r = res_status_json 400
              (VObj [("message", VStr "Invalid credentials")])).
Proof.
  intros Hbody Husers Hobjs.
  eexists _, _. split; [now apply login_run with (us := us)|].
  destruct (after_load_fields s) as (_ & _ & _ & Ht & _).
  split; [|split; [exact Ht|split]].
  - change (stored (with_db (stored s) (after_load s)))
      with (stored (after_load s)). apply stored_after_load.
  - now intros u ->.
  - intros Hnone. now rewrite find_none_all.
Qed.

Lemma login_answers_witness :
  exists r s',
    login ann_login home = (Ok r, s')
    /\ stored s' = stored home /\ trace s' = trace home.
Proof.
  destruct (login_answers ann_login home [JSON_parse ann_json]
              eq_refl eq_refl eq_refl)
    as (r & s' & H1 & H2 & H3 & _).
  exists r, s'. split; [exact H1|]. split; [exact H2|exact H3].
Defined.

Lemma scalar_persisted (v : value) :
  scalar v = true -> defined v = true -> persisted v = v.
Proof.
  destruct v as [| | |[| | |z]| | |]; intros H1 H2; try discriminate;
    reflexivity.
Qed.

Lemma scalar_self (v : value) : scalar v = true -> strict_eq v v = true.
Proof.
  destruct v as [| |b|[| | |z]|x| |]; intros H; try discriminate; simpl;
    try reflexivity.
  - now destruct b.
  - apply Z.eqb_refl.
  - apply String.eqb_refl.
Qed.

Lemma persisted_field_dropped (k : string) (props : list (string * value)) :
  (forall v, In (k, v) props -> v = VUndefined) ->
  field (persisted (VObj props)) k = VUndefined.
Proof.
  intros H. unfold persisted. simpl.
  induction props as [|[k' x] rest IH]; simpl; [reflexivity|].
  assert (Hrest : forall v, In (k, v) rest -> v = VUndefined)
    by (intros v Hv; apply H; now right).
  destruct (JSON_stringify x) as [j|] eqn:Ej; simpl; [|now apply IH].
  destruct (k' =? k)%string eqn:E; [|now apply IH].
  apply String.eqb_eq in E as ->.
  rewrite (H x) in Ej by now left. discriminate.
Qed.

Lemma new_user_field (w : world) (r : nat) (req : request) (k : string) :
  In k ["email"; "password"] ->
  scalar (field (body req) k) = true ->
  field (persisted (new_user w r req)) k = field (body req) k.
Proof.
  intros Hk Hs. unfold new_user.
  destruct (defined (field (body req) k)) eqn:Hd.
  - rewrite (persisted_field k (field (body req) k)).
    + now apply scalar_persisted.
    + cbn in Hk. destruct Hk as [<-|[<-|[]]]; reflexivity.
    + destruct (field (body req) k) as [| | |[| | |z]| | |];
        discriminate.
  - assert (Hu : field (body req) k = VUndefined)
      by (destruct (field (body req) k); try discriminate; reflexivity).
    rewrite Hu. apply persisted_field_dropped.
    intros v Hin. cbn in Hk, Hin.
    destruct Hk as [<-|[<-|[]]];
      repeat (destruct Hin as [Hin|Hin];
              [try discriminate Hin; injection Hin as <-; exact Hu|]);
      destruct Hin.
Qed.

Lemma find_app_none (f : value -> bool) (l1 l2 : list value) :
  (forall u, In u l1 -> f u = false) -> find f (l1 ++ l2) = find f l2.
Proof.
  induction l1 as [|x l1 IH]; simpl; [reflexivity|]. intros H.
  rewrite (H x) by now left. apply IH. intros u Hu. apply H. now right.
Qed.

(** X6: after a registration, a login with the same email and password is
    answered with the user just stored. *)
Theorem login_after_register (w : world) (req req' : request) (s : state)
  (props : list (string * value)) (us : list value) :
  nullish (body req) = false ->
  nullish (body req') = false ->
  scalar (field (body req) "email") = true ->
  scalar (field (body req) "password") = true ->
  field (body req') "email" = field (body req) "email" ->
  field (body req') "password" = field (body req) "password" ->
  stored s = VObj props ->
  field (stored s) "users" = VArr us ->
  forallb is_object us = true ->
  (forall u, In u us ->
             strict_eq (field u "email") (field (body req) "email") = false) ->
  exists s1 s2 user,
    register w req s
    = (Ok (res_json (VObj [("message", VStr "Registered successfully")])), s1)
    /\ login req' s1 = (Ok (res_json user), s2)
    /\ user = persisted (new_user w (reads s) req)
    /\ field user "email" = field (body req) "email"
    /\ field user "password" = field (body req) "password".
Proof.
  intros Hbody Hbody' Hse Hsp He Hp Hobj Husers Hobjs Hfresh.
  destruct (register_fresh_run w req s props us Hbody Hobj Husers
              (objects_readable _ Hobjs) Hfresh)
    as (s1 & Hrun1 & Hstored1 & _).
  set (user := persisted (new_user w (reads s) req)) in *.
  assert (Hue : field user "email" = field (body req) "email")
    by (apply new_user_field; [cbn; tauto|exact Hse]).
  assert (Hup : field user "password" = field (body req) "password")
    by (apply new_user_field; [cbn; tauto|exact Hsp]).
  assert (Hus1 : field (stored s1) "users" = VArr (us ++ [user])).
  { rewrite Hstored1, field_assign. reflexivity. }
  exists s1, (with_db (stored s1) (after_load s1)), user.
  split; [exact Hrun1|]. split; [|now repeat split].
  rewrite (login_run req' s1 (us ++ [user]) Hbody' Hus1).
  - rewrite He, Hp, find_app_none.
    + cbn [find]. unfold credentials. rewrite Hue, Hup.
      now rewrite !scalar_self.
    + intros u Hu. unfold credentials. now rewrite (Hfresh u Hu).
  - rewrite forallb_app, Hobjs. reflexivity.
Qed.

Lemma login_after_register_witness :
  exists s1 s2 user,
    register quiet bea home
    = (Ok (res_json (VObj [("message", VStr "Registered successfully")])), s1)
    /\ login bea_login s1 = (Ok (res_json user), s2)
    /\ field user "email" = VStr "bea@example.org".
Proof.
  destruct (login_after_register quiet bea bea_login home _
              [JSON_parse ann_json]
              eq_refl eq_refl eq_refl eq_refl eq_refl eq_refl eq_refl eq_refl
              eq_refl)
    as (s1 & s2 & user & H1 & H2 & _ & H4 & _).
  { intros u [<-|[]]. reflexivity. }
  exists s1, s2, user. split; [exact H1|]. split; [exact H2|exact H4].
Defined.

(** *** Medications: adding and deleting *)

Lemma post_med_run (w : world) (req : request) (s : state)
  (props : list (string * value)) (meds : list value) :
  nullish (body req) = false ->
  stored s = VObj props ->
  field (stored s) "meds" = VArr meds ->
  exists s',
    post_med w req s = (Ok (res_json (new_med w (reads s) req)), s')
    /\ stored s'
       = VObj (assign "meds"
                 (VArr (meds ++ [persisted (new_med w (reads s) req)])) props)
    /\ reads s' = S (S (reads s))
    /\ trace s'
       = (trace s ++ [Emit "medicationUpdate"
                        (VObj [("med", new_med w (reads s) req);
                               ("action", VStr "added")])])%list.
Proof.
  intros Hbody Hobj Hmeds.
  pose proof (plain_stored s) as Hplain.
  pose proof (plain_field_array _ _ _ Hplain Hmeds) as Hmp.
  rewrite Hobj in Hplain. simpl in Hplain. fold (plain_props props) in Hplain.
  destruct (after_load_fields s) as (_ & Hr & _ & Ht & _).
  eexists. split; [|split; [|split]].
  - unfold post_med.
    do 4 (step by (now apply get_run)).
    step by apply reload_run.
    step by apply Date_now_run.
    step by apply Date_now_run.
    change (reads (with_reads _ (with_db (stored s) (after_load s))))
      with (S (reads (after_load s))).
    change (reads (with_db (stored s) (after_load s)))
      with (reads (after_load s)).
    rewrite Hr. fold (new_med w (reads s) req).
    step by (apply db_push_run with (props := props) (l := meds);
             [exact Hobj|now rewrite <- Hobj]).
    step by (now apply save_run).
    step by reflexivity.
    reflexivity.
  - cbn [stored file with_file with_trace]. rewrite parse_text_of.
    rewrite (persisted_assign_array _ _ _ Hplain).
    now rewrite map_app, map_persisted_plain.
  - reflexivity.
  - cbn. now rewrite Ht.
Qed.

Lemma new_med_id (w : world) (r : nat) (req : request) :
  field (persisted (new_med w r req)) "id"
  = VStr (Number_toString (Fin (clock w r))).
Proof.
  unfold new_med.
  now rewrite (persisted_field "id" (VStr (Number_toString (Fin (clock w r))))).
Qed.

Lemma filter_all (f : value -> bool) (l : list value) :
  (forall x, In x l -> f x = true) -> filter f l = l.
Proof.
  induction l as [|x l IH]; simpl; [reflexivity|]. intros H.
  rewrite (H x) by now left. f_equal. apply IH. intros y Hy. apply H.
  now right.
Qed.

(** X7: deleting a medication by the id that [POST /meds] answered with
    removes it again: the stored medications are the earlier ones without
    those of that id, and exactly the earlier ones when the id was new. *)
Theorem post_then_delete_med (w : world) (req del : request) (s : state)
  (meds : list value) :
  nullish (body req) = false ->
  field (stored s) "meds" = VArr meds ->
  forallb is_object meds = true ->
  params_id del = Number_toString (Fin (clock w (reads s))) ->
  exists med s1 s2,
    post_med w req s = (Ok (res_json med), s1)
    /\ field med "id" = VStr (params_id del)
    /\ delete_med del s1 = (Ok (res_json (VObj [("ok", VBool true)])), s2)
    /\ field (stored s2) "meds"
       = VArr (filter (fun m => negb (strict_eq (field m "id")
                                        (VStr (params_id del)))) meds)
    /\ ((forall m, In m meds -> field m "id" <> VStr (params_id del)) ->
        field (stored s2) "meds" = VArr meds).
Proof.
  intros Hbody Hmeds Hobjs Hid.
  destruct (field_array_object _ _ _ Hmeds) as (props & Hobj).
  destruct (post_med_run w req s props meds Hbody Hobj Hmeds)
    as (s1 & Hrun1 & Hstored1 & _).
  set (med := persisted (new_med w (reads s) req)) in *.
  assert (Hmid : field med "id" = VStr (params_id del))
    by (rewrite Hid; apply new_med_id).
  assert (Hm1 : field (stored s1) "meds" = VArr (meds ++ [med])).
  { rewrite Hstored1, field_assign. reflexivity. }
  destruct (delete_med_run del s1 _ (meds ++ [med]) Hstored1)
    as (s2 & Hrun2 & Hstored2 & _).
  { now rewrite Hm1. }
  { rewrite readable_app, (objects_readable _ Hobjs). reflexivity. }
  assert (Hkept : field (stored s2) "meds"
                  = VArr (filter (fun m => negb (strict_eq (field m "id")
                                                   (VStr (params_id del))))
                            meds)).
  { rewrite Hstored2, field_assign. cbn [String.eqb Ascii.eqb Bool.eqb].
    rewrite filter_app. cbn [filter]. rewrite Hmid. cbn [strict_eq].
    rewrite String.eqb_refl. cbn [negb]. now rewrite app_nil_r. }
  exists (new_med w (reads s) req), s1, s2.
  split; [exact Hrun1|]. split; [now rewrite Hid|].
  split; [exact Hrun2|]. split; [exact Hkept|].
  intros Hnew. rewrite Hkept. f_equal. apply filter_all.
  intros m Hm. apply negb_true_iff.
  destruct (strict_eq (field m "id") (VStr (params_id del))) eqn:E;
    [|reflexivity].
  apply strict_eq_string in E. now destruct (Hnew m Hm).
Qed.

Lemma post_then_delete_med_witness :
  exists med s1 s2,
    post_med quiet pill home = (Ok (res_json med), s1)
    /\ delete_med first_id s1
       = (Ok (res_json (VObj [("ok", VBool true)])), s2)
    /\ field (stored s2) "meds" = field (stored home) "meds".
Proof.
  destruct (post_then_delete_med quiet pill first_id home
              (map JSON_parse [med "1699999991000" "Donepezil";
                               med "1699999992000" "Memantine"])
              eq_refl eq_refl eq_refl eq_refl)
    as (m & s1 & s2 & H1 & _ & H3 & _ & H5).
  exists m, s1, s2. split; [exact H1|]. split; [exact H3|].
  apply H5. intros x [<-|[<-|[]]]; discriminate.
Defined.

(** *** Notifications made over HTTP *)





(** *** Journals over HTTP *)

(** The end of a handler that makes a notification and answers. *)
Lemma push_save_then {A} (n : value) (rest : M A) (s s' : state) (a : A) :
  quiet_on_store rest ->
  (db_push "notifications" n ;; save ;; rest) s = (Ok a, s') ->
  exists l,
    field (stored s') "notifications" = VArr (map persisted l ++ [persisted n]).
Proof.
  intros Hq H.
  apply bind_inv in H as ([] & s1 & Hpush & H).
  apply bind_inv in H as ([] & s2 & Hsave & H).
  apply db_push_inv in Hpush as (props & l & Hd & Hl & ->).
  erewrite save_run in Hsave by reflexivity. injection Hsave as <-.
  exists l. rewrite (Hq _ _ _ H).
  cbn [stored file with_file]. rewrite parse_text_of.
  rewrite (persisted_field "notifications" (VArr (l ++ [n]))).
  - now rewrite persisted_array, map_app.
  - rewrite lookup_assign. now rewrite String.eqb_refl.
  - discriminate.
Qed.

(** X9: the entry that [POST /journals] answers with has a string as id, but
    the notification it stores has a number: after any sequence of
    [DELETE /notifications/:id] requests that notification is still stored
    at its place with [read] false. *)
Theorem http_journal_notice_stays_unread (w : world) (req : request)
  (s s1 : state) (r : response) :
  post_journal w req s = (Ok r, s1) ->
  exists id before n z,
    field (sent r) "id" = VStr id
    /\ field (stored s1) "notifications" = VArr (before ++ [n])
    /\ field n "id" = VNum (Fin z)
    /\ field n "read" = VBool false
    /\ forall reqs : list request,
         exists l,
           field (stored (after_marking reqs s1)) "notifications" = VArr l
           /\ nth_error l (List.length before) = Some n.
Proof.
  unfold post_journal. intros H.
  do 5 (apply bind_inv in H as (? & ? & _ & H)).
  do 3 (apply bind_inv in H as ([] & ? & _ & H)).
  do 2 (apply bind_inv in H as (? & ? & _ & H)).
  assert (Hr : exists id, field (sent r) "id" = VStr id).
  { do 4 (apply bind_inv in H as (? & ? & _ & H)).
    injection H as <- _. now eexists. }
  destruct Hr as (id & Hr).
  apply push_save_then in H as (l & H).
  - eexists id, _, _, _. split; [exact Hr|]. split; [exact H|].
    split; [reflexivity|]. split; [reflexivity|].
    intros reqs.
    eapply after_marking_keeps_numeric; [exact H| |reflexivity].
    rewrite nth_error_app2 by lia. now rewrite Nat.sub_diag.
  - apply quiet_bind; [apply quiet_io_emit|]. intros _.
    apply quiet_bind; [apply quiet_dispatch|]. intros _. apply quiet_ret.
Qed.

Lemma http_journal_notice_stays_unread_witness :
  exists before n z,
    field (stored (snd (post_journal quiet jot home))) "notifications"
    = VArr (before ++ [n])
    /\ field n "id" = VNum (Fin z)
    /\ exists l,
         field (stored (after_marking [first_id]
                          (snd (post_journal quiet jot home))))
           "notifications" = VArr l
         /\ nth_error l (List.length before) = Some n.
Proof.
  destruct (http_journal_notice_stays_unread quiet jot home
              (snd (post_journal quiet jot home))
              (res_json (VObj [("id", VStr "1700000000000");
                               ("author", VStr "Ann");
                               ("text", VStr "A calm day");
                               ("time", VNum (Fin 1700000000001))])))
    as (id & before & n & z & _ & H2 & H3 & _ & H5);
    [vm_compute; reflexivity|].
  exists before, n, z. split; [exact H2|]. split; [exact H3|]. apply H5.
Defined.

(** *** Subscriptions *)

(** X10: [POST /subscribe] stores the body it is given as the last
    subscription, making the sequence when the document has none; with both
    keys set the dispatcher then sends to the earlier subscriptions and to
    that one, in that order. *)
Theorem subscription_is_served (w : world) (req : request) (n : value)
  (s : state) (props : list (string * value)) (subs : list value) :
  configured w = true ->
  stored s = VObj props ->
  or_else (field (stored s) "webpushSubscriptions") (VArr []) = VArr subs ->
  nullish n = false ->
  exists s1 s2,
    subscribe req s = (Ok (res_json (VObj [("ok", VBool true)])), s1)
    /\ field (stored s1) "webpushSubscriptions"
       = VArr (subs ++ [persisted (body req)])
    /\ sendWebPushNotification w n s1 = (Ok (Fulfilled VUndefined), s2)
    /\ trace s2
       = (trace s ++ map (fun sub => Send sub (envelope n))
                       (subs ++ [persisted (body req)]))%list
    /\ sends s2 = (sends s1 + S (List.length subs))%nat.
Proof.
  intros Hc Hobj Hsubs Hn.
  destruct (subscribe_run req s props subs Hobj Hsubs)
    as (s1 & Hrun & Hstored & Ht).
  assert (Hs1 : field (stored s1) "webpushSubscriptions"
                = VArr (subs ++ [persisted (body req)])).
  { rewrite Hstored, field_assign. reflexivity. }
  eexists s1, _. split; [exact Hrun|]. split; [exact Hs1|].
  split; [exact (dispatcher_configured_run w n s1 _ Hc Hs1 Hn)|].
  cbn [trace sends]. rewrite Ht, length_app. cbn [List.length].
  split; [reflexivity|]. f_equal. lia.
Qed.

Lemma subscription_is_served_witness :
  exists s1 s2,
    subscribe (mkRequest (JSON_parse (phone "https://push.example/d")) "") home
    = (Ok (res_json (VObj [("ok", VBool true)])), s1)
    /\ sendWebPushNotification keyed notice s1 = (Ok (Fulfilled VUndefined), s2)
    /\ sends s2 = (sends s1 + 4)%nat.
Proof.
  destruct (subscription_is_served keyed
              (mkRequest (JSON_parse (phone "https://push.example/d")) "")
              notice home _
              (map JSON_parse [phone "https://push.example/a";
                               phone "https://push.example/b";
                               phone "https://push.example/c"])
              eq_refl eq_refl eq_refl eq_refl)
    as (s1 & s2 & H1 & _ & H3 & _ & H5).
  exists s1, s2. split; [exact H1|]. split; [exact H3|exact H5].
Defined.

(** *** Reading a sequence *)

(** X11: a GET of a sequence answers 200 with what the stored document has
    under that name, or an empty array when that is missing or falsy; it
    broadcasts nothing and leaves the document as it is.  When the file is
    missing or cannot be parsed the answer is empty, for every name, and the
    request has written the default document to the file. *)
Theorem get_answers_stored (k : string) (s : state) :
  nullish (stored s) = false ->
  exists s',
    get_sequence k s
    = (Ok (res_json (or_else (field (stored s) k) (VArr []))), s')
    /\ stored s' = stored s /\ trace s' = trace s
    /\ ((forall j, file s <> Text j) ->
        or_else (field (stored s) k) (VArr []) = VArr []
        /\ file s' = Text empty_json).
Proof.
  intros Hn. destruct (after_load_fields s) as (_ & _ & _ & Ht & _).
  exists (with_db (stored s) (after_load s)). split; [|split; [|split]].
  - unfold get_sequence.
    step by apply reload_run.
    step by (apply db_get_run; exact Hn).
    reflexivity.
  - change (stored (with_db (stored s) (after_load s)))
      with (stored (after_load s)). apply stored_after_load.
  - exact Ht.
  - intros Hfile. unfold stored, after_load.
    destruct (file s) as [|raw|j] eqn:E; [| |now destruct (Hfile j)].
    + split; [|reflexivity]. unfold empty. cbn [field lookup].
      repeat (destruct (String.eqb _ k); [reflexivity|]). reflexivity.
    + split; [|reflexivity]. unfold empty. cbn [field lookup].
      repeat (destruct (String.eqb _ k); [reflexivity|]). reflexivity.
Qed.

Lemma get_answers_stored_witness :
  exists s',
    get_sequence "meds" corrupt = (Ok (res_json (VArr [])), s')
    /\ file s' = Text empty_json.
Proof.
  destruct (get_answers_stored "meds" corrupt eq_refl)
    as (s' & H1 & _ & _ & H4).
  destruct H4 as [H4 H5]; [discriminate|].
  exists s'. split; [|exact H5]. rewrite H1. reflexivity.
Defined.

(** *** The dispatcher and the shared document *)

(** X12: whatever the keys, the subscriptions and the payload, a call of the
    dispatcher as every handler makes it returns without throwing, leaves
    the stored document as it is, and leaves in [db] the document it has
    loaded: changes made to [db] and not saved are gone. *)
Theorem dispatch_is_contained (w : world) (n : value) (s : state) :
  exists s',
    dispatch w n s = (Ok tt, s')
    /\ stored s' = stored s /\ db s' = stored s.
Proof.
  destruct (sendWebPushNotification_returns w n s) as (p & s1 & Hrun & Hf & Hd).
  assert (Hi : inert (catch_warn "" p ;; ret tt)) by inertia.
  destruct ((catch_warn "" p ;; ret tt) s1) as [r s'] eqn:E.
  destruct (Hi _ _ _ E) as [Hf' Hd'].
  destruct (dispatch_returns w n s) as (s2 & Hok).
  assert (Hs : dispatch w n s = (r, s')).
  { unfold dispatch. unfold bind at 1. rewrite Hrun.
    unfold bind in E |- *. exact E. }
  rewrite Hok in Hs. injection Hs as <- <-.
  exists s2. split; [exact Hok|]. split.
  - unfold stored at 1. rewrite Hf', Hf. fold (stored (after_load s)).
    apply stored_after_load.
  - now rewrite Hd'.
Qed.

(** *** The window of the reminder runner *)

(** X13: the windows of two ticks at least a minute apart have no appointment
    in common, whatever its time is. *)
Theorem windows_do_not_overlap (w : world) (now now' : Z) (a : value)
  (s s' : state) :
  now + 60000 <= now' ->
  is_soon w now a s = (Ok true, s) ->
  is_soon w now' a s' = (Ok false, s').
Proof.
  intros Hlate. unfold is_soon, bind, lift, get, ret.
  destruct (nullish a); [discriminate|].
  intros [= H]. f_equal. f_equal.
  apply andb_true_iff in H as [H Hle].
  apply andb_true_iff in H as [Htruthy Hgt]. rewrite Htruthy.
  unfold gt, le in *. change (60 * 1000) with 60000 in *.
  destruct (ToNumber w (field a "time")) as [| | |t];
    cbn [number_ltb number_leb negb andb] in *; try discriminate.
  apply negb_true_iff, Z.ltb_ge in Hle.
  replace (now' <? t) with false by (symmetry; apply Z.ltb_ge; lia).
  reflexivity.
Qed.

Lemma windows_do_not_overlap_witness :
  is_soon quiet 1700000060000
    (JSON_parse (visit "1699999993000" "Neurologist" 1700000030000)) home
  = (Ok false, home).
Proof.
  apply (windows_do_not_overlap quiet 1700000000000 1700000060000 _ home home);
    [lia|reflexivity].
Defined.

(** X14: with ticks exactly a minute apart, starting at [now0], an appointment
    whose time is a number after [now0] is selected by one tick and no
    other. *)
Theorem one_tick_selects (w : world) (now0 t : Z) (a : value) :
  0 <= now0 < t ->
  field a "time" = VNum (Fin t) ->
  exists k,
    0 <= k
    /\ (forall s, is_soon w (now0 + 60000 * k) a s = (Ok true, s))
    /\ forall k', k' <> k ->
         forall s, is_soon w (now0 + 60000 * k') a s = (Ok false, s).
Proof.
  intros Ht Ha.
  assert (Hna : nullish a = false) by (destruct a; try discriminate; reflexivity).
  assert (Hrun : forall now s,
            is_soon w now a s = (Ok ((now <? t) && (t <=? now + 60000)), s)).
  { intros now s. unfold is_soon, bind, lift, get, ret. rewrite Hna, Ha.
    unfold gt, le. cbn [truthy ToNumber number_ltb number_leb].
    change (60 * 1000) with 60000.
    replace (t =? 0) with false by (symmetry; apply Z.eqb_neq; lia).
    cbn [negb andb]. now rewrite Z.leb_antisym. }
  exists ((t - now0 - 1) / 60000).
  pose proof (Z.div_mod (t - now0 - 1) 60000 ltac:(lia)) as Hdm.
  pose proof (Z.mod_pos_bound (t - now0 - 1) 60000 ltac:(lia)) as Hb.
  split; [apply Z.div_pos; lia|]. split.
  - intros s. rewrite Hrun. do 2 f_equal.
    apply andb_true_iff. split; [apply Z.ltb_lt|apply Z.leb_le]; lia.
  - intros k' Hk' s. rewrite Hrun. do 2 f_equal.
    apply andb_false_iff.
    destruct (Z.lt_trichotomy k' ((t - now0 - 1) / 60000)) as [Hlt|[Heq|Hgt]];
      [right; apply Z.leb_gt; lia|contradiction|left; apply Z.ltb_ge; lia].
Qed.

Lemma one_tick_selects_witness :
  exists k,
    0 <= k
    /\ forall s,
         is_soon quiet (1700000000000 + 60000 * k)
           (JSON_parse (visit "1699999994000" "Dentist" 1700000900000)) s
         = (Ok true, s).
Proof.
  destruct (one_tick_selects quiet 1700000000000 1700000900000
              (JSON_parse (visit "1699999994000" "Dentist" 1700000900000)))
    as (k & H1 & H2 & _); [lia|reflexivity|].
  exists k. split; [exact H1|exact H2].
Defined.

(** *** Appointments and the reminder runner *)









(** *** Identifiers *)

(** X17: two [POST /meds] served within the same millisecond give their
    medications the same id; a [DELETE /meds/:id] with that id then removes
    both. *)
Theorem same_millisecond_meds (w : world) (req1 req2 del : request)
  (s : state) (meds : list value) :
  nullish (body req1) = false ->
  nullish (body req2) = false ->
  field (stored s) "meds" = VArr meds ->
  forallb is_object meds = true ->
  clock w (S (S (reads s))) = clock w (reads s) ->
  params_id del = Number_toString (Fin (clock w (reads s))) ->
  exists m1 m2 s1 s2 s3,
    post_med w req1 s = (Ok (res_json m1), s1)
    /\ post_med w req2 s1 = (Ok (res_json m2), s2)
    /\ field m1 "id" = VStr (params_id del)
    /\ field m2 "id" = VStr (params_id del)
    /\ field (stored s2) "meds" = VArr (meds ++ [persisted m1; persisted m2])
    /\ delete_med del s2 = (Ok (res_json (VObj [("ok", VBool true)])), s3)
    /\ field (stored s3) "meds"
       = VArr (filter (fun m => negb (strict_eq (field m "id")
                                        (VStr (params_id del)))) meds).
Proof.
  intros Hb1 Hb2 Hmeds Hobjs Hclock Hid.
  destruct (field_array_object _ _ _ Hmeds) as (props & Hobj).
  destruct (post_med_run w req1 s props meds Hb1 Hobj Hmeds)
    as (s1 & Hrun1 & Hstored1 & Hr1 & _).
  set (m1 := new_med w (reads s) req1) in *.
  assert (Hm1 : field (stored s1) "meds" = VArr (meds ++ [persisted m1])).
  { rewrite Hstored1, field_assign. reflexivity. }
  destruct (post_med_run w req2 s1 _ _ Hb2 Hstored1 Hm1)
    as (s2 & Hrun2 & Hstored2 & _).
  rewrite Hr1 in Hrun2, Hstored2. rewrite assign_assign in Hstored2.
  set (m2 := new_med w (S (S (reads s))) req2) in *.
  assert (Hm2 : field (stored s2) "meds"
                = VArr (meds ++ [persisted m1; persisted m2])).
  { rewrite Hstored2, field_assign. cbn [String.eqb Ascii.eqb Bool.eqb].
    now rewrite <- app_assoc. }
  assert (Hid1 : field (persisted m1) "id" = VStr (params_id del))
    by (rewrite Hid; apply new_med_id).
  assert (Hid2 : field (persisted m2) "id" = VStr (params_id del))
    by (rewrite Hid, <- Hclock; apply new_med_id).
  destruct (delete_med_run del s2 _ (meds ++ [persisted m1; persisted m2])
              Hstored2)
    as (s3 & Hrun3 & Hstored3 & _).
  { now rewrite Hm2. }
  { rewrite readable_app, (objects_readable _ Hobjs).
    unfold m1, m2, new_med, persisted. reflexivity. }
  exists m1, m2, s1, s2, s3.
  split; [exact Hrun1|]. split; [exact Hrun2|].
  split; [now rewrite Hid|]. split; [now rewrite Hid, <- Hclock|].
  split; [exact Hm2|]. split; [exact Hrun3|].
  rewrite Hstored3, field_assign. cbn [String.eqb Ascii.eqb Bool.eqb].
  rewrite filter_app. cbn [filter]. rewrite Hid1, Hid2. cbn [strict_eq].
  rewrite String.eqb_refl. cbn [negb]. now rewrite app_nil_r.
Qed.

Lemma same_millisecond_meds_witness :
  exists m1 m2 s1 s2 s3,
    post_med frozen pill home = (Ok (res_json m1), s1)
    /\ post_med frozen pill s1 = (Ok (res_json m2), s2)
    /\ field m1 "id" = field m2 "id"
    /\ delete_med first_id s2 = (Ok (res_json (VObj [("ok", VBool true)])), s3)
    /\ field (stored s3) "meds" = field (stored home) "meds".
Proof.
  destruct (same_millisecond_meds frozen pill pill first_id home
              (map JSON_parse [med "1699999991000" "Donepezil";
                               med "1699999992000" "Memantine"])
              eq_refl eq_refl eq_refl eq_refl eq_refl eq_refl)
    as (m1 & m2 & s1 & s2 & s3 & H1 & H2 & H3 & H4 & _ & H6 & H7).
  exists m1, m2, s1, s2, s3. split; [exact H1|]. split; [exact H2|].
  split; [now rewrite H3, H4|]. split; [exact H6|]. rewrite H7. reflexivity.
Defined.

(** *** Locations *)

Lemma db_push_with_run (k : string) (arg : M value) (s s1 : state)
  (props : list (string * value)) (l : list value) (x : value) :
  db s = VObj props ->
  field (VObj props) k = VArr l ->
  arg s = (Ok x, s1) ->
  db_push_with k arg s
  = (Ok tt, with_db (VObj (assign k (VArr (l ++ [x])) props)) s1).
Proof.
  intros Hd Hl Harg. unfold db_push_with.
  step by reflexivity. rewrite Hd.
  step by reflexivity. rewrite Hl. cbn [nullish].
  step by reflexivity.
  step by exact Harg.
  reflexivity.
Qed.

(** X18: an [updateLocation] event with a payload appends one point to the
    location history, with the payload's timestamp as time when that is
    truthy and the clock's otherwise, and broadcasts the payload as it
    came. *)
Theorem location_is_stored (w : world) (payload : value) (s : state)
  (props : list (string * value)) (points : list value) :
  nullish payload = false ->
  stored s = VObj props ->
  field (stored s) "locationHistory" = VArr points ->
  exists s',
    on_updateLocation w payload s = (Ok tt, s')
    /\ field (stored s') "locationHistory"
       = VArr (points ++ [persisted (location_point w (reads s) payload)])
    /\ (forall k, k <> "locationHistory" ->
          field (stored s') k = field (stored s) k)
    /\ trace s' = (trace s ++ [Emit "locationUpdate" payload])%list
    /\ reads s' = (if truthy (field payload "timestamp")
                   then S (reads s) else S (S (reads s))).
Proof.
  intros Hp Hobj Hpoints.
  pose proof (plain_stored s) as Hplain.
  pose proof (plain_field_array _ _ _ Hplain Hpoints) as Hpp.
  rewrite Hobj in Hplain. simpl in Hplain. fold (plain_props props) in Hplain.
  destruct (after_load_fields s) as (_ & Hr & _ & Ht & _).
  set (s0 := with_db (stored s) (after_load s)).
  set (r' := if truthy (field payload "timestamp")
             then S (reads s) else S (S (reads s))).
  assert (Harg :
    (id <- Date_now w ;;
     userId <- lift (get payload "userId") ;;
     lat <- lift (get payload "lat") ;;
     lng <- lift (get payload "lng") ;;
     given <- lift (get payload "timestamp") ;;
     time <- (if truthy given then ret given
              else t <- Date_now w ;; ret (VNum (Fin t))) ;;
     ret (VObj [("id", VNum (Fin id)); ("userId", userId); ("lat", lat);
                ("lng", lng); ("time", time)])) s0
    = (Ok (location_point w (reads s) payload), with_reads r' s0)).
  { step by apply Date_now_run.
    do 4 (step by (now apply get_run)).
    unfold location_point, r'. cbn [reads s0 with_db with_reads]. rewrite Hr.
    destruct (truthy (field payload "timestamp")).
    - step by reflexivity. reflexivity.
    - erewrite bind_ok by (step by apply Date_now_run; reflexivity).
      cbv beta. cbn [reads with_reads]. reflexivity. }
  eexists. split; [|split; [|split; [|split]]].
  - unfold on_updateLocation.
    step by apply reload_run. fold s0.
    step by (apply db_push_with_run with (props := props) (l := points);
             [exact Hobj|now rewrite <- Hobj|exact Harg]).
    step by (now apply save_run).
    reflexivity.
  - cbn [stored file with_file with_trace]. rewrite parse_text_of.
    rewrite (persisted_assign_array _ _ _ Hplain), field_assign.
    cbn [String.eqb Ascii.eqb Bool.eqb].
    now rewrite map_app, map_persisted_plain.
  - intros k Hk. cbn [stored file with_file with_trace].
    rewrite parse_text_of, (persisted_assign_array _ _ _ Hplain), Hobj.
    now apply field_assign_other.
  - cbn. now rewrite Ht.
  - reflexivity.
Qed.

Lemma location_is_stored_witness :
  exists s',
    on_updateLocation quiet walk home = (Ok tt, s')
    /\ field (stored s') "locationHistory"
       = VArr [VObj [("id", VNum (Fin 1700000000000)); ("userId", VStr "bob");
                     ("lat", VNum (Fin 52)); ("lng", VNum (Fin 13));
                     ("time", VNum (Fin 1700000000001))]]
    /\ reads s' = 2%nat.
Proof.
  destruct (location_is_stored quiet walk home _ [] eq_refl eq_refl eq_refl)
    as (s' & H1 & H2 & _ & _ & H5).
  exists s'. split; [exact H1|]. split; [exact H2|exact H5].
Defined.

Lemma on_updateLocation_throws (w : world) (payload : value) (s : state) :
  nullish payload = true ->
  nullish (field (stored s) "locationHistory") = false ->
  exists s',
    on_updateLocation w payload s = (Throw unreadable, s')
    /\ stored s' = stored s /\ trace s' = trace s
    /\ reads s' = S (reads s).
Proof.
  intros Hp Hl.
  assert (Hobj : nullish (stored s) = false).
  { destruct (stored s); try reflexivity; discriminate. }
  destruct (after_load_fields s) as (_ & Hr & _ & Ht & _).
  eexists. split; [|split; [|split]].
  - unfold on_updateLocation.
    step by apply reload_run.
    apply bind_throw. unfold db_push_with.
    step by reflexivity. cbn [db with_db].
    step by (now apply get_run). rewrite Hl.
    step by reflexivity.
    apply bind_throw.
    step by apply Date_now_run.
    apply bind_throw. unfold lift, get. rewrite Hp. reflexivity.
  - cbn [stored file with_reads with_db].
    change (stored (with_reads _ (with_db (stored s) (after_load s))))
      with (stored (after_load s)). apply stored_after_load.
  - cbn. exact Ht.
  - cbn. now rewrite Hr.
Qed.

(** *** Handlers that return *)


Section Returning.

Variable floor : string -> nat.















Lemma total_weaken {A} (P P' : state -> Prop) (m : M A) :
  (forall s, P' s -> P s) -> total P m -> total P' m.
Proof. intros H Hm s HP. apply Hm, H, HP. Qed.




End Returning.






Section Served.

Variable floor : string -> nat.
Variable w : world.




















End Served.





Lemma void_throws {A} (m : M A) (s s' : state) (e : error) :
  m s = (Throw e, s') -> void m s = (Throw e, s').
Proof. intros H. unfold void. now apply bind_throw. Qed.

Lemma bodyless_throws {B} (o : value) (k : string) (K : value -> M B)
  (s : state) :
  nullish o = true ->
  void (x <- lift (get o k) ;; K x) s = (Throw unreadable, s).
Proof.
  intros H. apply void_throws, bind_throw. now apply get_null_run.
Qed.

(** X20: an action that lacks what its handler reads makes the handler throw
    a TypeError before it has written or broadcast anything. *)
Theorem unfit_action_throws (w : world) (a : action) (s : state) :
  document (stored s) = true ->
  fit a = false ->
  exists s',
    handle w a s = (Throw unreadable, s')
    /\ stored s' = stored s /\ trace s' = trace s.
Proof.
  intros Hdoc Hfit.
  destruct (document_above_object _ _ Hdoc) as (props & Hobj).
  destruct (after_load_fields s) as (_ & _ & _ & Ht & _).
  assert (Hkept : forall r,
            stored (with_reads r (with_db (stored s) (after_load s)))
            = stored s).
  { intros r. transitivity (stored (after_load s)); [reflexivity|].
    apply stored_after_load. }
  destruct a; cbn [fit] in Hfit; try discriminate;
    apply negb_false_iff in Hfit; cbn [handle];
    unfold register, login, uploadPerson, post_med, mark_taken, post_journal,
      post_appointment, post_sos.
  - exists s. split; [now apply bodyless_throws|now split].
  - exists s. split; [now apply bodyless_throws|now split].
  - exists s. split; [now apply bodyless_throws|now split].
  - exists s. split; [now apply bodyless_throws|now split].
  - exists s. split; [now apply bodyless_throws|now split].
  - exists s. split; [now apply bodyless_throws|now split].
  - exists s. split; [now apply bodyless_throws|now split].
  - exists s. split; [now apply bodyless_throws|now split].
  - destruct (held_sequence (fun _ => 0%nat) s "locationHistory" anything
                Hdoc) as (_ & l & _ & Hl & _); [cbn; tauto|].
    destruct (on_updateLocation_throws w payload s Hfit) as (s' & E & H1 & H2 & _).
    { now rewrite Hl. }
    now exists s'.
  - eexists. split; [|split].
    + unfold on_sos.
      step by apply reload_run.
      step by apply Date_now_run.
      apply bind_throw. now apply get_null_run.
    + apply Hkept.
    + exact Ht.
  - eexists. split; [|split].
    + unfold on_journal.
      step by apply reload_run.
      apply bind_throw. now apply get_null_run.
    + apply (Hkept (reads (after_load s))).
    + exact Ht.
Qed.

Lemma unfit_action_throws_witness :
  exists s',
    handle quiet (PostSos first_id) home = (Throw unreadable, s')
    /\ stored s' = stored home.
Proof.
  destruct (unfit_action_throws quiet (PostSos first_id) home
              eq_refl eq_refl)
    as (s' & H1 & H2 & _).
  exists s'. split; [exact H1|exact H2].
Defined.

(** *** Patients *)

(** X21: [POST /uploadPerson] appends one patient, made of the text fields of
    the form and of the name the uploaded file was stored under, or null
    when no file came; it answers 200 and broadcasts nothing. *)
Theorem upload_stores_patient (w : world) (req : upload) (s : state)
  (props : list (string * value)) (patients : list value) :
  nullish (fields req) = false ->
  stored s = VObj props ->
  field (stored s) "patients" = VArr patients ->
  exists s' patient,
    uploadPerson w req s
    = (Ok (res_json (VObj [("message", VStr "Person saved successfully")])), s')
    /\ field (stored s') "patients" = VArr (patients ++ [patient])
    /\ patient = persisted (new_patient w (reads s) req)
    /\ field patient "id" = VNum (Fin (clock w (reads s)))
    /\ field patient "photo" = match photo req with
                               | Some filename => VStr filename
                               | None => VNull
                               end
    /\ (forall k, k <> "patients" -> field (stored s') k = field (stored s) k)
    /\ trace s' = trace s.
Proof.
  intros Hf Hobj Hpatients.
  pose proof (plain_stored s) as Hplain.
  pose proof (plain_field_array _ _ _ Hplain Hpatients) as Hpp.
  rewrite Hobj in Hplain. simpl in Hplain. fold (plain_props props) in Hplain.
  destruct (after_load_fields s) as (_ & Hr & _ & Ht & _).
  eexists _, _. split; [|split; [|split; [reflexivity|split; [|split; [|split]]]]].
  - unfold uploadPerson.
    do 4 (step by (now apply get_run)).
    step by apply reload_run.
    step by (apply db_push_with_run with (props := props) (l := patients);
             [exact Hobj|now rewrite <- Hobj
             |step by apply Date_now_run; reflexivity]).
    step by (now apply save_run).
    reflexivity.
  - cbn [stored file with_file with_trace with_reads with_db reads].
    rewrite parse_text_of, (persisted_assign_array _ _ _ Hplain), field_assign.
    cbn [String.eqb Ascii.eqb Bool.eqb]. rewrite Hr.
    now rewrite map_app, map_persisted_plain.
  - unfold new_patient.
    now rewrite (persisted_field "id" (VNum (Fin (clock w (reads s))))).
  - unfold new_patient. destruct (photo req) as [filename|].
    + now rewrite (persisted_field "photo" (VStr filename)).
    + now rewrite (persisted_field "photo" VNull).
  - intros k Hk. cbn [stored file with_file with_trace].
    rewrite parse_text_of, (persisted_assign_array _ _ _ Hplain), Hobj.
    now apply field_assign_other.
  - cbn. exact Ht.
Qed.

Lemma upload_stores_patient_witness :
  exists s' patient,
    uploadPerson quiet carl home
    = (Ok (res_json (VObj [("message", VStr "Person saved successfully")])), s')
    /\ field (stored s') "patients" = VArr [patient]
    /\ field patient "photo" = VNull.
Proof.
  destruct (upload_stores_patient quiet carl home _ [] eq_refl eq_refl eq_refl)
    as (s' & patient & H1 & H2 & _ & _ & H5 & _).
  exists s', patient. split; [exact H1|]. split; [exact H2|exact H5].
Defined.
